(** * CITADEL: the rule-based classifiers and the expense outlier detector

    A shallow embedding of the decision logic of the citizen modules:
    - [classifyTicket]     (support-ticket routing, SupportTickets component),
    - [categorizeExpense]  and the [anomalies] computation
                           (components/citizen/ExpenseCategorizer.jsx),
    - [analyzeText]        (components/citizen/FakeNewsDetector.jsx).

    Conventions of the embedding.
    - A JavaScript string is a [string], the list of its code units, of
      which the embedding has the first 256; [String.prototype.toLowerCase]
      and [toUpperCase] are Section variables, so every statement holds for
      any case mapping (the trigger keywords are plain lower-case literals).
    - A JavaScript number is an exact rational ([Q]); the only irrational
      operation, [Math.sqrt], yields a real ([R]).  Binary64 rounding, [NaN]
      and the infinities are not part of the model; the divisions of the code
      are by array lengths that are positive where they are evaluated.
    - [Math.random()] is an explicit argument: a rational for a single draw,
      a function [nat -> Q] (the n-th draw) where a computation draws more
      than once.
    - An object literal iterated with [Object.entries] is an association list
      in declaration order; the object [categoryStats], used as a dictionary,
      is a [gmap] under the properties inherited from [Object.prototype].
    - A thrown [TypeError] is the [TypeError] outcome of [Js.result]. *)

From Stdlib Require Import String Ascii List ZArith QArith Qround Qabs Qminmax.
From Stdlib Require Import Reals Qreals Lra Lia Lqa.
From stdpp Require Import base option list gmap strings.

Local Open Scope string_scope.

(** ** JavaScript primitives used by the components *)

Module Js.

(** Outcome of a computation that may throw. *)
Inductive result (A : Type) : Type :=
| Ok (a : A)
| TypeError.
Arguments Ok {A} a.
Arguments TypeError {A}.

#[global] Instance result_ret : MRet result := fun A a => Ok a.
#[global] Instance result_bind : MBind result := fun A B f m =>
  match m with
  | Ok a => f a
  | TypeError => TypeError
  end.

#[global] Instance result_fmap : FMap result := fun A B f m =>
  match m with
  | Ok a => Ok (f a)
  | TypeError => TypeError
  end.

(** [Array.prototype.forEach] with a body that updates one accumulator and
    may throw. *)
Fixpoint forEachM {A S : Type} (body : S -> A -> result S) (l : list A) (s : S)
  : result S :=
  match l with
  | [] => Ok s
  | a :: l' => s' ← body s a; forEachM body l' s'
  end.

(** [Array.prototype.filter] with a callback that may throw. *)
Fixpoint filterM {A : Type} (p : A -> result bool) (l : list A) : result (list A) :=
  match l with
  | [] => Ok []
  | a :: l' =>
      b ← p a;
      r ← filterM p l';
      Ok (if b : bool then a :: r else r)
  end.

(** [s.includes(k)]: [k] occurs in [s] as a contiguous substring. *)
Fixpoint includes (s k : string) : bool :=
  String.prefix k s
  || match s with
     | EmptyString => false
     | String _ s' => includes s' k
     end.

(** [words.filter(w => text.includes(w)).length] *)
Definition countHits (text : string) (words : list string) : nat :=
  List.length (List.filter (includes text) words).

(** [words.some(w => text.includes(w))] *)
Definition someHit (text : string) (words : list string) : bool :=
  List.existsb (includes text) words.

(** The code units matched by [\s] (and removed by [trim]) among the first
    256: tab to carriage return, the space and the no-break space. *)
Definition isSpace (c : ascii) : bool :=
  let n := nat_of_ascii c in
  ((9 <=? n)%nat && (n <=? 13)%nat) || (n =? 32)%nat || (n =? 160)%nat.

(** The text is empty or consists of white space only. *)
Fixpoint blank (s : string) : bool :=
  match s with
  | EmptyString => true
  | String c s' => isSpace c && blank s'
  end.

(** The string is not empty and starts with a visible character. *)
Definition visibleStart (k : string) : bool :=
  match k with
  | EmptyString => false
  | String c _ => negb (isSpace c)
  end.

(** The property names every object inherits from [Object.prototype]. *)
Definition objectPrototypeKeys : list string :=
  [ "constructor"; "__defineGetter__"; "__defineSetter__"; "hasOwnProperty";
    "__lookupGetter__"; "__lookupSetter__"; "isPrototypeOf";
    "propertyIsEnumerable"; "toString"; "valueOf"; "__proto__";
    "toLocaleString" ].

(** Result of reading [o[k]] on a plain object used as a dictionary. *)
Inductive property (A : Type) : Type :=
| Own (a : A)
| Inherited
| Undefined.
Arguments Own {A} a.
Arguments Inherited {A}.
Arguments Undefined {A}.

Definition get {A : Type} (o : gmap string A) (k : string) : property A :=
  match o !! k with
  | Some a => Own a
  | None => if bool_decide (k ∈ objectPrototypeKeys) then Inherited else Undefined
  end.

(** [o[k]] on an object literal whose entries are kept in declaration
    order. *)
Fixpoint member {A : Type} (o : list (string * A)) (k : string) : option A :=
  match o with
  | [] => None
  | (k', a) :: o' => if String.eqb k' k then Some a else member o' k
  end.

(** The case mappings restricted to the letters [A-Z] and [a-z]; a concrete
    instance of the Section variables for evaluating examples. *)
Definition lowerChar (c : ascii) : ascii :=
  let n := nat_of_ascii c in
  if (65 <=? n)%nat && (n <=? 90)%nat then ascii_of_nat (n + 32) else c.
Definition upperChar (c : ascii) : ascii :=
  let n := nat_of_ascii c in
  if (97 <=? n)%nat && (n <=? 122)%nat then ascii_of_nat (n - 32) else c.
Fixpoint mapChars (f : ascii -> ascii) (s : string) : string :=
  match s with
  | EmptyString => EmptyString
  | String c s' => String (f c) (mapChars f s')
  end.
Definition asciiLowerCase : string -> string := mapChars lowerChar.
Definition asciiUpperCase : string -> string := mapChars upperChar.

(** The number of array elements, as a number. *)
Definition len {A : Type} (l : list A) : Q := inject_Z (Z.of_nat (List.length l)).

(** The number denoted by [x.toFixed(1)]: the multiple of 1/10 nearest to
    [x], the larger one on a tie. *)
Definition toFixed1 (x : Q) : Q := inject_Z (Qfloor (x * 10 + (1 # 2))) / 10.

End Js.

Import Js.

(** ** The keyword scoring loop

    [Object.entries(table).forEach(([cat, v]) => { const score = ...;
       if (score > bestScore) { bestScore = score; bestCategory = cat; } })]
    written once for the two components that contain it. *)

Section ScoringLoop.
Context {V : Type} (keywordsOf : V -> list string).

Definition scoreStep (text : string) (best : string * nat) (entry : string * V)
  : string * nat :=
  let '(bestCategory, bestScore) := best in
  let '(cat, info) := entry in
  let score := countHits text (keywordsOf info) in
  if (bestScore <? score)%nat then (cat, score) else (bestCategory, bestScore).

Definition scoreAll (text : string) (entries : list (string * V))
    (fallback : string) : string * nat :=
  fold_left (scoreStep text) entries (fallback, 0%nat).

(** No trigger keyword of any category of the table occurs in the text. *)
Definition noTrigger (text : string) (entries : list (string * V)) : Prop :=
  Forall (fun entry => Forall (fun k => includes text k = false) (keywordsOf (snd entry)))
         entries.
End ScoringLoop.

(** ** Support tickets: [classifyTicket] *)

Module SupportTickets.

Module Info.
(** The attribute bag attached to a ticket category. *)
Record t : Type := Make { keywords : list string; priority : string; dept : string }.
End Info.

Definition categories : list (string * Info.t) :=
  [ ("Infrastructure",
     Info.Make ["road"; "bridge"; "building"; "pothole"; "construction"; "repair";
                "maintenance"; "broken"; "damage"] "high" "Public Works");
    ("Water Supply",
     Info.Make ["water"; "pipe"; "leakage"; "supply"; "sewage"; "drainage"; "flood";
                "contamination"] "critical" "Water Board");
    ("Electricity",
     Info.Make ["power"; "electricity"; "outage"; "transformer"; "wire"; "voltage";
                "electric"; "light"; "pole"] "high" "Power Distribution");
    ("Sanitation",
     Info.Make ["garbage"; "waste"; "cleaning"; "hygiene"; "trash"; "dump";
                "sanitation"; "smell"] "medium" "Municipal Sanitation");
    ("Traffic",
     Info.Make ["traffic"; "signal"; "parking"; "accident"; "speed"; "jam";
                "congestion"; "vehicle"] "high" "Traffic Police");
    ("Public Safety",
     Info.Make ["safety"; "crime"; "theft"; "harassment"; "violence"; "police";
                "security"; "emergency"] "critical" "Law Enforcement");
    ("Education",
     Info.Make ["school"; "education"; "teacher"; "student"; "college"; "admission";
                "scholarship"] "medium" "Education Board");
    ("Healthcare",
     Info.Make ["hospital"; "health"; "medicine"; "doctor"; "clinic"; "vaccination";
                "disease"] "high" "Health Department");
    ("General", Info.Make [] "low" "General Administration") ].

Definition positive : list string :=
  ["thank"; "good"; "great"; "excellent"; "happy"; "appreciate"; "helpful"].
Definition negative : list string :=
  ["bad"; "terrible"; "worst"; "angry"; "frustrat"; "disappoint"; "horrible";
   "urgent"; "compla"].

(** The object returned by [classifyTicket]; [confidence] holds the number
    its decimal string denotes. *)
Record Classification : Type := {
  category : string;
  priority : string;
  department : string;
  sentiment : string;
  confidence : Q;
  estimated_response : string
}.

Section WithCaseMapping.
Variable toLowerCase : string -> string.

(** [`${subject} ${description}`.toLowerCase()] *)
Definition ticketText (subject description : string) : string :=
  toLowerCase (subject ++ " " ++ description).

(** The values of [bestCategory] and [bestScore] after the loop. *)
Definition best (subject description : string) : string * nat :=
  scoreAll Info.keywords (ticketText subject description) categories "General".

Definition sentimentOf (text : string) : string :=
  let posCount := countHits text positive in
  let negCount := countHits text negative in
  if (negCount <? posCount)%nat then "Positive"
  else if (posCount <? negCount)%nat then "Negative"
  else "Neutral".

(** [Math.min(95, 60 + bestScore * 12 + Math.random() * 10).toFixed(1)] *)
Definition confidenceOf (bestScore : nat) (random : Q) : Q :=
  toFixed1 (Qmin 95 (60 + inject_Z (Z.of_nat bestScore) * 12 + random * 10)).

Definition responseOf (priority : string) : string :=
  if String.eqb priority "critical" then "2-4 hours"
  else if String.eqb priority "high" then "24-48 hours"
  else "3-5 days".

(** [random] is the value drawn by the one call of [Math.random()].
    Reading a property of [catInfo] throws when
    [categories[bestCategory]] is [undefined]; [bestCategory] is always a
    declared key ([member_categories] below), so the outcome for a key that
    is not declared is never observed. *)
Definition classifyTicket (random : Q) (subject description : string)
  : result Classification :=
  let text := ticketText subject description in
  let '(bestCategory, bestScore) := best subject description in
  let sentiment := sentimentOf text in
  match member categories bestCategory with
  | None => TypeError
  | Some catInfo =>
      Ok {| category := bestCategory;
            priority := Info.priority catInfo;
            department := Info.dept catInfo;
            sentiment := sentiment;
            confidence := confidenceOf bestScore random;
            estimated_response := responseOf (Info.priority catInfo) |}
  end.
End WithCaseMapping.

End SupportTickets.

(** ** Expenses: [categorizeExpense] and [anomalies] *)

Module ExpenseCategorizer.

Definition categoryKeywords : list (string * list string) :=
  [ ("Food & Dining",
     ["restaurant"; "food"; "pizza"; "burger"; "coffee"; "cafe"; "lunch"; "dinner";
      "breakfast"; "eat"; "dine"; "swiggy"; "zomato"; "uber eats"; "meal"; "snack";
      "drink"; "bakery"; "ice cream"]);
    ("Transportation",
     ["uber"; "ola"; "taxi"; "fuel"; "petrol"; "diesel"; "gas"; "metro"; "bus";
      "train"; "flight"; "parking"; "toll"; "auto"; "cab"; "commute"; "travel"]);
    ("Shopping",
     ["amazon"; "flipkart"; "mall"; "store"; "shop"; "clothing"; "shoes";
      "electronic"; "gadget"; "fashion"; "retail"; "market"; "purchase"; "buy"]);
    ("Utilities",
     ["electricity"; "water"; "gas"; "internet"; "wifi"; "phone"; "mobile";
      "recharge"; "bill"; "broadband"; "prepaid"; "postpaid"; "maintenance"]);
    ("Entertainment",
     ["movie"; "netflix"; "spotify"; "gaming"; "concert"; "theater"; "subscription";
      "disney"; "prime"; "youtube"; "music"; "book"; "magazine"]);
    ("Healthcare",
     ["doctor"; "medicine"; "pharmacy"; "hospital"; "clinic"; "dental"; "health";
      "medical"; "lab"; "test"; "insurance"; "therapy"; "consultation"]);
    ("Education",
     ["course"; "tuition"; "book"; "udemy"; "coursera"; "school"; "college";
      "training"; "certification"; "exam"; "class"; "tutorial"]);
    ("Groceries",
     ["grocery"; "supermarket"; "vegetables"; "fruits"; "milk"; "bread"; "bigbasket";
      "dmart"; "reliance fresh"; "organic"; "provisions"]);
    ("Rent & Housing",
     ["rent"; "housing"; "apartment"; "flat"; "maintenance"; "society"; "emi";
      "mortgage"; "property"]);
    ("Personal Care",
     ["salon"; "spa"; "haircut"; "beauty"; "cosmetic"; "gym"; "fitness"; "yoga";
      "grooming"]) ].

(** An element of the [expenses] state (built by [parseCSV] or by the manual
    form). *)
Record Expense : Type := {
  description : string;
  amount : Q;
  date : string
}.

(** An element of [categorized]: [{ ...e, ...categorizeExpense(e.description) }]. *)
Record Categorized : Type := {
  expense : Expense;
  category : string;
  confidence : Q
}.

Section WithCaseMapping.
Variable toLowerCase : string -> string.

(** The values of [bestCategory] and [bestScore] after the loop. *)
Definition best (description : string) : string * nat :=
  scoreAll (fun keywords => keywords) (toLowerCase description)
           categoryKeywords "Other".

(** [Math.min(95, 50 + bestScore * 15 + Math.random() * 10).toFixed(1)] *)
Definition confidenceOf (bestScore : nat) (random : Q) : Q :=
  toFixed1 (Qmin 95 (50 + inject_Z (Z.of_nat bestScore) * 15 + random * 10)).

(** Returns [{ category, confidence }]. *)
Definition categorizeExpense (random : Q) (description : string) : string * Q :=
  let '(bestCategory, bestScore) := best description in
  (bestCategory, confidenceOf bestScore random).

(** [expenses.map(e => ({ ...e, ...categorizeExpense(e.description) }))];
    the record at index [i] receives the [i]-th draw. *)
Definition categorized (random : nat -> Q) (expenses : list Expense)
  : list Categorized :=
  imap (fun i e =>
          let '(cat, conf) := categorizeExpense (random i) (description e) in
          {| expense := e; category := cat; confidence := conf |})
       expenses.
End WithCaseMapping.

(** *** The [anomalies] memo *)

Local Open Scope Q_scope.

(** [if (!categoryStats[e.category]) categoryStats[e.category] = [];
     categoryStats[e.category].push(e.amount);]
    An inherited property is truthy and has no [push]: the call throws. *)
Definition pushAmount (categoryStats : gmap string (list Q)) (e : Categorized)
  : result (gmap string (list Q)) :=
  match get categoryStats (category e) with
  | Own amounts => Ok (<[category e := (amounts ++ [amount (expense e)])%list]> categoryStats)
  | Undefined => Ok (<[category e := [amount (expense e)]]> categoryStats)
  | Inherited => TypeError
  end.

Definition buildStats (batch : list Categorized) : result (gmap string (list Q)) :=
  forEachM pushAmount batch ∅.

(** [amounts.reduce((s, v) => s + v, 0) / amounts.length] *)
Definition mean (amounts : list Q) : Q :=
  fold_left (fun s v => s + v)%Q amounts 0 / len amounts.

(** [amounts.reduce((s, v) => s + (v - mean) ** 2, 0) / amounts.length] *)
Definition variance (amounts : list Q) : Q :=
  let mean := mean amounts in
  fold_left (fun s v => s + (v - mean) ^ 2)%Q amounts 0 / len amounts.

(** [Math.sqrt(...)] of the above. *)
Definition std (amounts : list Q) : R := sqrt (Q2R (variance amounts)).

(** [x > y] on real numbers. *)
Definition Rgtb (x y : R) : bool := if Rlt_dec y x then true else false.

(** The body of the filter callback once [amounts] is known. *)
Definition deviates (amounts : list Q) (value : Q) : bool :=
  if (List.length amounts <? 2)%nat then false
  else
    let mean := mean amounts in
    let std := std amounts in
    Rgtb std 0 && Rgtb (Q2R (Qabs (value - mean))) (2 * std).

(** The filter callback.  [amounts.length] throws when
    [categoryStats[e.category]] is [undefined]; after the loop of
    [buildStats] every category read here is an own property. *)
Definition isAnomaly (categoryStats : gmap string (list Q)) (e : Categorized)
  : result bool :=
  match get categoryStats (category e) with
  | Own amounts => Ok (deviates amounts (amount (expense e)))
  | _ => TypeError
  end.

(** The memo of the component. *)
Definition anomalies (batch : list Categorized) : result (list Categorized) :=
  categoryStats ← buildStats batch;
  filterM (isAnomaly categoryStats) batch.

(** *** Groups

    The group of a category: the amounts of the records of the batch that
    carry it, in batch order. *)
Definition group (c : string) (batch : list Categorized) : list Q :=
  List.map (fun e => amount (expense e))
           (List.filter (fun e => String.eqb (category e) c) batch).

(** A record is flagged when its amount deviates within its own group. *)
Definition flagged (batch : list Categorized) (e : Categorized) : bool :=
  deviates (group (category e) batch) (amount (expense e)).

(** The number of records of the batch that share the grouping key [c]. *)
Definition groupSize (c : string) (batch : list Categorized) : nat :=
  List.length (List.filter (fun e => String.eqb (category e) c) batch).

(** What the flagging reads of a record: its category and its amount. *)
Definition key (e : Categorized) : string * Q := (category e, amount (expense e)).

(** A record without the confidence drawn for it. *)
Definition withoutConfidence (e : Categorized) : Expense * string :=
  (expense e, category e).

(** What [categoryStats[c]] holds after more amounts were pushed. *)
Definition pushed (before : option (list Q)) (more : list Q) : option (list Q) :=
  match before, more with
  | Some amounts, _ => Some (amounts ++ more)%list
  | None, [] => None
  | None, _ => Some more
  end.

(** The dictionary has no own property that shadows an inherited one. *)
Definition ownOnly (categoryStats : gmap string (list Q)) : Prop :=
  forall c, c ∈ objectPrototypeKeys -> categoryStats !! c = None.

(** *** Executable form of the comparison

    [sqrt] does not compute; the same test on the squares does. *)
Definition deviatesQ (amounts : list Q) (value : Q) : bool :=
  if (List.length amounts <? 2)%nat then false
  else
    let mean := mean amounts in
    let var := variance amounts in
    match (0 ?= var)%Q with
    | Lt =>
        match (4 * var ?= (value - mean) ^ 2)%Q with
        | Lt => true
        | _ => false
        end
    | _ => false
    end.

Definition isAnomalyQ (categoryStats : gmap string (list Q)) (e : Categorized)
  : result bool :=
  match get categoryStats (category e) with
  | Own amounts => Ok (deviatesQ amounts (amount (expense e)))
  | _ => TypeError
  end.

Definition anomaliesQ (batch : list Categorized) : result (list Categorized) :=
  categoryStats ← buildStats batch;
  filterM (isAnomalyQ categoryStats) batch.

End ExpenseCategorizer.

(** ** Fake-news heuristic: [analyzeText] *)

Module FakeNewsDetector.

Local Open Scope Q_scope.

(** The characters matched by [[.!?]]. *)
Definition isStop (c : ascii) : bool :=
  let n := nat_of_ascii c in
  (n =? 46)%nat || (n =? 33)%nat || (n =? 63)%nat.

(** [s.split(/[sep]+/)]: the pieces between maximal runs of separators; the
    first (last) piece is empty when [s] starts (ends) with a separator. *)
Fixpoint splitRuns (isSep : ascii -> bool) (s : string) : list string :=
  match s with
  | EmptyString => [""]
  | String c s' =>
      let rest := splitRuns isSep s' in
      if isSep c then
        match s' with
        | String c' _ => if isSep c' then rest else "" :: rest
        | EmptyString => "" :: rest
        end
      else
        match rest with
        | piece :: pieces => String c piece :: pieces
        | [] => [String c ""]
        end
  end.

(** [.filter(Boolean)] on an array of strings. *)
Definition nonEmpty (l : list string) : list string :=
  List.filter (fun s => negb (String.eqb s "")) l.

Fixpoint trimStart (s : string) : string :=
  match s with
  | String c s' => if isSpace c then trimStart s' else s
  | EmptyString => EmptyString
  end.

Fixpoint trimEnd (s : string) : string :=
  match s with
  | EmptyString => EmptyString
  | String c s' =>
      match trimEnd s' with
      | EmptyString => if isSpace c then EmptyString else String c EmptyString
      | t => String c t
      end
  end.

Definition trim (s : string) : string := trimEnd (trimStart s).

Definition sensationalWords : list string :=
  ["shocking"; "breaking"; "unbelievable"; "secret"; "exposed"; "bombshell";
   "explosive"; "devastating"; "horrifying"; "miraculous"; "urgent"; "alert";
   "warning"; "exclusive"; "scandal"].
Definition emotionalWords : list string :=
  ["outrage"; "fury"; "terrifying"; "amazing"; "incredible"; "disgusting";
   "horrible"; "wonderful"; "terrible"; "shocking"; "alarming"; "frightening"].
Definition sourceIndicators : list string :=
  ["according to"; "sources say"; "reported by"; "officials say"; "study shows";
   "research indicates"; "data shows"; "experts say"].
Definition clickbaitPhrases : list string :=
  ["you won't believe"; "what happened next"; "this is why"; "the truth about";
   "they don't want you to know"; "one weird trick"; "doctors hate"].
Definition topicMap : list (string * list string) :=
  [ ("politics", ["government"; "election"; "minister"; "parliament"; "president";
                  "congress"; "party"]);
    ("health", ["vaccine"; "covid"; "health"; "medicine"; "doctor"; "hospital";
                "disease"]);
    ("technology", ["ai"; "technology"; "app"; "internet"; "software"; "digital";
                    "cyber"]);
    ("finance", ["money"; "bank"; "economy"; "market"; "stock"; "investment"; "tax"]);
    ("science", ["research"; "study"; "scientist"; "climate"; "space";
                 "environment"]) ].
Definition sources : list string :=
  ["Reuters"; "AP News"; "PIB India"; "Fact-Check.org"; "Snopes"].

Record Claim : Type := {
  claim : string;
  verified : bool;
  source : option string   (* [None]: the index is outside the array *)
}.

Record Analysis : Type := {
  sensationalCount : nat;
  emotionalCount : nat;
  capsRatio : Q;           (* the number denoted by [(capsRatio * 100).toFixed(1)] *)
  hasSourceAttribution : bool;
  clickbaitCount : nat;
  wordCount : nat;
  sentenceCount : nat
}.

Record Verdict : Type := {
  score : Q;               (* the number denoted by [score.toFixed(1)] *)
  label : string;
  labelColor : string;
  labelBg : string;
  redFlags : list string;
  claims : list Claim;
  topics : list string;
  analysis : Analysis
}.

Definition nat2Q (n : nat) : Q := inject_Z (Z.of_nat n).

Definition flag (b : bool) (msg : string) : list string := if b then [msg] else [].

Section WithCaseMapping.
Variables toLowerCase toUpperCase : string -> string.

(** The score before the jitter and the clamp (lines 32-39). *)
Definition rawScore (text : string) : Q :=
  let lower := toLowerCase text in
  let words := splitRuns isSpace text in
  let sentences := nonEmpty (splitRuns isStop text) in
  let sensationalCount := countHits lower sensationalWords in
  let emotionalCount := countHits lower emotionalWords in
  let capsWords :=
    List.length (List.filter (fun w => String.eqb w (toUpperCase w)
                                       && (2 <? String.length w)%nat) words) in
  let capsRatio := nat2Q capsWords / len words in
  let hasSourceAttribution := someHit lower sourceIndicators in
  let clickbaitCount := countHits lower clickbaitPhrases in
  70 - nat2Q sensationalCount * 8
     - nat2Q emotionalCount * 5
     - capsRatio * 30
     - nat2Q clickbaitCount * 15
     + (if hasSourceAttribution then 15 else -10)
     + (if (3 <? List.length sentences)%nat then 5 else -5)
     + (if (50 <? List.length words)%nat then 5 else -5).

(** [Math.max(5, Math.min(98, score + (Math.random() * 10 - 5)))] *)
Definition clampScore (score random : Q) : Q :=
  Qmax 5 (Qmin 98 (score + (random * 10 - 5))).

(** [random 0] is the jitter of the score; the claim at index [i] draws
    [random (1 + 2 * i)] for [verified] and [random (2 + 2 * i)] for
    [source]. *)
Definition analyzeText (random : nat -> Q) (text : string) : Verdict :=
  let lower := toLowerCase text in
  let words := splitRuns isSpace text in
  let sentences := nonEmpty (splitRuns isStop text) in
  let sensationalCount := countHits lower sensationalWords in
  let emotionalCount := countHits lower emotionalWords in
  let capsWords :=
    List.length (List.filter (fun w => String.eqb w (toUpperCase w)
                                       && (2 <? String.length w)%nat) words) in
  let capsRatio := nat2Q capsWords / len words in
  let hasSourceAttribution := someHit lower sourceIndicators in
  let clickbaitCount := countHits lower clickbaitPhrases in
  let score := clampScore (rawScore text) (random 0%nat) in
  let topics :=
    List.map fst (List.filter (fun entry => someHit lower (snd entry)) topicMap) in
  let redFlags :=
    (flag (2 <? sensationalCount)%nat "Excessive sensational language detected"
     ++ flag (match capsRatio ?= 2 # 10 with Gt => true | _ => false end)
             "High proportion of ALL CAPS text"
     ++ flag (0 <? clickbaitCount)%nat "Clickbait patterns identified"
     ++ flag (negb hasSourceAttribution) "No verifiable source attribution found"
     ++ flag (2 <? emotionalCount)%nat "Heavy emotional manipulation detected"
     ++ flag (List.length sentences <? 3)%nat
             "Article too short for reliable analysis")%list in
  let claims :=
    imap (fun i s =>
            {| claim := String.substring 0 100 (trim s);
               verified :=
                 match random (1 + 2 * i)%nat ?= 4 # 10 with Gt => true | _ => false end;
               source :=
                 match Qfloor (random (2 + 2 * i)%nat * 5) with
                 | Z.neg _ => None
                 | idx => nth_error sources (Z.to_nat idx)
                 end |})
         (firstn 3 sentences) in
  let atLeast (bound : Q) : bool :=
    match score ?= bound with Lt => false | _ => true end in
  {| score := toFixed1 score;
     label := if atLeast 70 then "Likely Authentic"
              else if atLeast 40 then "Questionable" else "Likely Fake";
     labelColor := if atLeast 70 then "text-terminal-green"
                   else if atLeast 40 then "text-primary" else "text-accent-pink";
     labelBg := if atLeast 70 then "bg-terminal-green"
                else if atLeast 40 then "bg-primary" else "bg-accent-pink";
     redFlags := redFlags;
     claims := claims;
     topics := match topics with [] => ["general"] | _ => topics end;
     analysis :=
       {| sensationalCount := sensationalCount;
          emotionalCount := emotionalCount;
          capsRatio := toFixed1 (capsRatio * 100);
          hasSourceAttribution := hasSourceAttribution;
          clickbaitCount := clickbaitCount;
          wordCount := List.length words;
          sentenceCount := List.length sentences |} |}.
End WithCaseMapping.

End FakeNewsDetector.

(** ** Sample inputs *)

Module Samples.
Import ExpenseCategorizer.
Local Open Scope Q_scope.

Definition entry (d : string) (a : Q) : Expense :=
  {| description := d; amount := a; date := "15/01/2024" |}.

(** Four meals, the last one far more expensive than the others. *)
Definition meals : list Expense :=
  [entry "Lunch" 100; entry "Dinner" 105; entry "Coffee" 98; entry "Restaurant" 950].

(** Their amounts. *)
Definition mealAmounts : list Q := [100; 105; 98; 950].

(** Six usual fares and one ten times as large. *)
Definition fares : list Expense :=
  [entry "Taxi" 40; entry "Taxi" 40; entry "Taxi" 40; entry "Taxi" 40;
   entry "Taxi" 40; entry "Taxi" 40; entry "Taxi to the airport" 400].

(** Their amounts. *)
Definition fareAmounts : list Q := [40; 40; 40; 40; 40; 40; 400].

(** Three equal payments. *)
Definition coffees : list Expense :=
  [entry "Coffee" 4; entry "Coffee" 4; entry "Coffee" 4].

(** One payment, alone in its category. *)
Definition rent : list Expense := [entry "Rent" 500].

(** Every call of [Math.random()] returns 0. *)
Definition zeros : nat -> Q := fun _ => 0.

(** Every call of [Math.random()] returns 0.9. *)
Definition nines : nat -> Q := fun _ => 9 # 10.

(** The [categorized] memo for a list of expenses, under either source of
    draws. *)
Definition render (expenses : list Expense) : list Categorized :=
  categorized asciiLowerCase zeros expenses.
Definition renderAgain (expenses : list Expense) : list Categorized :=
  categorized asciiLowerCase nines expenses.

(** The rent payment followed by the fares. *)
Definition ledger : list Categorized := render (rent ++ fares).

(** Stands for [undefined] when reading the first record of an array. *)
Definition noRecord : Categorized :=
  {| expense := entry "" 0; category := ""; confidence := 0 |}.
End Samples.

(** ** Further components

    The same conventions hold for the components that follow.  In addition,
    the state of a component is a record of its [useState] cells, and a
    handler is the function from the state in which it is called to the
    state it leaves when it has run to its end; [localStorage] is a [gmap]
    from keys to strings; a reading of the clock is an argument.  In
    [parseCSV] and in the handlers of the two forms [String.prototype.trim]
    is a Section variable as the case mappings are, and the numbers that
    [parseFloat] reads are of a type left open, which may hold [NaN] and the
    infinities. *)

(** ** Expenses: [parseCSV] and the [categoryTotals] memo *)

Module ExpenseInput.
Import ExpenseCategorizer.
Local Open Scope Q_scope.

(** [s.split(sep)] for a separator of one character: the pieces between the
    occurrences of [sep]; never the empty array. *)
Fixpoint splitOn (sep : ascii) (s : string) : list string :=
  match s with
  | EmptyString => [""]
  | String c s' =>
      if Ascii.eqb c sep then "" :: splitOn sep s'
      else match splitOn sep s' with
           | piece :: pieces => String c piece :: pieces
           | [] => [String c ""]
           end
  end.

Definition newline : ascii := ascii_of_nat 10.
Definition comma : ascii := ascii_of_nat 44.

(** [arr.findIndex(h => h.includes(word))]; [None] stands for [-1]. *)
Fixpoint findIndex (word : string) (arr : list string) : option nat :=
  match arr with
  | [] => None
  | h :: arr' => if includes h word then Some 0%nat else S <$> findIndex word arr'
  end.

(** [cols[idx]], where [idx] may be [-1]. *)
Definition cell (cols : list string) (idx : option nat) : option string :=
  match idx with
  | Some i => nth_error cols i
  | None => None
  end.

(** [value || fallback] for a cell: [undefined] and the empty string are
    falsy. *)
Definition orElse (value : option string) (fallback : string) : string :=
  match value with
  | Some EmptyString | None => fallback
  | Some s => s
  end.

(** A row read from the file; [number] is the type of what [parseFloat]
    returns. *)
Module Row.
Record t (number : Type) : Type := Build {
  description : string;
  amount : number;
  date : string
}.
Arguments Build {number} _ _ _.
Arguments description {number} _.
Arguments amount {number} _.
Arguments date {number} _.
End Row.

Section WithEnvironment.
(** [String.prototype.toLowerCase] and [String.prototype.trim]. *)
Variables toLowerCase trim : string -> string.
(** The numbers, [parseFloat] (of a cell, or of [undefined]), the numbers
    that are falsy (zero and [NaN]) and the number 0. *)
Variable number : Type.
Variable parseFloat : option string -> number.
Variable falsy : number -> bool.
Variable zero : number.
(** [new Date().toLocaleDateString()] as evaluated for the row of a given
    index. *)
Variable today : nat -> string.

(** [parseFloat(cols[amtIdx]) || 0]. *)
Definition amountOf (value : option string) : number :=
  let n := parseFloat value in
  if falsy n then zero else n.

Definition parseCSV (text : string) : list (Row.t number) :=
  let lines := splitOn newline (trim text) in
  if (List.length lines <? 2)%nat then []
  else
    let headers := List.map trim (splitOn comma (toLowerCase (List.hd "" lines))) in
    let descIdx := findIndex "desc" headers in
    let amtIdx := findIndex "amount" headers in
    let dateIdx := findIndex "date" headers in
    match descIdx, amtIdx with
    | Some _, Some _ =>
        imap (fun i line =>
                let cols := List.map trim (splitOn comma line) in
                {| Row.description := orElse (cell cols descIdx) "";
                   Row.amount := amountOf (cell cols amtIdx);
                   Row.date := orElse (cell cols dateIdx) (today i) |})
             (List.filter (fun l => negb (String.eqb (trim l) "")) (List.tl lines))
    | _, _ => []
    end.
End WithEnvironment.
Arguments amountOf {number} parseFloat falsy zero value.
Arguments parseCSV toLowerCase trim {number} parseFloat falsy zero today text.

(** *** [categoryTotals] *)

(** The string is the canonical decimal form of a natural number: such a key
    is an array index, which an object enumerates before its other keys. *)
Definition isDigit (c : ascii) : bool :=
  let n := nat_of_ascii c in (48 <=? n)%nat && (n <=? 57)%nat.

Fixpoint allDigits (s : string) : bool :=
  match s with
  | EmptyString => true
  | String c s' => isDigit c && allDigits s'
  end.

Definition isArrayIndex (k : string) : bool :=
  match k with
  | EmptyString => false
  | String c rest =>
      if Ascii.eqb c (ascii_of_nat 48) then String.eqb rest "" else allDigits k
  end.

(** On such a key the object [totals] behaves as a dictionary of numbers
    enumerated in order of insertion. *)
Definition plainKey (k : string) : bool :=
  negb (bool_decide (k ∈ objectPrototypeKeys)) && negb (isArrayIndex k).

(** [v || 0] for a number. *)
Definition orZero (v : Q) : Q := if Qeq_bool v 0 then 0 else v.

(** [totals[c] = (totals[c] || 0) + a] on an object kept as the list of its
    entries in enumeration order. *)
Fixpoint addAmount (totals : list (string * Q)) (c : string) (a : Q)
  : list (string * Q) :=
  match totals with
  | [] => [(c, 0 + a)]
  | (c', v) :: rest =>
      if String.eqb c' c then (c', orZero v + a) :: rest
      else (c', v) :: addAmount rest c a
  end.

(** [None]: some category is not a plain key (the value stored under an
    inherited name is a string, and an array index is enumerated first). *)
Fixpoint totalsFrom (totals : list (string * Q)) (batch : list Categorized)
  : option (list (string * Q)) :=
  match batch with
  | [] => Some totals
  | e :: batch' =>
      if plainKey (category e)
      then totalsFrom (addAmount totals (category e) (amount (expense e))) batch'
      else None
  end.

Definition categoryTotals (batch : list Categorized) : option (list (string * Q)) :=
  totalsFrom [] batch.

End ExpenseInput.

(** ** Words without separators *)

Module Words.

(** No character of [w] is the separator [sep] or white space. *)
Fixpoint solid (sep : ascii) (w : string) : bool :=
  match w with
  | EmptyString => true
  | String c w' => negb (Ascii.eqb c sep) && negb (isSpace c) && solid sep w'
  end.

(** A string that is empty or starts with a visible character. *)
Definition noLeadingSpace (s : string) : Prop :=
  match s with
  | EmptyString => True
  | String c _ => isSpace c = false
  end.

(** The distinct elements of a list in the order of their first
    occurrence, those of [seen] left out. *)
Fixpoint firstOccurrences (seen l : list string) : list string :=
  match l with
  | [] => []
  | c :: l' =>
      if bool_decide (c ∈ seen) then firstOccurrences seen l'
      else c :: firstOccurrences (c :: seen) l'
  end.

End Words.

(** ** The ticket form: [handleSubmit] *)

Module TicketForm.
Local Open Scope Q_scope.

Module Ticket.
Record t : Type := Make {
  id : Z;                  (* the integer printed after ["TKT-"] *)
  subject : string;
  description : string;
  classification : SupportTickets.Classification;   (* [...classification] *)
  created_at : string;
  status : string
}.
End Ticket.

(** The state of the component. *)
Record State : Type := {
  subject : string;
  description : string;
  loading : bool;
  tickets : list Ticket.t;
  selectedTicket : option Ticket.t;
  processingStep : string
}.

Section WithStringMethods.
(** [String.prototype.toLowerCase] and [String.prototype.trim]. *)
Variables toLowerCase trim : string -> string.

(** The state once the handler has run to its end.  [random 0] to [random 4]
    are the delays of the five steps, [random 5] is the draw of
    [classifyTicket] and [random 6] the one of the identifier; [now] is
    [new Date().toISOString()]. *)
Definition handleSubmit (random : nat -> Q) (now : string) (st : State) : result State :=
  if String.eqb (trim (subject st)) "" || String.eqb (trim (description st)) ""
  then Ok st
  else
    classification ←
      SupportTickets.classifyTicket toLowerCase (random 5%nat) (subject st) (description st);
    let newTicket :=
      {| Ticket.id := Qfloor (100000 + random 6%nat * 900000);
         Ticket.subject := subject st;
         Ticket.description := description st;
         Ticket.classification := classification;
         Ticket.created_at := now;
         Ticket.status := "Open" |} in
    Ok {| subject := "";
          description := "";
          loading := false;
          tickets := newTicket :: tickets st;
          selectedTicket := selectedTicket st;
          processingStep := "" |}.
End WithStringMethods.

End TicketForm.

(** ** The news form: [handleAnalyze] *)

Module NewsForm.
Local Open Scope Q_scope.

Module Entry.
Record t : Type := Make {
  text : string;
  score : Q;
  label : string;
  time : string
}.
End Entry.

Record State : Type := {
  inputText : string;
  inputUrl : string;
  inputMode : string;
  loading : bool;
  result : option FakeNewsDetector.Verdict;
  recentChecks : list Entry.t;
  processingStep : string
}.

(** The two articles of which one stands for the content behind a URL. *)
Definition articles : list string :=
  [ "Government announces new policy changes affecting millions. According to sources, the implementation will begin next month with several phases planned.";
    "BREAKING: Shocking revelation about hidden data. You won't believe what experts found. This changes EVERYTHING!" ].

(** [articles[Math.floor(r * 2)]] inside a template literal, where
    [undefined] prints as "undefined". *)
Definition article (r : Q) : string :=
  match Qfloor (r * 2) with
  | Z.neg _ => "undefined"
  | idx => nth (Z.to_nat idx) articles "undefined"
  end.

Section WithStringMethods.
(** [String.prototype.toLowerCase], [toUpperCase] and [trim]. *)
Variables toLowerCase toUpperCase trim : string -> string.

(** The text handed to [analyzeText] and the number of draws made before
    it: six delays, and the choice of the article in the mode "url". *)
Definition textToAnalyze (random : nat -> Q) (st : State) : string * nat :=
  if String.eqb (inputMode st) "url"
  then ("Article from " ++ inputUrl st ++ ". " ++ article (random 6%nat), 7%nat)
  else (inputText st, 6%nat).

(** The state once the handler has run to its end; [now] is
    [new Date().toLocaleTimeString()]. *)
Definition handleAnalyze (random : nat -> Q) (now : string) (st : State) : State :=
  let content := if String.eqb (inputMode st) "text" then inputText st else inputUrl st in
  if String.eqb (trim content) "" then st
  else
    let (text, drawn) := textToAnalyze random st in
    let analysis :=
      FakeNewsDetector.analyzeText toLowerCase toUpperCase
        (fun n => random (drawn + n)%nat) text in
    {| inputText := inputText st;
       inputUrl := inputUrl st;
       inputMode := inputMode st;
       loading := false;
       result := Some analysis;
       recentChecks :=
         firstn 5 ({| Entry.text := String.substring 0 50 content;
                      Entry.score := FakeNewsDetector.score analysis;
                      Entry.label := FakeNewsDetector.label analysis;
                      Entry.time := now |} :: recentChecks st);
       processingStep := "" |}.
End WithStringMethods.
Arguments textToAnalyze random st : clear implicits.

End NewsForm.

(** ** Resume screening: [extractSkills] *)

Module ResumeScreening.

Definition skillKeywords : list string :=
  [ "python"; "java"; "javascript"; "typescript"; "react"; "angular"; "vue"; "node.js";
    "nodejs";
    "sql"; "postgresql"; "mongodb"; "redis"; "docker"; "kubernetes"; "aws"; "azure"; "gcp";
    "machine learning"; "deep learning"; "nlp"; "computer vision"; "tensorflow"; "pytorch";
    "html"; "css"; "rest api"; "graphql"; "git"; "ci/cd"; "agile"; "scrum";
    "data analysis"; "data science"; "statistics"; "excel"; "tableau"; "power bi";
    "communication"; "leadership"; "teamwork"; "problem solving"; "project management";
    "c++"; "c#"; ".net"; "ruby"; "go"; "rust"; "swift"; "kotlin"; "php"; "laravel";
    "django"; "flask"; "spring"; "express"; "fastapi"; "next.js" ].

Definition extractSkills (toLowerCase : string -> string) (text : string) : list string :=
  let lower := toLowerCase text in
  List.filter (fun skill => includes lower skill) skillKeywords.

End ResumeScreening.

(** ** Sessions: [AuthContext] *)

Module Auth.

Record User : Type := {
  id : string;
  role : string;
  username : string
}.

(** [localStorage] and the [user] state of the provider. *)
Record Session : Type := {
  storage : gmap string string;
  user : option User
}.

(** A string is falsy when it is empty; [null] is falsy. *)
Definition truthy (v : option string) : bool :=
  match v with
  | Some (String _ _) => true
  | _ => false
  end.

(** [a || b] where [b] is a string. *)
Definition orString (a : option string) (b : string) : string :=
  match a with
  | Some (String c s) => String c s
  | _ => b
  end.

(** The effect run when the provider mounts: the [user] state read back
    from [localStorage]. *)
Definition restore (storage : gmap string string) : option User :=
  match storage !! "user_id", storage !! "user_role" with
  | Some userId, Some userRole =>
      if truthy (Some userId) && truthy (Some userRole)
      then Some {| id := userId; role := userRole;
                   username := orString (storage !! "username") "User" |}
      else None
  | _, _ => None
  end.

(** The four [setItem] calls and [setUser] shared by [login] and [signup]. *)
Definition open (stamp1 stamp2 : string) (st : Session) (name role : string) : Session :=
  let user_id := "user_" ++ stamp1 in
  let session_id := "session_" ++ stamp2 in
  {| storage :=
       <["username" := name]>
         (<["session_id" := session_id]>
            (<["user_role" := role]> (<["user_id" := user_id]> (storage st))));
     user := Some {| id := user_id; role := role; username := name |} |}.

(** [stamp1] and [stamp2] are the two readings of [Date.now()], in decimal.
    The password is not looked at. *)
Definition login (stamp1 stamp2 : string) (st : Session)
    (username password role : string) : Session :=
  let loginRole :=
    orString (Some role) (orString (storage st !! "login_role") "citizen") in
  open stamp1 stamp2 st username loginRole.

Definition signup (stamp1 stamp2 : string) (st : Session)
    (username password role : string) : Session :=
  open stamp1 stamp2 st username role.

Definition logout (st : Session) : Session :=
  {| storage :=
       delete "login_role"
         (delete "username"
            (delete "session_id" (delete "user_role" (delete "user_id" (storage st)))));
     user := None |}.

Definition isAuthenticated (st : Session) : bool :=
  match user st with Some _ => true | None => false end.
Definition isGovernment (st : Session) : bool :=
  match user st with Some u => String.eqb (role u) "government" | None => false end.
Definition isCitizen (st : Session) : bool :=
  match user st with Some u => String.eqb (role u) "citizen" | None => false end.

End Auth.

(** ** The login page *)

Module Login.
Import Auth.

(** [searchParams.get('role') || 'government'] *)
Definition roleParam (query : option string) : string := orString query "government".

Definition handleSubmit (isLogin : bool) (stamp1 stamp2 : string) (st : Session)
    (query : option string) (username password : string) : Session :=
  let st' := {| storage := <["login_role" := roleParam query]> (storage st);
                user := user st |} in
  if isLogin then login stamp1 stamp2 st' username password (roleParam query)
  else signup stamp1 stamp2 st' username password (roleParam query).

(** Where the effect of the page navigates to, if anywhere; the portal
    selection has the same effect. *)
Definition destination (st : Session) : option string :=
  if isAuthenticated st then
    if isGovernment st then Some "/government/dashboard"
    else if isCitizen st then Some "/citizen/dashboard"
    else None
  else None.

End Login.

(** ** The API client *)

Module ApiClient.

(** The request interceptor: the headers it adds. *)
Definition inject (storage : gmap string string) (headers : gmap string string)
  : gmap string string :=
  let add (name key : string) (h : gmap string string) :=
    match storage !! key with
    | Some (String c s) => <[name := String c s]> h
    | _ => h
    end in
  add "x-session-id" "session_id"
      (add "x-user-role" "user_role" (add "x-user-id" "user_id" headers)).

End ApiClient.

(** ** Routes: [ProtectedRoute] and [AppRoutes] *)

Module Routing.

(** What a route element comes to: a page, a [<Navigate>] or the spinner. *)
Inductive Element : Type :=
| Page (name : string)
| Navigate (to : string)
| Spinner.

Definition ProtectedRoute (loading : bool) (st : Auth.Session) (children : string)
    (requireRole : option string) : Element :=
  if loading then Spinner
  else
    match Auth.user st with
    | None => Navigate "/login"
    | Some u =>
        let differs :=
          match requireRole with
          | Some r => negb (String.eqb (Auth.role u) r)
          | None => true
          end in
        if Auth.truthy requireRole && differs
        then Navigate (if String.eqb (Auth.role u) "government"
                       then "/government/dashboard" else "/citizen/dashboard")
        else Page children
    end.

(** The guarded routes: path, required role and page. *)
Definition guarded : list (string * (string * string)) :=
  [ ("/government/dashboard", ("government", "GovernmentDashboard"));
    ("/government/document-intelligence", ("government", "DocumentIntelligence"));
    ("/government/resume-screening", ("government", "ResumeScreening"));
    ("/government/traffic-violations", ("government", "TrafficViolations"));
    ("/government/anomaly-monitoring", ("government", "AnomalyMonitoring"));
    ("/citizen/dashboard", ("citizen", "CitizenDashboard"));
    ("/citizen/chatbot", ("citizen", "RAGChatbot"));
    ("/citizen/fake-news", ("citizen", "FakeNewsDetector"));
    ("/citizen/support-tickets", ("citizen", "SupportTickets"));
    ("/citizen/expense-categorizer", ("citizen", "ExpenseCategorizer")) ].

(** The element at a path written as in the route table, once the effect
    of the page has run: the portal selection and the login page navigate
    away for an authenticated user of one of the two roles. *)
Definition AppRoutes (loading : bool) (st : Auth.Session) (path : string) : Element :=
  if String.eqb path "/" then
    match Login.destination st with
    | Some to => Navigate to
    | None => Page "PortalSelection"
    end
  else if String.eqb path "/login" then
    match Login.destination st with
    | Some to => Navigate to
    | None => Page "Login"
    end
  else
    match member guarded path with
    | Some (requireRole, page) => ProtectedRoute loading st page (Some requireRole)
    | None => Navigate "/"
    end.

(** The page shown after at most [fuel] elements, the provider having
    finished loading; [None] when none of them is a page. *)
Fixpoint visit (fuel : nat) (st : Auth.Session) (path : string) : option string :=
  match fuel with
  | O => None
  | S fuel' =>
      match AppRoutes false st path with
      | Page name => Some name
      | Navigate to => visit fuel' st to
      | Spinner => None
      end
  end.

End Routing.

(** ** Traffic violations: [toggleType] *)

Module TrafficViolations.

(** [prev.includes(key) ? prev.filter(t => t !== key) : [...prev, key]] *)
Definition toggleType (key : string) (prev : list string) : list string :=
  if List.existsb (String.eqb key) prev
  then List.filter (fun t => negb (String.eqb t key)) prev
  else (prev ++ [key])%list.

(** The selection after a series of clicks, none being selected at first. *)
Definition selectedTypes (clicks : list string) : list string :=
  fold_left (fun prev key => toggleType key prev) clicks [].

End TrafficViolations.

(** ** Sample environment for the examples *)

Module Readings.
Import ExpenseInput.
Local Open Scope Q_scope.

Definition digit (c : ascii) : option Z :=
  if isDigit c then Some (Z.of_nat (nat_of_ascii c) - 48)%Z else None.

Fixpoint digitsValue (acc : Z) (s : string) : option Z :=
  match s with
  | EmptyString => Some acc
  | String c s' =>
      match digit c with
      | Some d => digitsValue (10 * acc + d)%Z s'
      | None => None
      end
  end.

(** What [parseFloat] reads on an unsigned decimal such as "40" or "12.50".
    On any other text this reader answers [NaN]; the examples use it on
    unsigned decimals only. *)
Definition plainDecimal (s : string) : option Q :=
  match splitOn "."%char s with
  | [whole] =>
      if String.eqb whole "" then None else inject_Z <$> digitsValue 0 whole
  | [whole; fraction] =>
      if String.eqb whole "" then None
      else
        match digitsValue 0 whole, digitsValue 0 fraction with
        | Some w, Some f =>
            Some (Qred (inject_Z w
                        + inject_Z f / inject_Z (10 ^ Z.of_nat (String.length fraction))))
        | _, _ => None
        end
  | _ => None
  end.

(** A number of the examples: a rational, or [NaN]. *)
Definition parseFloat (value : option string) : option Q := value ≫= plainDecimal.

Definition falsy (n : option Q) : bool :=
  match n with
  | Some q => Qeq_bool q 0
  | None => true
  end.

(** Every row is read on the same day. *)
Definition today : nat -> string := fun _ => "11/3/2026".

Definition line (s : string) : string := s ++ String newline "".

(** A header, a row, an empty line and a row without a date. *)
Definition statement : string :=
  line "Description, Amount ,Date" ++ line "Lunch, 12.50 ,01/02/2024" ++ line ""
  ++ line "Taxi,40,".

(** A header alone. *)
Definition headerOnly : string := line "description,amount".

(** Headers without a description column and without an amount column. *)
Definition noDescription : string := line "item,amount" ++ line "Lunch,12".
Definition noAmount : string := line "description,price" ++ line "Lunch,12".

End Readings.

(** ** Sample states for the examples *)

Module Forms.

(** A ticket form filled in, and an empty one. *)
Definition filled : TicketForm.State :=
  {| TicketForm.subject := "Pothole";
     TicketForm.description := "Large pothole on the main road";
     TicketForm.loading := false;
     TicketForm.tickets := [];
     TicketForm.selectedTicket := None;
     TicketForm.processingStep := "" |}.
Definition untouched : TicketForm.State :=
  {| TicketForm.subject := "";
     TicketForm.description := "   ";
     TicketForm.loading := false;
     TicketForm.tickets := [];
     TicketForm.selectedTicket := None;
     TicketForm.processingStep := "" |}.

(** A news form with a text typed, one with a URL typed, an empty one. *)
Definition typed : NewsForm.State :=
  {| NewsForm.inputText := "Shocking secret exposed";
     NewsForm.inputUrl := "";
     NewsForm.inputMode := "text";
     NewsForm.loading := false;
     NewsForm.result := None;
     NewsForm.recentChecks := [];
     NewsForm.processingStep := "" |}.
Definition linked : NewsForm.State :=
  {| NewsForm.inputText := "";
     NewsForm.inputUrl := "https://example.com/article";
     NewsForm.inputMode := "url";
     NewsForm.loading := false;
     NewsForm.result := None;
     NewsForm.recentChecks := [];
     NewsForm.processingStep := "" |}.
Definition idle : NewsForm.State :=
  {| NewsForm.inputText := " ";
     NewsForm.inputUrl := "";
     NewsForm.inputMode := "text";
     NewsForm.loading := false;
     NewsForm.result := None;
     NewsForm.recentChecks := [];
     NewsForm.processingStep := "" |}.

(** A browser that has stored a theme and nothing else. *)
Definition fresh : Auth.Session :=
  {| Auth.storage := {[ "theme" := "dark" ]}; Auth.user := None |}.

(** That browser after a login from the page of the government portal, and
    after a login from a page opened with the role "admin" in its query. *)
Definition official : Auth.Session :=
  Login.handleSubmit true "1793696400000" "1793696400001" fresh (Some "government")
    "asha" "secret".
Definition stranger : Auth.Session :=
  Login.handleSubmit true "1793696400000" "1793696400001" fresh (Some "admin")
    "asha" "secret".

End Forms.

(** * Properties *)

(** ** The scoring loop *)

Section ScoringFacts.
Context {V : Type} (keywordsOf : V -> list string) (text : string).

Let score (entry : string * V) : nat := countHits text (keywordsOf (snd entry)).

Lemma countHits_none (words : list string) :
  Forall (fun k => includes text k = false) words -> countHits text words = 0%nat.
Proof.
  unfold countHits. induction 1 as [|k words Hk _ IH]; simpl; [reflexivity|].
  rewrite Hk. exact IH.
Qed.

Lemma scoreStep_eq (c : string) (s : nat) (entry : string * V) :
  scoreStep keywordsOf text (c, s) entry
  = if (s <? score entry)%nat then (fst entry, score entry) else (c, s).
Proof. destruct entry as [cat info]. reflexivity. Qed.

(** Entries that do not beat the running best leave it unchanged. *)
Lemma fold_scoreStep_keep (entries : list (string * V)) (c : string) (s : nat) :
  Forall (fun e => (score e <= s)%nat) entries ->
  fold_left (scoreStep keywordsOf text) entries (c, s) = (c, s).
Proof.
  induction 1 as [|e entries He _ IH]; cbn [fold_left]; [reflexivity|].
  rewrite scoreStep_eq.
  destruct (Nat.ltb_spec s (score e)) as [Hlt|_]; [lia | exact IH].
Qed.

(** The first entry reaching the maximal score, when that score beats the
    initial one, is the entry the loop ends on. *)
Lemma fold_scoreStep_first_max (pre post : list (string * V)) (e : string * V) :
  Forall (fun x => (score x < score e)%nat) pre ->
  Forall (fun x => (score x <= score e)%nat) post ->
  forall (c : string) (s : nat), (s < score e)%nat ->
  fold_left (scoreStep keywordsOf text) (pre ++ e :: post) (c, s) = (fst e, score e).
Proof.
  intros Hpre Hpost.
  induction Hpre as [|x pre Hx _ IH]; intros c s Hs; cbn [fold_left app].
  - rewrite scoreStep_eq.
    destruct (Nat.ltb_spec s (score e)) as [_|Hge]; [|lia].
    apply fold_scoreStep_keep. exact Hpost.
  - rewrite scoreStep_eq.
    destruct (Nat.ltb_spec s (score x)) as [_|_]; apply IH; assumption.
Qed.

(** The loop ends on the fallback or on a declared category. *)
Lemma fold_scoreStep_fst (entries : list (string * V)) (c : string) (s : nat) :
  fst (fold_left (scoreStep keywordsOf text) entries (c, s)) = c
  \/ In (fst (fold_left (scoreStep keywordsOf text) entries (c, s))) (List.map fst entries).
Proof.
  revert c s. induction entries as [|e entries IH]; intros c s;
    cbn [fold_left List.map]; [left; reflexivity|].
  rewrite scoreStep_eq.
  destruct (s <? score e)%nat.
  - destruct (IH (fst e) (score e)) as [H|H]; right; [left; symmetry|right]; exact H.
  - destruct (IH c s) as [H|H]; [left|right; right]; exact H.
Qed.

Lemma scoreAll_no_hit (entries : list (string * V)) (fallback : string) :
  Forall (fun e => Forall (fun k => includes text k = false) (keywordsOf (snd e))) entries ->
  scoreAll keywordsOf text entries fallback = (fallback, 0%nat).
Proof.
  intros H. unfold scoreAll. apply fold_scoreStep_keep.
  eapply Forall_impl; [exact H|]. intros e He. unfold score.
  rewrite (countHits_none _ He). lia.
Qed.

Lemma scoreAll_first_max (pre post : list (string * V)) (e : string * V)
    (fallback : string) :
  (0 < score e)%nat ->
  Forall (fun x => (score x < score e)%nat) pre ->
  Forall (fun x => (score x <= score e)%nat) post ->
  scoreAll keywordsOf text (pre ++ e :: post) fallback = (fst e, score e).
Proof.
  intros Hpos Hpre Hpost. unfold scoreAll.
  apply fold_scoreStep_first_max; assumption.
Qed.

Lemma scoreAll_fst (entries : list (string * V)) (fallback : string) :
  fst (scoreAll keywordsOf text entries fallback) = fallback
  \/ In (fst (scoreAll keywordsOf text entries fallback)) (List.map fst entries).
Proof. apply fold_scoreStep_fst. Qed.
End ScoringFacts.

(** ** [classifyTicket] always finds its category entry *)

Section TicketFacts.
Variable toLowerCase : string -> string.
Import SupportTickets.

Lemma member_categories (subject description : string) :
  exists catInfo,
    member categories (fst (best toLowerCase subject description)) = Some catInfo.
Proof.
  destruct (scoreAll_fst Info.keywords (ticketText toLowerCase subject description)
              categories "General") as [H|H]; unfold best; [rewrite H|].
  - eexists. reflexivity.
  - simpl in H.
    repeat (destruct H as [H|H]; [rewrite <- H; eexists; reflexivity|]).
    destruct H.
Qed.

(** The call returns, and the returned object is, field by field: *)
Lemma classifyTicket_ok (random : Q) (subject description : string) :
  exists catInfo c,
    member categories (fst (best toLowerCase subject description)) = Some catInfo
    /\ classifyTicket toLowerCase random subject description = Ok c
    /\ category c = fst (best toLowerCase subject description)
    /\ priority c = Info.priority catInfo
    /\ department c = Info.dept catInfo
    /\ sentiment c = sentimentOf (ticketText toLowerCase subject description)
    /\ confidence c = confidenceOf (snd (best toLowerCase subject description)) random
    /\ estimated_response c = responseOf (Info.priority catInfo).
Proof.
  destruct (member_categories subject description) as [catInfo Hm].
  exists catInfo. unfold classifyTicket.
  destruct (best toLowerCase subject description) as [bestCategory bestScore].
  cbn [fst snd] in Hm |- *. rewrite Hm.
  eexists. split; [reflexivity|]. split; [reflexivity|]. repeat split.
Qed.

Lemma classifyTicket_no_hit (random : Q) (subject description : string) :
  noTrigger Info.keywords (ticketText toLowerCase subject description) categories ->
  exists c,
    classifyTicket toLowerCase random subject description = Ok c
    /\ category c = "General".
Proof.
  intros Hno.
  destruct (classifyTicket_ok random subject description)
    as (catInfo & c & _ & Hc & Hcat & _).
  exists c. split; [exact Hc|]. rewrite Hcat. unfold best.
  rewrite scoreAll_no_hit by exact Hno. reflexivity.
Qed.
End TicketFacts.

(** ** Rounding to one decimal and the confidence formulas *)

Section ConfidenceFacts.
Local Open Scope Q_scope.

Lemma toFixed1_le (x y : Q) : x <= y -> toFixed1 x <= toFixed1 y.
Proof.
  intros Hxy. unfold toFixed1.
  assert (Hf : (Qfloor (x * 10 + (1 # 2)) <= Qfloor (y * 10 + (1 # 2)))%Z)
    by (apply Qfloor_resp_le; lra).
  apply Qmult_le_compat_r; [|vm_compute; discriminate].
  rewrite <- Zle_Qle. exact Hf.
Qed.

Lemma nat_score_nonneg (n : nat) : 0 <= inject_Z (Z.of_nat n).
Proof. change 0 with (inject_Z 0). rewrite <- Zle_Qle. lia. Qed.

Lemma nat_score_le (m n : nat) :
  (m <= n)%nat -> inject_Z (Z.of_nat m) <= inject_Z (Z.of_nat n).
Proof. intros H. rewrite <- Zle_Qle. lia. Qed.

(** The shape shared by both confidence expressions:
    [Math.min(cap, base + bestScore * step + Math.random() * 10).toFixed(1)]. *)
Lemma capped_bounds (cap base step : Q) (bestScore : nat) (random : Q) :
  base <= cap -> 0 <= step -> 0 <= random ->
  toFixed1 base
  <= toFixed1 (Qmin cap (base + inject_Z (Z.of_nat bestScore) * step + random * 10))
  <= toFixed1 cap.
Proof.
  intros Hbc Hstep Hr.
  pose proof (nat_score_nonneg bestScore) as Hn.
  assert (Hprod : 0 <= inject_Z (Z.of_nat bestScore) * step)
    by (apply Qmult_le_0_compat; assumption).
  split; apply toFixed1_le.
  - apply Q.min_glb; [exact Hbc|]. lra.
  - apply Q.le_min_l.
Qed.

Lemma capped_mono (cap base step : Q) (m n : nat) (random : Q) :
  0 <= step -> (m <= n)%nat ->
  toFixed1 (Qmin cap (base + inject_Z (Z.of_nat m) * step + random * 10))
  <= toFixed1 (Qmin cap (base + inject_Z (Z.of_nat n) * step + random * 10)).
Proof.
  intros Hstep Hmn. apply toFixed1_le.
  apply Q.min_le_compat_l.
  pose proof (nat_score_le m n Hmn) as Hle.
  assert (inject_Z (Z.of_nat m) * step <= inject_Z (Z.of_nat n) * step)
    by (apply Qmult_le_compat_r; assumption).
  lra.
Qed.
End ConfidenceFacts.

(** ** The dictionary built by [anomalies] *)

Section StatsFacts.
Import ExpenseCategorizer.

Lemma group_cons_same (e : Categorized) (batch : list Categorized) :
  group (category e) (e :: batch) = amount (expense e) :: group (category e) batch.
Proof. unfold group. simpl. rewrite String.eqb_refl. reflexivity. Qed.

Lemma group_cons_other (c : string) (e : Categorized) (batch : list Categorized) :
  category e <> c -> group c (e :: batch) = group c batch.
Proof.
  intros Hne. unfold group. simpl.
  destruct (String.eqb_spec (category e) c) as [Heq|_]; [contradiction|reflexivity].
Qed.

Lemma group_member (e : Categorized) (batch : list Categorized) :
  In e batch -> group (category e) batch <> [].
Proof.
  intros Hin Hnil. unfold group in Hnil. apply map_eq_nil in Hnil.
  assert (Hf : In e (List.filter (fun x => String.eqb (category x) (category e)) batch)).
  { apply filter_In. split; [exact Hin|apply String.eqb_refl]. }
  rewrite Hnil in Hf. destruct Hf.
Qed.

Lemma pushAmount_spec (m : gmap string (list Q)) (e : Categorized) :
  ownOnly m ->
  match pushAmount m e with
  | Ok m' =>
      (category e ∉ objectPrototypeKeys) /\ ownOnly m'
      /\ (forall c, m' !! c = pushed (m !! c) (group c [e]))
  | TypeError => category e ∈ objectPrototypeKeys
  end.
Proof.
  intros Hown. unfold pushAmount, get.
  destruct (m !! category e) as [amounts|] eqn:Hm.
  - assert (Hnp : category e ∉ objectPrototypeKeys).
    { intros Hp. rewrite (Hown _ Hp) in Hm. discriminate. }
    split; [exact Hnp|]. split.
    + intros c Hc. rewrite lookup_insert_ne; [auto|].
      intros Heq. rewrite <- Heq in Hc. contradiction.
    + intros c. destruct (decide (category e = c)) as [<-|Hne].
      * rewrite lookup_insert_eq, Hm, group_cons_same. reflexivity.
      * rewrite lookup_insert_ne by exact Hne.
        rewrite (group_cons_other c e [] Hne). simpl.
        destruct (m !! c); simpl; [rewrite app_nil_r|]; reflexivity.
  - case_bool_decide as Hp; [exact Hp|].
    split; [exact Hp|]. split.
    + intros c Hc. rewrite lookup_insert_ne; [auto|].
      intros Heq. rewrite <- Heq in Hc. contradiction.
    + intros c. destruct (decide (category e = c)) as [<-|Hne].
      * rewrite lookup_insert_eq, Hm, group_cons_same. reflexivity.
      * rewrite lookup_insert_ne by exact Hne.
        rewrite (group_cons_other c e [] Hne). simpl.
        destruct (m !! c); simpl; [rewrite app_nil_r|]; reflexivity.
Qed.

Lemma pushed_step (before : option (list Q)) (c : string) (e : Categorized)
    (batch : list Categorized) :
  pushed (pushed before (group c [e])) (group c batch) = pushed before (group c (e :: batch)).
Proof.
  destruct (decide (category e = c)) as [<-|Hne].
  - rewrite !group_cons_same. simpl.
    destruct before as [amounts|]; simpl; [rewrite <- app_assoc|]; reflexivity.
  - rewrite !(group_cons_other c e _ Hne). simpl.
    destruct before as [amounts|]; simpl; [rewrite app_nil_r|]; reflexivity.
Qed.

(** The loop throws exactly when a category names an inherited property;
    otherwise every category of the batch maps to its group. *)
Lemma forEach_pushAmount (batch : list Categorized) :
  forall m, ownOnly m ->
  match forEachM pushAmount batch m with
  | Ok m' =>
      Forall (fun e => category e ∉ objectPrototypeKeys) batch
      /\ forall c, m' !! c = pushed (m !! c) (group c batch)
  | TypeError => Exists (fun e => category e ∈ objectPrototypeKeys) batch
  end.
Proof.
  induction batch as [|e batch IH]; intros m Hown; simpl.
  - split; [constructor|]. intros c. destruct (m !! c); simpl; [rewrite app_nil_r|]; reflexivity.
  - pose proof (pushAmount_spec m e Hown) as Hstep.
    destruct (pushAmount m e) as [m1|]; simpl; [|left; exact Hstep].
    destruct Hstep as (Hnp & Hown1 & Hm1).
    specialize (IH m1 Hown1).
    destruct (forEachM pushAmount batch m1) as [m'|]; [|right; exact IH].
    destruct IH as [Hall Hm']. split; [constructor; assumption|].
    intros c. rewrite Hm', Hm1. apply pushed_step.
Qed.

Lemma buildStats_spec (batch : list Categorized) :
  match buildStats batch with
  | Ok m' =>
      Forall (fun e => category e ∉ objectPrototypeKeys) batch
      /\ forall e, In e batch -> m' !! category e = Some (group (category e) batch)
  | TypeError => Exists (fun e => category e ∈ objectPrototypeKeys) batch
  end.
Proof.
  pose proof (forEach_pushAmount batch ∅) as H. unfold buildStats.
  destruct (forEachM pushAmount batch ∅) as [m'|].
  - destruct H as [Hall Hm']; [intros c _; apply lookup_empty|].
    split; [exact Hall|]. intros e Hin. rewrite Hm', lookup_empty.
    pose proof (group_member e batch Hin) as Hne.
    destruct (group (category e) batch); [contradiction|reflexivity].
  - apply H. intros c _. apply lookup_empty.
Qed.

Lemma filterM_isAnomaly (m : gmap string (list Q)) (batch l : list Categorized) :
  (forall e, In e l -> m !! category e = Some (group (category e) batch)) ->
  filterM (isAnomaly m) l = Ok (List.filter (flagged batch) l).
Proof.
  induction l as [|e l IH]; intros Hm; cbn [filterM List.filter]; [reflexivity|].
  rewrite IH by (intros x Hx; apply Hm; right; exact Hx).
  unfold isAnomaly, get. rewrite (Hm e (or_introl eq_refl)).
  change (deviates (group (category e) batch) (amount (expense e)))
    with (flagged batch e).
  destruct (flagged batch e); reflexivity.
Qed.

(** [anomalies] in closed form. *)
Lemma anomalies_spec (batch : list Categorized) :
  match anomalies batch with
  | Ok flaggedRecords =>
      Forall (fun e => category e ∉ objectPrototypeKeys) batch
      /\ flaggedRecords = List.filter (flagged batch) batch
  | TypeError => Exists (fun e => category e ∈ objectPrototypeKeys) batch
  end.
Proof.
  pose proof (buildStats_spec batch) as H. unfold anomalies.
  destruct (buildStats batch) as [m'|]; simpl; [|exact H].
  destruct H as [Hall Hm'].
  rewrite (filterM_isAnomaly m' batch batch Hm'). split; [exact Hall|reflexivity].
Qed.

Lemma anomalies_ok (batch : list Categorized) :
  Forall (fun e => category e ∉ objectPrototypeKeys) batch ->
  anomalies batch = Ok (List.filter (flagged batch) batch).
Proof.
  intros Hall. pose proof (anomalies_spec batch) as H.
  destruct (anomalies batch) as [r|].
  - destruct H as [_ ->]. reflexivity.
  - apply Exists_exists in H. destruct H as (e & Hin & Hp).
    rewrite Forall_forall in Hall. destruct (Hall e Hin Hp).
Qed.

Lemma anomalies_inv (batch r : list Categorized) :
  anomalies batch = Ok r -> r = List.filter (flagged batch) batch.
Proof.
  intros H. pose proof (anomalies_spec batch) as Hs. rewrite H in Hs. apply Hs.
Qed.
End StatsFacts.

(** ** The comparison against the standard deviation *)

Section DeviationFacts.
Import ExpenseCategorizer.
Local Open Scope Q_scope.

Lemma Rgtb_true (x y : R) : Rgtb x y = true <-> (y < x)%R.
Proof. unfold Rgtb. destruct (Rlt_dec y x); split; try discriminate; tauto. Qed.

Lemma Rgtb_false (x y : R) : Rgtb x y = false <-> (x <= y)%R.
Proof.
  unfold Rgtb. destruct (Rlt_dec y x) as [Hlt|Hge]; split; intros H.
  - discriminate H.
  - exfalso. Lra.lra.
  - Lra.lra.
  - reflexivity.
Qed.

Lemma Q2R_0 : Q2R 0 = 0%R.
Proof. unfold Q2R. simpl. Lra.lra. Qed.

Lemma Q2R_square (x : Q) : Q2R (x ^ 2) = (Q2R x * Q2R x)%R.
Proof. rewrite <- Q2R_mult. apply Qeq_eqR. ring. Qed.

Lemma Qabs_square (x : Q) : Qabs x ^ 2 == x ^ 2.
Proof. apply Qabs_case; intros _; ring. Qed.

(** Both sides being non-negative, the comparison is the one of the squares. *)
Lemma scaled_sqrt_lt (v d : Q) :
  0 < v ->
  (2 * sqrt (Q2R v) < Q2R (Qabs d))%R <-> 4 * v < d ^ 2.
Proof.
  intros Hv.
  assert (HV : (0 < Q2R v)%R) by (rewrite <- Q2R_0; apply Qlt_Rlt; exact Hv).
  assert (HA : (0 <= Q2R (Qabs d))%R)
    by (rewrite <- Q2R_0; apply Qle_Rle; apply Qabs_nonneg).
  pose proof (sqrt_lt_R0 _ HV) as HS.
  pose proof (sqrt_sqrt (Q2R v) (Rlt_le _ _ HV)) as HSS.
  assert (Hsq : Q2R (d ^ 2) = (Q2R (Qabs d) * Q2R (Qabs d))%R).
  { rewrite <- Q2R_square. apply Qeq_eqR. symmetry. apply Qabs_square. }
  assert (H4 : Q2R 4 = 4%R) by (unfold Q2R; simpl; Lra.lra).
  assert (Hl : Q2R (4 * v)
               = ((2 * sqrt (Q2R v)) * (2 * sqrt (Q2R v)))%R).
  { rewrite Q2R_mult, H4.
    transitivity (4 * (sqrt (Q2R v) * sqrt (Q2R v)))%R; [|ring].
    rewrite HSS. reflexivity. }
  set (lhs := (2 * sqrt (Q2R v))%R) in *.
  assert (Hlhs : (0 <= lhs)%R) by (unfold lhs; Lra.nra).
  split.
  - intros Hlt. apply Rlt_Qlt. rewrite Hl, Hsq. Lra.nra.
  - intros Hlt. apply Qlt_Rlt in Hlt. rewrite Hl, Hsq in Hlt. Lra.nra.
Qed.

(** The test on the squares decides the test of the source. *)
Lemma deviates_deviatesQ (amounts : list Q) (value : Q) :
  deviates amounts value = deviatesQ amounts value.
Proof.
  unfold deviates, deviatesQ, std.
  destruct (List.length amounts <? 2)%nat; [reflexivity|].
  set (var := variance amounts). set (d := value - mean amounts).
  destruct (Qcompare_spec 0 var) as [Heq|Hlt|Hgt].
  - assert (Hz : Q2R var = 0%R) by (rewrite <- Q2R_0; apply Qeq_eqR; symmetry; exact Heq).
    rewrite Hz, sqrt_0.
    assert (Hf : Rgtb 0 0 = false) by (apply Rgtb_false; Lra.lra).
    rewrite Hf. reflexivity.
  - assert (HV : (0 < Q2R var)%R) by (rewrite <- Q2R_0; apply Qlt_Rlt; exact Hlt).
    assert (Ht : Rgtb (sqrt (Q2R var)) 0 = true)
      by (apply Rgtb_true, sqrt_lt_R0; exact HV).
    rewrite Ht. cbn [andb].
    pose proof (scaled_sqrt_lt var d Hlt) as Hiff.
    destruct (Qcompare_spec (4 * var) (d ^ 2)) as [Hc|Hc|Hc].
    + apply Rgtb_false. apply Rnot_lt_le. intros H. apply Hiff in H.
      rewrite Hc in H. exact (Qlt_irrefl _ H).
    + apply Rgtb_true, Hiff. exact Hc.
    + apply Rgtb_false. apply Rnot_lt_le. intros H. apply Hiff in H.
      exact (Qlt_irrefl _ (Qlt_trans _ _ _ H Hc)).
  - assert (Hz : sqrt (Q2R var) = 0%R).
    { apply sqrt_neg_0. rewrite <- Q2R_0. apply Qle_Rle, Qlt_le_weak. exact Hgt. }
    rewrite Hz.
    assert (Hf : Rgtb 0 0 = false) by (apply Rgtb_false; Lra.lra).
    rewrite Hf. reflexivity.
Qed.

Lemma isAnomaly_isAnomalyQ (m : gmap string (list Q)) (e : Categorized) :
  isAnomaly m e = isAnomalyQ m e.
Proof.
  unfold isAnomaly, isAnomalyQ.
  destruct (get m (category e)); try reflexivity.
  rewrite deviates_deviatesQ. reflexivity.
Qed.

Lemma filterM_ext {A : Type} (p q : A -> result bool) (l : list A) :
  (forall a, p a = q a) -> filterM p l = filterM q l.
Proof.
  intros Hpq. induction l as [|a l IH]; cbn [filterM]; [reflexivity|].
  rewrite Hpq, IH. reflexivity.
Qed.

Lemma anomalies_anomaliesQ (batch : list Categorized) :
  anomalies batch = anomaliesQ batch.
Proof.
  unfold anomalies, anomaliesQ.
  destruct (buildStats batch) as [m|]; [|reflexivity].
  apply (filterM_ext (isAnomaly m) (isAnomalyQ m)).
  intros e. apply isAnomaly_isAnomalyQ.
Qed.
End DeviationFacts.

(** ** The batch produced by [categorized] *)

Section PipelineFacts.
Variable toLowerCase : string -> string.
Import ExpenseCategorizer.

Lemma categorizeExpense_eq (random : Q) (description : string) :
  categorizeExpense toLowerCase random description
  = (fst (best toLowerCase description),
     confidenceOf (snd (best toLowerCase description)) random).
Proof.
  unfold categorizeExpense. destruct (best toLowerCase description). reflexivity.
Qed.

Lemma categorizeExpense_category (random : Q) (description : string) :
  fst (categorizeExpense toLowerCase random description)
  = fst (best toLowerCase description).
Proof.
  unfold categorizeExpense. destruct (best toLowerCase description). reflexivity.
Qed.

Lemma categorizeExpense_confidence (random : Q) (description : string) :
  snd (categorizeExpense toLowerCase random description)
  = confidenceOf (snd (best toLowerCase description)) random.
Proof.
  unfold categorizeExpense. destruct (best toLowerCase description). reflexivity.
Qed.

Lemma categorizeExpense_no_hit (random : Q) (description : string) :
  noTrigger (fun keywords => keywords) (toLowerCase description) categoryKeywords ->
  fst (categorizeExpense toLowerCase random description) = "Other".
Proof.
  intros Hno. rewrite categorizeExpense_category. unfold best.
  rewrite scoreAll_no_hit by exact Hno. reflexivity.
Qed.

(** No category of the taxonomy, nor the fallback, names an inherited
    property. *)
Lemma best_not_inherited (description : string) :
  fst (best toLowerCase description) ∉ objectPrototypeKeys.
Proof.
  destruct (scoreAll_fst (fun keywords : list string => keywords)
              (toLowerCase description) categoryKeywords "Other") as [H|H];
    unfold best; [rewrite H|].
  - rewrite list_elem_of_In. simpl. intuition discriminate.
  - simpl in H.
    repeat (destruct H as [H|H];
            [rewrite <- H, list_elem_of_In; simpl; intuition discriminate|]).
    destruct H.
Qed.

Lemma Forall_imap {A B : Type} (P : B -> Prop) (l : list A) :
  forall f : nat -> A -> B, (forall i a, P (f i a)) -> Forall P (imap f l).
Proof.
  induction l as [|a l IH]; intros f Hf; simpl; constructor; [apply Hf|].
  apply IH. intros i x. apply Hf.
Qed.

Lemma categorized_own (random : nat -> Q) (expenses : list Expense) :
  Forall (fun e => category e ∉ objectPrototypeKeys)
         (categorized toLowerCase random expenses).
Proof.
  apply Forall_imap. intros i x. rewrite categorizeExpense_eq. simpl.
  apply best_not_inherited.
Qed.

Lemma anomalies_categorized (random : nat -> Q) (expenses : list Expense) :
  anomalies (categorized toLowerCase random expenses)
  = Ok (List.filter (flagged (categorized toLowerCase random expenses))
                    (categorized toLowerCase random expenses)).
Proof. apply anomalies_ok, categorized_own. Qed.

Lemma map_imap_ext {A B C : Type} (g : B -> C) (l : list A) :
  forall f f' : nat -> A -> B,
    (forall i a, g (f i a) = g (f' i a)) ->
    List.map g (imap f l) = List.map g (imap f' l).
Proof.
  induction l as [|a l IH]; intros f f' Hff; simpl; [reflexivity|].
  rewrite Hff. f_equal. apply IH. intros i x. apply Hff.
Qed.

(** Two renderings of the same expenses differ in the confidences only. *)
Lemma categorized_withoutConfidence (random1 random2 : nat -> Q)
    (expenses : list Expense) :
  List.map withoutConfidence (categorized toLowerCase random1 expenses)
  = List.map withoutConfidence (categorized toLowerCase random2 expenses).
Proof.
  apply map_imap_ext. intros i x. rewrite !categorizeExpense_eq.
  unfold withoutConfidence. cbn [expense category]. reflexivity.
Qed.
End PipelineFacts.

(** ** Flags depend on categories and amounts only *)

Section FlagFacts.
Import ExpenseCategorizer.

Lemma group_key (c : string) (b1 b2 : list Categorized) :
  List.map key b1 = List.map key b2 -> group c b1 = group c b2.
Proof.
  revert b2. induction b1 as [|e1 b1 IH]; intros [|e2 b2] Hk; try discriminate.
  - reflexivity.
  - simpl in Hk. injection Hk as Hc Ha Hrest. unfold group. simpl.
    rewrite Hc. destruct (String.eqb (category e2) c); simpl;
      [rewrite Ha; f_equal|]; apply IH; exact Hrest.
Qed.

Lemma flagged_key (b1 b2 : list Categorized) (e1 e2 : Categorized) :
  List.map key b1 = List.map key b2 -> key e1 = key e2 ->
  flagged b1 e1 = flagged b2 e2.
Proof.
  intros Hb He. injection He as Hc Ha. unfold flagged.
  rewrite Hc, Ha, (group_key (category e2) b1 b2 Hb). reflexivity.
Qed.

Lemma filter_map_agree {A B : Type} (g : A -> B) (p q : A -> bool) (l1 l2 : list A) :
  List.map g l1 = List.map g l2 ->
  Forall2 (fun a b => p a = q b) l1 l2 ->
  List.map g (List.filter p l1) = List.map g (List.filter q l2).
Proof.
  intros Hg Hpq. induction Hpq as [|a b l1 l2 Hab _ IH]; [reflexivity|].
  simpl in Hg. injection Hg as Hhead Htail. simpl. rewrite Hab.
  destruct (q b); simpl; [rewrite Hhead; f_equal|]; apply IH; exact Htail.
Qed.

Lemma Forall2_same_key (f : Categorized -> Categorized -> Prop)
    (l1 l2 : list Categorized) :
  List.map key l1 = List.map key l2 ->
  (forall a b, key a = key b -> f a b) -> Forall2 f l1 l2.
Proof.
  intros Hk Hf. revert l2 Hk.
  induction l1 as [|a l1 IH]; intros [|b l2] Hk; try discriminate; constructor.
  - apply Hf. simpl in Hk. congruence.
  - apply IH. simpl in Hk. congruence.
Qed.

Lemma key_of_withoutConfidence (l1 l2 : list Categorized) :
  List.map withoutConfidence l1 = List.map withoutConfidence l2 ->
  List.map key l1 = List.map key l2.
Proof.
  revert l2. induction l1 as [|a l1 IH]; intros [|b l2] H; try discriminate.
  - reflexivity.
  - simpl in H. injection H as He Hc Hrest. simpl. unfold key at 1 3.
    rewrite He, Hc. f_equal. apply IH. exact Hrest.
Qed.

(** Filtering two batches with the same categories and amounts keeps the
    same positions. *)
Lemma filter_flagged_agree {B : Type} (g : Categorized -> B)
    (b1 b2 : list Categorized) :
  List.map key b1 = List.map key b2 ->
  List.map g b1 = List.map g b2 ->
  List.map g (List.filter (flagged b1) b1) = List.map g (List.filter (flagged b2) b2).
Proof.
  intros Hk Hg. apply filter_map_agree; [exact Hg|].
  apply Forall2_same_key; [exact Hk|].
  intros a b Hab. apply flagged_key; assumption.
Qed.
End FlagFacts.

(** ** Blank text triggers nothing *)

Section BlankFacts.

Lemma prefix_blank (s k : string) :
  blank s = true -> visibleStart k = true -> String.prefix k s = false.
Proof.
  destruct k as [|c k]; [discriminate|]. destruct s as [|c' s]; [reflexivity|].
  simpl. intros Hs Hk. destruct (ascii_dec c c') as [->|_]; [|reflexivity].
  destruct (isSpace c'); discriminate.
Qed.

Lemma includes_blank (s k : string) :
  blank s = true -> visibleStart k = true -> includes s k = false.
Proof.
  intros Hs Hk. induction s as [|c s IH].
  - cbn [includes]. rewrite (prefix_blank "" k Hs Hk). reflexivity.
  - cbn [includes]. rewrite (prefix_blank _ k Hs Hk). cbn [orb].
    cbn [blank] in Hs. apply andb_true_iff in Hs as [_ Hs]. apply IH. exact Hs.
Qed.

Lemma noTrigger_blank {V : Type} (keywordsOf : V -> list string) (text : string)
    (entries : list (string * V)) :
  blank text = true ->
  Forall (fun entry => Forall (fun k => visibleStart k = true) (keywordsOf (snd entry)))
         entries ->
  noTrigger keywordsOf text entries.
Proof.
  intros Hb Hv. unfold noTrigger.
  eapply Forall_impl; [exact Hv|]. intros entry Hentry.
  eapply Forall_impl; [exact Hentry|]. intros k Hk.
  apply includes_blank; assumption.
Qed.
End BlankFacts.

(** ** Splitting never returns the empty array; taxonomy keywords are visible *)

Section TextFacts.
Lemma splitRuns_nonempty (isSep : ascii -> bool) (s : string) :
  FakeNewsDetector.splitRuns isSep s <> [].
Proof.
  induction s as [|c s IH]; [discriminate|]. cbn [FakeNewsDetector.splitRuns].
  destruct (isSep c).
  - destruct s as [|c' s']; [discriminate|]. destruct (isSep c'); [exact IH|discriminate].
  - destruct (FakeNewsDetector.splitRuns isSep s); discriminate.
Qed.

Lemma ticket_keywords_visible :
  Forall (fun entry => Forall (fun k => visibleStart k = true)
                              (SupportTickets.Info.keywords (snd entry)))
         SupportTickets.categories.
Proof. repeat constructor. Qed.

Lemma expense_keywords_visible :
  Forall (fun entry : string * list string =>
            Forall (fun k => visibleStart k = true) (snd entry))
         ExpenseCategorizer.categoryKeywords.
Proof. repeat constructor. Qed.

Lemma singleton_not_flagged (e : ExpenseCategorizer.Categorized) :
  ExpenseCategorizer.flagged [e] e = false.
Proof.
  unfold ExpenseCategorizer.flagged. rewrite group_cons_same. reflexivity.
Qed.
End TextFacts.

(** * The claims *)

(** Proves a [Forall] over a list given in full, one element at a time. *)
Ltac each_entry tac :=
  repeat first [ apply List.Forall_nil | apply List.Forall_cons; [tac|] ].

Section Claims.
Variables toLowerCase toUpperCase : string -> string.
Local Open Scope Q_scope.

(** C1 -- Fallback completeness.  For the ticket taxonomy and for the expense
    taxonomy: when no trigger keyword of any category occurs as a substring
    of the case-folded input, [classifyTicket] returns the category
    ["General"] and [categorizeExpense] returns the category ["Other"]. *)
Theorem fallback_completeness :
  (forall (random : Q) (subject description : string),
      noTrigger SupportTickets.Info.keywords
                (SupportTickets.ticketText toLowerCase subject description)
                SupportTickets.categories ->
      exists c,
        SupportTickets.classifyTicket toLowerCase random subject description = Ok c
        /\ SupportTickets.category c = "General")
  /\ (forall (random : Q) (description : string),
         noTrigger (fun keywords => keywords) (toLowerCase description)
                   ExpenseCategorizer.categoryKeywords ->
         fst (ExpenseCategorizer.categorizeExpense toLowerCase random description)
         = "Other").
Proof.
  split.
  - intros random subject description Hno.
    apply classifyTicket_no_hit. exact Hno.
  - intros random description Hno.
    apply categorizeExpense_no_hit. exact Hno.
Qed.

(** C2 -- Tie-break determinism.  In either taxonomy, let a category reach a
    positive hit count that every earlier-declared category misses and no
    later-declared category exceeds (it is the earliest of the categories
    with the maximal count).  Then that category is the one returned,
    whatever the random draw. *)
Theorem tie_break_first_declared :
  (forall (random : Q) (subject description : string)
          (pre post : list (string * SupportTickets.Info.t))
          (cat : string) (info : SupportTickets.Info.t),
      let hits := fun i =>
        countHits (SupportTickets.ticketText toLowerCase subject description)
                  (SupportTickets.Info.keywords i) in
      SupportTickets.categories = (pre ++ (cat, info) :: post)%list ->
      (0 < hits info)%nat ->
      Forall (fun e => (hits (snd e) < hits info)%nat) pre ->
      Forall (fun e => (hits (snd e) <= hits info)%nat) post ->
      exists c,
        SupportTickets.classifyTicket toLowerCase random subject description = Ok c
        /\ SupportTickets.category c = cat)
  /\ (forall (random : Q) (description : string)
             (pre post : list (string * list string))
             (cat : string) (keywords : list string),
         let hits := countHits (toLowerCase description) in
         ExpenseCategorizer.categoryKeywords = (pre ++ (cat, keywords) :: post)%list ->
         (0 < hits keywords)%nat ->
         Forall (fun e => (hits (snd e) < hits keywords)%nat) pre ->
         Forall (fun e => (hits (snd e) <= hits keywords)%nat) post ->
         fst (ExpenseCategorizer.categorizeExpense toLowerCase random description) = cat).
Proof.
  split.
  - intros random subject description pre post cat info hits Hsplit Hpos Hpre Hpost.
    destruct (classifyTicket_ok toLowerCase random subject description)
      as (catInfo & c & _ & Hc & Hcat & _).
    exists c. split; [exact Hc|]. rewrite Hcat.
    unfold SupportTickets.best. rewrite Hsplit.
    rewrite (scoreAll_first_max SupportTickets.Info.keywords _ pre post (cat, info))
      by assumption.
    reflexivity.
  - intros random description pre post cat keywords hits Hsplit Hpos Hpre Hpost.
    rewrite categorizeExpense_category. unfold ExpenseCategorizer.best.
    rewrite Hsplit.
    rewrite (scoreAll_first_max (fun kws : list string => kws) _ pre post (cat, keywords))
      by assumption.
    reflexivity.
Qed.

(** C10 -- The jitter is confined to the confidence.  Two runs of
    [classifyTicket] on the same subject and description, with any two
    random draws, both return, and agree on category, priority, department,
    sentiment and estimated response; two runs of [categorizeExpense] agree
    on the category. *)
Theorem jitter_only_in_confidence :
  (forall (random1 random2 : Q) (subject description : string),
      exists c1 c2,
        SupportTickets.classifyTicket toLowerCase random1 subject description = Ok c1
        /\ SupportTickets.classifyTicket toLowerCase random2 subject description = Ok c2
        /\ SupportTickets.category c1 = SupportTickets.category c2
        /\ SupportTickets.priority c1 = SupportTickets.priority c2
        /\ SupportTickets.department c1 = SupportTickets.department c2
        /\ SupportTickets.sentiment c1 = SupportTickets.sentiment c2
        /\ SupportTickets.estimated_response c1 = SupportTickets.estimated_response c2)
  /\ (forall (random1 random2 : Q) (description : string),
         fst (ExpenseCategorizer.categorizeExpense toLowerCase random1 description)
         = fst (ExpenseCategorizer.categorizeExpense toLowerCase random2 description)).
Proof.
  split.
  - intros random1 random2 subject description.
    destruct (classifyTicket_ok toLowerCase random1 subject description)
      as (info1 & c1 & Hm1 & Hc1 & Hcat1 & Hpri1 & Hdep1 & Hsen1 & _ & Hest1).
    destruct (classifyTicket_ok toLowerCase random2 subject description)
      as (info2 & c2 & Hm2 & Hc2 & Hcat2 & Hpri2 & Hdep2 & Hsen2 & _ & Hest2).
    assert (info1 = info2) as Hinfo by congruence.
    exists c1, c2. rewrite Hcat1, Hcat2, Hpri1, Hpri2, Hdep1, Hdep2, Hsen1, Hsen2,
                    Hest1, Hest2, Hinfo.
    repeat split; assumption.
  - intros random1 random2 description. rewrite !categorizeExpense_category.
    reflexivity.
Qed.

(** C9 -- Totality.  [classifyTicket] returns for every subject and
    description, and returns the fallback category when the case-folded
    text is blank; [categorizeExpense] does the same on a blank description;
    [anomalies] returns for every batch the component can build, with no
    flagged record for the empty batch and for a batch of one record;
    [analyzeText] always divides by a word count of at least one. *)
Theorem never_throws :
  (forall (random : Q) (subject description : string),
      exists c,
        SupportTickets.classifyTicket toLowerCase random subject description = Ok c)
  /\ (forall (random : Q) (subject description : string),
         blank (SupportTickets.ticketText toLowerCase subject description) = true ->
         exists c,
           SupportTickets.classifyTicket toLowerCase random subject description = Ok c
           /\ SupportTickets.category c = "General")
  /\ (forall (random : Q) (description : string),
         blank (toLowerCase description) = true ->
         fst (ExpenseCategorizer.categorizeExpense toLowerCase random description)
         = "Other")
  /\ (forall (random : nat -> Q) (expenses : list ExpenseCategorizer.Expense),
         exists flaggedRecords,
           ExpenseCategorizer.anomalies
             (ExpenseCategorizer.categorized toLowerCase random expenses)
           = Ok flaggedRecords)
  /\ ExpenseCategorizer.anomalies [] = Ok []
  /\ (forall (random : nat -> Q) (x : ExpenseCategorizer.Expense),
         ExpenseCategorizer.anomalies
           (ExpenseCategorizer.categorized toLowerCase random [x])
         = Ok [])
  /\ (forall (random : nat -> Q) (text : string),
         (1 <= FakeNewsDetector.wordCount
                 (FakeNewsDetector.analysis
                    (FakeNewsDetector.analyzeText toLowerCase toUpperCase random text)))%nat
         /\ FakeNewsDetector.topics
              (FakeNewsDetector.analyzeText toLowerCase toUpperCase random text) <> []).
Proof.
  split; [|split; [|split; [|split; [|split; [|split]]]]].
  - intros random subject description.
    destruct (classifyTicket_ok toLowerCase random subject description)
      as (catInfo & c & _ & Hc & _).
    exists c. exact Hc.
  - intros random subject description Hblank.
    apply classifyTicket_no_hit.
    apply noTrigger_blank; [exact Hblank|apply ticket_keywords_visible].
  - intros random description Hblank.
    apply categorizeExpense_no_hit.
    apply noTrigger_blank; [exact Hblank|apply expense_keywords_visible].
  - intros random expenses. eexists. apply anomalies_categorized.
  - reflexivity.
  - intros random x. rewrite anomalies_categorized.
    set (batch := ExpenseCategorizer.categorized toLowerCase random [x]).
    assert (Hone : exists e, batch = [e]) by (eexists; reflexivity).
    destruct Hone as [e ->]. cbn [List.filter].
    rewrite singleton_not_flagged. reflexivity.
  - intros random text. split.
    + change (FakeNewsDetector.wordCount
                (FakeNewsDetector.analysis
                   (FakeNewsDetector.analyzeText toLowerCase toUpperCase random text)))
        with (List.length (FakeNewsDetector.splitRuns isSpace text)).
      pose proof (splitRuns_nonempty isSpace text) as Hne.
      destruct (FakeNewsDetector.splitRuns isSpace text); [contradiction|simpl; lia].
    + unfold FakeNewsDetector.analyzeText. cbv zeta. cbn [FakeNewsDetector.topics].
      destruct (List.map fst _); discriminate.
Qed.

(** C6 -- Confidence bounds and monotonicity.  With a draw [random >= 0]
    (the range of [Math.random()] is [0, 1)), the confidence of
    [classifyTicket] lies in [60, 95] and the one of [categorizeExpense] in
    [50, 95]; the score of [analyzeText] lies in [5, 98] for every draw.
    With the draw held fixed, a larger winning hit count never gives a
    smaller confidence. *)
Theorem confidence_bounded_and_monotone :
  (forall (random : Q) (subject description : string),
      0 <= random ->
      exists c,
        SupportTickets.classifyTicket toLowerCase random subject description = Ok c
        /\ 60 <= SupportTickets.confidence c <= 95)
  /\ (forall (random : Q) (description : string),
         0 <= random ->
         50 <= snd (ExpenseCategorizer.categorizeExpense toLowerCase random description)
            <= 95)
  /\ (forall (random : nat -> Q) (text : string),
         5 <= FakeNewsDetector.score
                (FakeNewsDetector.analyzeText toLowerCase toUpperCase random text)
           <= 98)
  /\ (forall (random : Q) (subject1 description1 subject2 description2 : string),
         (snd (SupportTickets.best toLowerCase subject1 description1)
          <= snd (SupportTickets.best toLowerCase subject2 description2))%nat ->
         exists c1 c2,
           SupportTickets.classifyTicket toLowerCase random subject1 description1 = Ok c1
           /\ SupportTickets.classifyTicket toLowerCase random subject2 description2
              = Ok c2
           /\ SupportTickets.confidence c1 <= SupportTickets.confidence c2)
  /\ (forall (random : Q) (description1 description2 : string),
         (snd (ExpenseCategorizer.best toLowerCase description1)
          <= snd (ExpenseCategorizer.best toLowerCase description2))%nat ->
         snd (ExpenseCategorizer.categorizeExpense toLowerCase random description1)
         <= snd (ExpenseCategorizer.categorizeExpense toLowerCase random description2)).
Proof.
  split; [|split; [|split; [|split]]].
  - intros random subject description Hr.
    destruct (classifyTicket_ok toLowerCase random subject description)
      as (catInfo & c & _ & Hc & _ & _ & _ & _ & Hconf & _).
    exists c. split; [exact Hc|]. rewrite Hconf. unfold SupportTickets.confidenceOf.
    destruct (capped_bounds 95 60 12
                (snd (SupportTickets.best toLowerCase subject description)) random)
      as [Hlo Hhi]; [discriminate|discriminate|exact Hr|].
    split; [eapply Qle_trans; [|exact Hlo]|eapply Qle_trans; [exact Hhi|]];
      vm_compute; discriminate.
  - intros random description Hr.
    rewrite categorizeExpense_confidence. unfold ExpenseCategorizer.confidenceOf.
    destruct (capped_bounds 95 50 15
                (snd (ExpenseCategorizer.best toLowerCase description)) random)
      as [Hlo Hhi]; [discriminate|discriminate|exact Hr|].
    split; [eapply Qle_trans; [|exact Hlo]|eapply Qle_trans; [exact Hhi|]];
      vm_compute; discriminate.
  - intros random text.
    change (FakeNewsDetector.score
              (FakeNewsDetector.analyzeText toLowerCase toUpperCase random text))
      with (toFixed1 (FakeNewsDetector.clampScore
                        (FakeNewsDetector.rawScore toLowerCase toUpperCase text)
                        (random 0%nat))).
    unfold FakeNewsDetector.clampScore.
    set (x := FakeNewsDetector.rawScore toLowerCase toUpperCase text
              + (random 0%nat * 10 - 5)).
    split.
    + apply Qle_trans with (toFixed1 5); [vm_compute; discriminate|].
      apply toFixed1_le, Q.le_max_l.
    + apply Qle_trans with (toFixed1 98); [|vm_compute; discriminate].
      apply toFixed1_le, Q.max_lub; [discriminate|apply Q.le_min_l].
  - intros random subject1 description1 subject2 description2 Hle.
    destruct (classifyTicket_ok toLowerCase random subject1 description1)
      as (info1 & c1 & _ & Hc1 & _ & _ & _ & _ & Hconf1 & _).
    destruct (classifyTicket_ok toLowerCase random subject2 description2)
      as (info2 & c2 & _ & Hc2 & _ & _ & _ & _ & Hconf2 & _).
    exists c1, c2. split; [exact Hc1|]. split; [exact Hc2|].
    rewrite Hconf1, Hconf2. unfold SupportTickets.confidenceOf.
    apply capped_mono; [discriminate|exact Hle].
  - intros random description1 description2 Hle.
    rewrite !categorizeExpense_confidence. unfold ExpenseCategorizer.confidenceOf.
    apply capped_mono; [discriminate|exact Hle].
Qed.
End Claims.

(** C1 at a concrete input: a greeting and a miscellaneous item. *)
Lemma fallback_completeness_witness :
  (exists c,
      SupportTickets.classifyTicket asciiLowerCase (1 # 2) "Hello" "Nothing to see" = Ok c
      /\ SupportTickets.category c = "General")
  /\ fst (ExpenseCategorizer.categorizeExpense asciiLowerCase (1 # 2) "Misc item") = "Other".
Proof.
  destruct (fallback_completeness asciiLowerCase) as [Hticket Hexpense].
  split; [apply Hticket|apply Hexpense]; repeat constructor.
Defined.

(** C2 at concrete inputs: ["Infrastructure"] and ["Water Supply"] both score
    2; ["Transportation"] and ["Utilities"] both score 1. *)
Lemma tie_break_first_declared_witness :
  (exists c,
      SupportTickets.classifyTicket asciiLowerCase (1 # 2) "Water pipe" "Road bridge" = Ok c
      /\ SupportTickets.category c = "Infrastructure")
  /\ fst (ExpenseCategorizer.categorizeExpense asciiLowerCase (1 # 2) "Gas") = "Transportation".
Proof.
  destruct (tie_break_first_declared asciiLowerCase) as [Hticket Hexpense].
  split.
  - apply (Hticket (1 # 2)%Q "Water pipe" "Road bridge" []
                   (List.tl SupportTickets.categories)
                   "Infrastructure"
                   (snd (List.hd ("", SupportTickets.Info.Make [] "" "")
                                 SupportTickets.categories))).
    + reflexivity.
    + vm_compute. lia.
    + apply List.Forall_nil.
    + unfold SupportTickets.categories; cbn [List.tl].
      each_entry ltac:(vm_compute; lia).
  - apply (Hexpense (1 # 2)%Q "Gas"
                    (firstn 1 ExpenseCategorizer.categoryKeywords)
                    (skipn 2 ExpenseCategorizer.categoryKeywords)
                    "Transportation"
                    (snd (List.nth 1 ExpenseCategorizer.categoryKeywords ("", [])))).
    + reflexivity.
    + vm_compute. lia.
    + unfold ExpenseCategorizer.categoryKeywords; cbn [firstn].
      each_entry ltac:(vm_compute; lia).
    + unfold ExpenseCategorizer.categoryKeywords; cbn [skipn].
      each_entry ltac:(vm_compute; lia).
Defined.

(** C9 at blank inputs: an empty subject with a description of two spaces,
    and an empty expense description. *)
Lemma never_throws_witness :
  (exists c,
      SupportTickets.classifyTicket asciiLowerCase (1 # 2) "" "  " = Ok c
      /\ SupportTickets.category c = "General")
  /\ fst (ExpenseCategorizer.categorizeExpense asciiLowerCase (1 # 2) "") = "Other".
Proof.
  destruct (never_throws asciiLowerCase asciiUpperCase) as (_ & Hticket & Hexpense & _).
  split; [apply Hticket|apply Hexpense]; reflexivity.
Defined.

(** C6 at concrete inputs: the draw 1/2, a ticket with four hits against a
    ticket with none, an expense with one hit against an expense with none. *)
Lemma confidence_bounded_and_monotone_witness :
  (exists c,
      SupportTickets.classifyTicket asciiLowerCase (1 # 2) "Road Pothole Complaint"
        "large pothole on MG Road damaged vehicles, urgent repair needed" = Ok c
      /\ (60 <= SupportTickets.confidence c <= 95)%Q)
  /\ (50 <= snd (ExpenseCategorizer.categorizeExpense asciiLowerCase (1 # 2) "Gas") <= 95)%Q
  /\ (exists c1 c2,
         SupportTickets.classifyTicket asciiLowerCase (1 # 2) "Hello" "Nothing to see" = Ok c1
         /\ SupportTickets.classifyTicket asciiLowerCase (1 # 2) "Road Pothole Complaint"
              "large pothole on MG Road damaged vehicles, urgent repair needed" = Ok c2
         /\ (SupportTickets.confidence c1 <= SupportTickets.confidence c2)%Q)
  /\ (snd (ExpenseCategorizer.categorizeExpense asciiLowerCase (1 # 2) "Misc item")
      <= snd (ExpenseCategorizer.categorizeExpense asciiLowerCase (1 # 2) "Gas"))%Q.
Proof.
  destruct (confidence_bounded_and_monotone asciiLowerCase asciiUpperCase)
    as (Hticket & Hexpense & _ & HticketMono & HexpenseMono).
  split; [|split; [|split]].
  - apply Hticket. discriminate.
  - apply Hexpense. discriminate.
  - apply HticketMono. vm_compute. lia.
  - apply HexpenseMono. vm_compute. lia.
Defined.

(** C10, the converse direction at a concrete input: the confidence does
    change with the draw (60.0 against 69.0 on a ticket with no hit). *)
Example confidence_follows_the_draw :
  exists c1 c2,
    SupportTickets.classifyTicket asciiLowerCase 0 "Hello" "Nothing to see" = Ok c1
    /\ SupportTickets.classifyTicket asciiLowerCase (9 # 10) "Hello" "Nothing to see" = Ok c2
    /\ ~ (SupportTickets.confidence c1 == SupportTickets.confidence c2)%Q.
Proof. do 2 eexists. split; [reflexivity|]. split; [reflexivity|]. discriminate. Qed.

(** The end-to-end ticket of the specification: four ["Infrastructure"] hits
    against one for ["Traffic"]. *)
Example pothole_ticket :
  exists c,
    SupportTickets.classifyTicket asciiLowerCase 0 "Road Pothole Complaint"
      "large pothole on MG Road damaged vehicles, urgent repair needed" = Ok c
    /\ SupportTickets.category c = "Infrastructure"
    /\ SupportTickets.priority c = "high"
    /\ SupportTickets.department c = "Public Works"
    /\ SupportTickets.sentiment c = "Negative"
    /\ (SupportTickets.confidence c == 95)%Q
    /\ SupportTickets.estimated_response c = "24-48 hours".
Proof. eexists. split; [reflexivity|]. repeat split. Qed.

(** ** Outlier flagging *)

Section OutlierFacts.
Import ExpenseCategorizer.
Local Open Scope Q_scope.

Lemma filter_sublist {A : Type} (p : A -> bool) (l : list A) :
  sublist (List.filter p l) l.
Proof.
  induction l as [|a l IH]; simpl; [constructor|].
  destruct (p a); [apply sublist_skip|apply sublist_cons]; exact IH.
Qed.

Lemma group_length (c : string) (batch : list Categorized) :
  List.length (group c batch) = groupSize c batch.
Proof. unfold group, groupSize. apply length_map. Qed.

Lemma deviates_small_group (amounts : list Q) (value : Q) :
  (List.length amounts < 2)%nat -> deviates amounts value = false.
Proof.
  intros Hlt. unfold deviates.
  destruct (Nat.ltb_spec (List.length amounts) 2) as [_|Hge]; [reflexivity|lia].
Qed.

Lemma deviates_zero_std (amounts : list Q) (value : Q) :
  std amounts = 0%R -> deviates amounts value = false.
Proof.
  intros Hstd. unfold deviates.
  destruct (List.length amounts <? 2)%nat; [reflexivity|]. cbv zeta.
  rewrite Hstd.
  assert (Hf : Rgtb 0 0 = false) by (apply Rgtb_false; Lra.lra).
  rewrite Hf. reflexivity.
Qed.

Lemma len_cons {A : Type} (a : A) (l : list A) : len (a :: l) == len l + 1.
Proof.
  unfold len. cbn [List.length]. rewrite Nat2Z.inj_succ. unfold Z.succ.
  rewrite inject_Z_plus. reflexivity.
Qed.

Lemma len_positive {A : Type} (a : A) (l : list A) : 0 < len (a :: l).
Proof.
  unfold len. change 0 with (inject_Z 0). rewrite <- Zlt_Qlt.
  cbn [List.length]. lia.
Qed.

Lemma sum_constant (a : Q) (amounts : list Q) :
  (forall v, In v amounts -> v == a) ->
  forall acc, fold_left (fun s v => s + v) amounts acc == acc + a * len amounts.
Proof.
  induction amounts as [|v amounts IH]; intros Hall acc; cbn [fold_left].
  - unfold len. simpl. ring.
  - rewrite IH by (intros x Hx; apply Hall; right; exact Hx).
    rewrite len_cons, (Hall v (or_introl eq_refl)). ring.
Qed.

Lemma mean_constant (a : Q) (amounts : list Q) :
  amounts <> [] -> (forall v, In v amounts -> v == a) -> mean amounts == a.
Proof.
  intros Hne Hall. unfold mean. rewrite (sum_constant a amounts Hall 0).
  destruct amounts as [|v amounts]; [contradiction|].
  pose proof (len_positive v amounts) as Hpos.
  field. intros Hzero. rewrite Hzero in Hpos. exact (Qlt_irrefl _ Hpos).
Qed.

Lemma squares_constant (m : Q) (amounts : list Q) :
  (forall v, In v amounts -> v == m) ->
  forall acc, fold_left (fun s v => s + (v - m) ^ 2) amounts acc == acc.
Proof.
  induction amounts as [|v amounts IH]; intros Hall acc; cbn [fold_left].
  - reflexivity.
  - rewrite IH by (intros x Hx; apply Hall; right; exact Hx).
    rewrite (Hall v (or_introl eq_refl)). ring.
Qed.

(** Equal values have no spread. *)
Lemma variance_constant (a : Q) (amounts : list Q) :
  (forall v, In v amounts -> v == a) -> variance amounts == 0.
Proof.
  intros Hall. unfold variance. cbv zeta.
  destruct amounts as [|v0 rest] eqn:Hamounts; [reflexivity|].
  rewrite <- Hamounts in *.
  assert (Hmean : mean amounts == a)
    by (apply mean_constant; [rewrite Hamounts; discriminate|exact Hall]).
  rewrite squares_constant.
  - unfold Qdiv. ring.
  - intros v Hv. rewrite Hmean. apply Hall. exact Hv.
Qed.

Lemma std_constant (a : Q) (amounts : list Q) :
  (forall v, In v amounts -> v == a) -> std amounts = 0%R.
Proof.
  intros Hall. unfold std.
  rewrite (Qeq_eqR _ _ (variance_constant a amounts Hall)), Q2R_0. apply sqrt_0.
Qed.

End OutlierFacts.

Section OutlierClaims.
Variable toLowerCase : string -> string.
Import ExpenseCategorizer.
Local Open Scope Q_scope.

(** C3, as amended -- Output shape of the flagging.  [anomalies] returns the
    records it flags and no others: a sub-sequence of the batch, in batch
    order, hence at most as long as the batch; a record that is not flagged
    has no entry in the result, and a record that is alone in its category
    is never flagged. *)
Theorem anomalies_returns_flagged_subsequence
    (batch flaggedRecords : list Categorized) :
  anomalies batch = Ok flaggedRecords ->
  sublist flaggedRecords batch
  /\ (List.length flaggedRecords <= List.length batch)%nat
  /\ Forall (fun e => (2 <= groupSize (category e) batch)%nat) flaggedRecords.
Proof.
  intros Hok. apply anomalies_inv in Hok. subst flaggedRecords.
  split; [apply filter_sublist|]. split; [apply List.filter_length_le|].
  apply Forall_forall. intros e He.
  apply list_elem_of_In, filter_In in He as [_ Hflag]. unfold flagged in Hflag.
  destruct (Nat.le_gt_cases 2 (groupSize (category e) batch)) as [H|H]; [exact H|].
  rewrite deviates_small_group in Hflag; [discriminate|].
  rewrite group_length. exact H.
Qed.

(** C4 -- Group-size guard.  A record whose category is carried by fewer than
    two records of the batch is not among the flagged records; a batch of
    one expense yields no flagged record, whatever its amount. *)
Theorem small_group_never_flagged :
  (forall (batch flaggedRecords : list Categorized) (e : Categorized),
      anomalies batch = Ok flaggedRecords ->
      (groupSize (category e) batch < 2)%nat ->
      ~ In e flaggedRecords)
  /\ (forall (random : nat -> Q) (x : Expense),
         anomalies (categorized toLowerCase random [x]) = Ok []).
Proof.
  split.
  - intros batch flaggedRecords e Hok Hsize Hin.
    apply anomalies_inv in Hok. subst flaggedRecords.
    apply filter_In in Hin as [_ Hflag]. unfold flagged in Hflag.
    rewrite deviates_small_group in Hflag; [discriminate|].
    rewrite group_length. exact Hsize.
  - intros random x. rewrite anomalies_categorized.
    set (batch := categorized toLowerCase random [x]).
    assert (Hone : exists e, batch = [e]) by (eexists; reflexivity).
    destruct Hone as [e ->]. cbn [List.filter].
    rewrite singleton_not_flagged. reflexivity.
Qed.

(** C5 -- Zero-spread guard.  A record whose group has a population standard
    deviation equal to 0 is not among the flagged records; this is the case
    of every group whose values are all equal. *)
Theorem zero_spread_never_flagged
    (batch flaggedRecords : list Categorized) (e : Categorized) :
  anomalies batch = Ok flaggedRecords ->
  (std (group (category e) batch) = 0%R -> ~ In e flaggedRecords)
  /\ (forall a : Q,
         (forall v, In v (group (category e) batch) -> v == a) ->
         std (group (category e) batch) = 0%R /\ ~ In e flaggedRecords).
Proof.
  intros Hok. apply anomalies_inv in Hok. subst flaggedRecords.
  assert (Hzero : std (group (category e) batch) = 0%R ->
                  ~ In e (List.filter (flagged batch) batch)).
  { intros Hstd Hin. apply filter_In in Hin as [_ Hflag].
    unfold flagged in Hflag. rewrite deviates_zero_std in Hflag by exact Hstd.
    discriminate. }
  split; [exact Hzero|].
  intros a Hall. pose proof (std_constant a _ Hall) as Hstd.
  split; [exact Hstd|apply Hzero; exact Hstd].
Qed.

(** C8 -- Idempotence of flagging.  Two renderings of the same expenses
    (any two sequences of random draws) flag the same records, which differ
    at most in the confidence drawn for them; and for any two batches with
    the same categories and amounts, position by position, the computation
    has the same outcome and flags the same positions. *)
Theorem flagging_reproducible :
  (forall (random1 random2 : nat -> Q) (expenses : list Expense),
      exists flagged1 flagged2,
        anomalies (categorized toLowerCase random1 expenses) = Ok flagged1
        /\ anomalies (categorized toLowerCase random2 expenses) = Ok flagged2
        /\ List.map withoutConfidence flagged1 = List.map withoutConfidence flagged2)
  /\ (forall batch1 batch2 : list Categorized,
         List.map key batch1 = List.map key batch2 ->
         List.map key <$> anomalies batch1 = List.map key <$> anomalies batch2).
Proof.
  split.
  - intros random1 random2 expenses.
    rewrite !anomalies_categorized. do 2 eexists.
    split; [reflexivity|]. split; [reflexivity|].
    pose proof (categorized_withoutConfidence toLowerCase random1 random2 expenses)
      as Hsame.
    apply filter_flagged_agree; [apply key_of_withoutConfidence|]; exact Hsame.
  - intros batch1 batch2 Hkey.
    pose proof (anomalies_spec batch1) as H1.
    pose proof (anomalies_spec batch2) as H2.
    assert (Hcat : List.map category batch1 = List.map category batch2).
    { rewrite <- !(List.map_map key fst). rewrite Hkey. reflexivity. }
    destruct (anomalies batch1) as [f1|], (anomalies batch2) as [f2|].
    + destruct H1 as [_ ->], H2 as [_ ->]. cbn. f_equal.
      apply filter_flagged_agree; exact Hkey.
    + exfalso. destruct H1 as [Hown _].
      apply Exists_exists in H2 as (e2 & Hin2 & Hp).
      assert (Hc : category e2 ∈ List.map category batch1).
      { rewrite Hcat. apply list_elem_of_fmap. exists e2. split; [reflexivity|exact Hin2]. }
      apply list_elem_of_fmap in Hc as (e1 & Heq & Hin1).
      rewrite Forall_forall in Hown. apply (Hown e1 Hin1). rewrite <- Heq. exact Hp.
    + exfalso. destruct H2 as [Hown _].
      apply Exists_exists in H1 as (e1 & Hin1 & Hp).
      assert (Hc : category e1 ∈ List.map category batch2).
      { rewrite <- Hcat. apply list_elem_of_fmap. exists e1. split; [reflexivity|exact Hin1]. }
      apply list_elem_of_fmap in Hc as (e2 & Heq & Hin2).
      rewrite Forall_forall in Hown. apply (Hown e2 Hin2). rewrite <- Heq. exact Hp.
    + reflexivity.
Qed.
End OutlierClaims.

(** ** The worked example: amounts 100, 105, 98 and 950 in one group *)

Section ThresholdExample.
Import ExpenseCategorizer.
Local Open Scope Q_scope.

Local Abbreviation sample := Samples.mealAmounts.

Lemma sample_flags :
  List.map (deviates sample) sample = [false; false; false; false].
Proof.
  cbn [List.map Samples.mealAmounts]. rewrite !deviates_deviatesQ. vm_compute. reflexivity.
Qed.

Lemma fare_flags :
  List.map (deviates Samples.fareAmounts) Samples.fareAmounts
  = [false; false; false; false; false; false; true].
Proof.
  cbn [List.map Samples.fareAmounts]. rewrite !deviates_deviatesQ. vm_compute. reflexivity.
Qed.

(** A square root lies below a positive bound when its argument lies below
    the square of the bound. *)
Lemma sqrt_below (v d : Q) :
  0 <= v -> 0 < d -> v < d ^ 2 -> (sqrt (Q2R v) < Q2R d)%R.
Proof.
  intros Hv Hd Hlt.
  assert (HV : (0 <= Q2R v)%R) by (rewrite <- Q2R_0; apply Qle_Rle; exact Hv).
  assert (HD : (0 < Q2R d)%R) by (rewrite <- Q2R_0; apply Qlt_Rlt; exact Hd).
  pose proof (sqrt_pos (Q2R v)) as HS.
  pose proof (sqrt_sqrt (Q2R v) HV) as HSS.
  apply Qlt_Rlt in Hlt. rewrite Q2R_square in Hlt.
  set (r := sqrt (Q2R v)) in *. Lra.nra.
Qed.

Lemma sample_statistics :
  mean sample == 313.25
  /\ Qabs (950 - mean sample) == 636.75
  /\ (std sample < Q2R 636.75 <= 2 * std sample)%R.
Proof.
  split; [reflexivity|]. split; [reflexivity|]. split.
  - unfold std. apply sqrt_below; [discriminate|reflexivity|reflexivity].
  - pose proof sample_flags as Htwo.
    cbn [List.map Samples.mealAmounts] in Htwo. injection Htwo as _ _ _ Htwo.
    unfold deviates in Htwo. cbn [List.length Nat.ltb Nat.leb] in Htwo.
    cbv zeta in Htwo.
    assert (Hpos : Rgtb (std sample) 0 = true).
    { apply Rgtb_true. unfold std. apply sqrt_lt_R0.
      rewrite <- Q2R_0. apply Qlt_Rlt. reflexivity. }
    rewrite Hpos in Htwo. cbn [andb] in Htwo. apply Rgtb_false in Htwo.
    assert (Hd : Q2R (Qabs (950 - mean sample)) = Q2R 636.75)
      by (apply Qeq_eqR; reflexivity).
    rewrite Hd in Htwo. exact Htwo.
Qed.

(** In a batch of one category the group of every record is the whole
    batch. *)
Lemma one_category_batch (c : string) (batch : list Categorized) :
  c ∉ objectPrototypeKeys ->
  List.map category batch = repeat c (List.length batch) ->
  anomalies batch
  = Ok (List.map snd
          (List.filter fst
             (combine (List.map (deviates (List.map (fun e => amount (expense e)) batch))
                                (List.map (fun e => amount (expense e)) batch))
                      batch))).
Proof.
  intros Hc Hcat.
  assert (Hall : Forall (fun e => category e = c) batch).
  { revert Hcat. induction batch as [|e batch IH]; [constructor|].
    cbn [List.map List.length repeat]. intros H. injection H as He Hrest.
    constructor; [exact He|exact (IH Hrest)]. }
  rewrite anomalies_ok
    by (eapply Forall_impl; [exact Hall|]; intros e ->; exact Hc).
  f_equal.
  assert (Hgroup : group c batch = List.map (fun e => amount (expense e)) batch).
  { unfold group. f_equal. clear Hcat.
    induction Hall as [|e l He _ IH]; [reflexivity|]. cbn [List.filter].
    rewrite He, String.eqb_refl. f_equal. exact IH. }
  set (amounts := List.map (fun e => amount (expense e)) batch) in *.
  assert (Hflag : forall l, Forall (fun e => category e = c) l ->
             List.filter (flagged batch) l
             = List.map snd
                 (List.filter fst
                    (combine (List.map (deviates amounts)
                                       (List.map (fun e => amount (expense e)) l)) l))).
  { intros l Hl. induction Hl as [|e l He _ IH]; [reflexivity|].
    cbn [List.filter List.map combine fst]. unfold flagged at 1. rewrite He, Hgroup.
    destruct (deviates amounts (amount (expense e))); cbn [List.map snd]; rewrite IH;
      reflexivity. }
  exact (Hflag batch Hall).
Qed.
End ThresholdExample.

Section ThresholdClaim.
Import ExpenseCategorizer.
Local Open Scope Q_scope.

(** C7, as amended -- Threshold example.  In a batch of four records of one
    category with amounts 100, 105, 98 and 950 the component flags no
    record: the deviation 636.75 of the last record from the mean 313.25
    exceeds the standard deviation but not twice the standard deviation,
    and the multiplier of the component is the literal 2.  What the
    component does flag is a deviation above twice the standard deviation:
    of six records of 40 and one of 400 in one category, the record of 400
    and only it. *)
Theorem threshold_example_at_the_fixed_multiplier :
  (forall (c : string) (batch : list Categorized),
      c ∉ objectPrototypeKeys ->
      List.map category batch = [c; c; c; c] ->
      List.map (fun e => amount (expense e)) batch = Samples.mealAmounts ->
      anomalies batch = Ok [])
  /\ (mean Samples.mealAmounts == 313.25
      /\ Qabs (950 - mean Samples.mealAmounts) == 636.75
      /\ (std Samples.mealAmounts < Q2R 636.75 <= 2 * std Samples.mealAmounts)%R)
  /\ (forall (c : string) (batch : list Categorized),
         c ∉ objectPrototypeKeys ->
         List.map category batch = [c; c; c; c; c; c; c] ->
         List.map (fun e => amount (expense e)) batch = Samples.fareAmounts ->
         exists e, anomalies batch = Ok [e] /\ amount (expense e) = 400).
Proof.
  split; [|split].
  - intros c batch Hc Hcat Hamt.
    destruct batch as [|e1 [|e2 [|e3 [|e4 [|e5 batch]]]]]; try discriminate.
    rewrite (one_category_batch c _ Hc Hcat), Hamt, sample_flags. reflexivity.
  - exact sample_statistics.
  - intros c batch Hc Hcat Hamt.
    destruct batch as [|e1 [|e2 [|e3 [|e4 [|e5 [|e6 [|e7 [|e8 batch]]]]]]]];
      try discriminate.
    rewrite (one_category_batch c _ Hc Hcat), Hamt, fare_flags.
    exists e7. split; [reflexivity|].
    cbn [List.map] in Hamt. injection Hamt as _ _ _ _ _ _ Hamt. exact Hamt.
Qed.
End ThresholdClaim.

(** ** The claims on the sample inputs *)

(** Evaluates [anomalies] on a batch given in full. *)
Ltac run_anomalies :=
  rewrite anomalies_anomaliesQ; vm_compute; reflexivity.

(** A batch the component never builds: a category named like a property of
    [Object.prototype] makes [categoryStats[e.category].push] throw. *)
Example inherited_category_throws :
  ExpenseCategorizer.anomalies
    [ {| ExpenseCategorizer.expense := Samples.entry "Rent" 500;
         ExpenseCategorizer.category := "constructor";
         ExpenseCategorizer.confidence := 65 |} ]
  = TypeError.
Proof. reflexivity. Qed.

(** C3, as stated, fails: one rent payment goes in, no record comes out. *)
Lemma anomalies_shorter_than_batch :
  exists flaggedRecords,
    ExpenseCategorizer.anomalies (Samples.render Samples.rent) = Ok flaggedRecords
    /\ List.length flaggedRecords <> List.length (Samples.render Samples.rent).
Proof. exists []. split; [run_anomalies|vm_compute; discriminate]. Qed.

(** C3, as amended, on the fares: the one large fare is returned. *)
Lemma anomalies_returns_flagged_subsequence_witness :
  exists flaggedRecords,
    ExpenseCategorizer.anomalies (Samples.render Samples.fares) = Ok flaggedRecords
    /\ List.map (fun e => ExpenseCategorizer.amount (ExpenseCategorizer.expense e))
                flaggedRecords = [400%Q]
    /\ sublist flaggedRecords (Samples.render Samples.fares)
    /\ (List.length flaggedRecords <= List.length (Samples.render Samples.fares))%nat
    /\ Forall (fun e => (2 <= ExpenseCategorizer.groupSize
                               (ExpenseCategorizer.category e)
                               (Samples.render Samples.fares))%nat) flaggedRecords.
Proof.
  exists (skipn 6 (Samples.render Samples.fares)).
  assert (Hrun : ExpenseCategorizer.anomalies (Samples.render Samples.fares)
                 = Ok (skipn 6 (Samples.render Samples.fares))) by run_anomalies.
  split; [exact Hrun|]. split; [reflexivity|].
  apply (anomalies_returns_flagged_subsequence _ _ Hrun).
Defined.

(** C4 on the rent payment followed by the fares: the rent is alone in its
    category and is not flagged, although it is the largest amount. *)
Lemma small_group_never_flagged_witness :
  ExpenseCategorizer.anomalies Samples.ledger = Ok (skipn 7 Samples.ledger)
  /\ ExpenseCategorizer.groupSize
       (ExpenseCategorizer.category (List.hd Samples.noRecord Samples.ledger))
       Samples.ledger = 1%nat
  /\ ~ In (List.hd Samples.noRecord Samples.ledger) (skipn 7 Samples.ledger).
Proof.
  assert (Hrun : ExpenseCategorizer.anomalies Samples.ledger = Ok (skipn 7 Samples.ledger))
    by run_anomalies.
  split; [exact Hrun|]. split; [vm_compute; reflexivity|].
  destruct (small_group_never_flagged asciiLowerCase) as [Hguard _].
  apply (Hguard _ _ _ Hrun). vm_compute. lia.
Defined.

(** C5 on three equal payments: the group has no spread and no record of it
    is flagged. *)
Lemma zero_spread_never_flagged_witness :
  ExpenseCategorizer.anomalies (Samples.render Samples.coffees) = Ok []
  /\ ExpenseCategorizer.std
       (ExpenseCategorizer.group
          (ExpenseCategorizer.category
             (List.hd Samples.noRecord (Samples.render Samples.coffees)))
          (Samples.render Samples.coffees)) = 0%R
  /\ ~ In (List.hd Samples.noRecord (Samples.render Samples.coffees)) [].
Proof.
  assert (Hrun : ExpenseCategorizer.anomalies (Samples.render Samples.coffees) = Ok [])
    by run_anomalies.
  split; [exact Hrun|].
  destruct (zero_spread_never_flagged (Samples.render Samples.coffees) []
              (List.hd Samples.noRecord (Samples.render Samples.coffees)) Hrun)
    as [_ Hequal].
  apply (Hequal 4%Q). intros v Hv. vm_compute in Hv.
  destruct Hv as [<-|[<-|[<-|[]]]]; reflexivity.
Defined.

(** C7, as stated, fails: the component has no multiplier to set to 1, and
    it does not flag the record of 950. *)
Lemma sample_of_950_is_not_flagged :
  exists flaggedRecords,
    ExpenseCategorizer.anomalies (Samples.render Samples.meals) = Ok flaggedRecords
    /\ List.map (fun e => ExpenseCategorizer.amount (ExpenseCategorizer.expense e))
                (Samples.render Samples.meals) = [100; 105; 98; 950]%Q
    /\ flaggedRecords = [].
Proof. exists []. split; [run_anomalies|]. split; reflexivity. Qed.

(** C7, as amended, on the four meals, all categorized ["Food & Dining"],
    and on the seven fares, all categorized ["Transportation"]. *)
Lemma threshold_example_at_the_fixed_multiplier_witness :
  ExpenseCategorizer.anomalies (Samples.render Samples.meals) = Ok []
  /\ exists e,
      ExpenseCategorizer.anomalies (Samples.render Samples.fares) = Ok [e]
      /\ ExpenseCategorizer.amount (ExpenseCategorizer.expense e) = 400%Q.
Proof.
  destruct threshold_example_at_the_fixed_multiplier as (Hsample & _ & Hfares).
  split.
  - apply (Hsample "Food & Dining").
    + rewrite list_elem_of_In. vm_compute. intuition discriminate.
    + vm_compute. reflexivity.
    + vm_compute. reflexivity.
  - apply (Hfares "Transportation").
    + rewrite list_elem_of_In. vm_compute. intuition discriminate.
    + vm_compute. reflexivity.
    + vm_compute. reflexivity.
Defined.

(** C8 on the four meals rendered under two different sources of draws. *)
Lemma flagging_reproducible_witness :
  List.map ExpenseCategorizer.key
    <$> ExpenseCategorizer.anomalies (Samples.render Samples.meals)
  = List.map ExpenseCategorizer.key
      <$> ExpenseCategorizer.anomalies (Samples.renderAgain Samples.meals).
Proof.
  destruct (flagging_reproducible asciiLowerCase) as [_ Hkeys].
  apply Hkeys. vm_compute. reflexivity.
Defined.

(** * Further properties *)

(** * Further properties of the components *)

(** ** The scoring loop computes a maximum *)

Section ArgmaxFacts.
Context {V : Type} (keywordsOf : V -> list string) (text : string).

Let hits (entry : string * V) : nat := countHits text (keywordsOf (snd entry)).

Lemma fold_scoreStep_max (entries : list (string * V)) :
  forall (c : string) (s : nat),
    (s <= snd (fold_left (scoreStep keywordsOf text) entries (c, s)))%nat
    /\ Forall (fun e => (hits e <= snd (fold_left (scoreStep keywordsOf text) entries (c, s)))%nat)
              entries
    /\ (fold_left (scoreStep keywordsOf text) entries (c, s) = (c, s)
        \/ ((s < snd (fold_left (scoreStep keywordsOf text) entries (c, s)))%nat
            /\ exists e, In e entries
                         /\ fst e = fst (fold_left (scoreStep keywordsOf text) entries (c, s))
                         /\ hits e = snd (fold_left (scoreStep keywordsOf text) entries (c, s)))).
Proof.
  induction entries as [|e entries IH]; intros c s; cbn [fold_left].
  - split; [reflexivity|]. split; [constructor|]. left. reflexivity.
  - rewrite scoreStep_eq. fold (hits e).
    destruct (Nat.ltb_spec s (hits e)) as [Hlt|Hge].
    + destruct (IH (fst e) (hits e)) as (Hle & Hall & Hlast).
      set (r := fold_left (scoreStep keywordsOf text) entries (fst e, hits e)) in *.
      split; [lia|]. split; [constructor; assumption|]. right. split; [lia|].
      destruct Hlast as [Heq|(_ & x & Hin & Hfst & Hhits)].
      * exists e. rewrite Heq. split; [left; reflexivity|]. split; reflexivity.
      * exists x. split; [right; exact Hin|]. split; assumption.
    + destruct (IH c s) as (Hle & Hall & Hlast).
      set (r := fold_left (scoreStep keywordsOf text) entries (c, s)) in *.
      split; [exact Hle|]. split; [constructor; [lia|assumption]|].
      destruct Hlast as [Heq|(Hlt & x & Hin & Hfst & Hhits)]; [left; exact Heq|].
      right. split; [exact Hlt|]. exists x. split; [right; exact Hin|]. split; assumption.
Qed.

(** The winning score bounds every category's score, and is either 0 with
    the fallback or the positive score of the declared category returned. *)
Lemma scoreAll_max (entries : list (string * V)) (fallback : string) :
  Forall (fun e => (hits e <= snd (scoreAll keywordsOf text entries fallback))%nat) entries
  /\ ((snd (scoreAll keywordsOf text entries fallback) = 0%nat
       /\ fst (scoreAll keywordsOf text entries fallback) = fallback)
      \/ ((0 < snd (scoreAll keywordsOf text entries fallback))%nat
          /\ exists info,
              In (fst (scoreAll keywordsOf text entries fallback), info) entries
              /\ countHits text (keywordsOf info)
                 = snd (scoreAll keywordsOf text entries fallback))).
Proof.
  unfold scoreAll.
  destruct (fold_scoreStep_max entries fallback 0%nat) as (_ & Hall & Hlast).
  split; [exact Hall|].
  destruct Hlast as [Heq|(Hlt & [cat info] & Hin & Hfst & Hhits)].
  - left. rewrite Heq. split; reflexivity.
  - right. split; [exact Hlt|]. exists info. cbn [fst snd] in Hfst. rewrite <- Hfst.
    split; [exact Hin|exact Hhits].
Qed.
End ArgmaxFacts.

(** ** Substrings *)

Section SubstringFacts.

Lemma string_app_assoc (a b c : string) : (a ++ b) ++ c = a ++ (b ++ c).
Proof.
  induction a as [|x a IH]; [reflexivity|].
  change (String x ((a ++ b) ++ c) = String x (a ++ (b ++ c))). f_equal. exact IH.
Qed.


Lemma string_app_cons (x : ascii) (a b : string) :
  String x a ++ b = String x (a ++ b).
Proof. reflexivity. Qed.

Lemma prefix_iff (k s : string) :
  String.prefix k s = true <-> exists post, s = k ++ post.
Proof.
  revert s. induction k as [|x k IH]; intros s.
  - split; [intros _; exists s; reflexivity|intros _; destruct s; reflexivity].
  - destruct s as [|y s].
    + split; [discriminate|]. intros [post H].
      rewrite string_app_cons in H. discriminate H.
    + cbn [String.prefix]. destruct (ascii_dec x y) as [->|Hne].
      * rewrite IH. split; intros [post H]; exists post.
        -- rewrite string_app_cons, <- H. reflexivity.
        -- rewrite string_app_cons in H. congruence.
      * split; [discriminate|]. intros [post H].
        rewrite string_app_cons in H. congruence.
Qed.

(** [includes] is substring containment. *)
Lemma includes_iff (s k : string) :
  includes s k = true <-> exists pre post, s = pre ++ k ++ post.
Proof.
  induction s as [|c s IH]; cbn [includes].
  - rewrite orb_false_r, prefix_iff. split.
    + intros [post H]. exists "", post. exact H.
    + intros (pre & post & H). destruct pre as [|x pre]; [exists post; exact H|].
      rewrite string_app_cons in H. discriminate H.
  - rewrite orb_true_iff, prefix_iff, IH. split.
    + intros [[post H]|(pre & post & H)].
      * exists "", post. exact H.
      * exists (String c pre), post. rewrite string_app_cons, <- H. reflexivity.
    + intros (pre & post & H). destruct pre as [|x pre].
      * left. exists post. exact H.
      * right. exists pre, post. rewrite string_app_cons in H. congruence.
Qed.

Lemma includes_trans (s t k : string) :
  includes s t = true -> includes t k = true -> includes s k = true.
Proof.
  rewrite !includes_iff. intros (p & q & ->) (p' & q' & ->).
  exists (p ++ p'), (q' ++ q). rewrite !string_app_assoc. reflexivity.
Qed.

Lemma countHits_mono (t1 t2 : string) (words : list string) :
  (forall k, includes t1 k = true -> includes t2 k = true) ->
  (countHits t1 words <= countHits t2 words)%nat.
Proof.
  intros Hsub. unfold countHits. induction words as [|k words IH]; simpl; [lia|].
  destruct (includes t1 k) eqn:H1.
  - rewrite (Hsub k H1). simpl. lia.
  - destruct (includes t2 k); simpl; lia.
Qed.

Lemma scoreAll_mono {V : Type} (keywordsOf : V -> list string) (t1 t2 : string)
    (entries : list (string * V)) (fallback : string) :
  includes t2 t1 = true ->
  (snd (scoreAll keywordsOf t1 entries fallback)
   <= snd (scoreAll keywordsOf t2 entries fallback))%nat.
Proof.
  intros Hsub.
  destruct (scoreAll_max keywordsOf t1 entries fallback) as [_ [[Hzero _]|(_ & info & Hin & Hhits)]];
    [lia|].
  destruct (scoreAll_max keywordsOf t2 entries fallback) as [Hall _].
  rewrite Forall_forall in Hall. specialize (Hall _ (proj2 (list_elem_of_In _ _) Hin)).
  cbn [snd] in Hall. rewrite <- Hhits.
  eapply Nat.le_trans; [|exact Hall].
  apply countHits_mono. intros k Hk. exact (includes_trans _ _ _ Hsub Hk).
Qed.

Lemma countHits_two (text a b : string) (words : list string) :
  a <> b -> In a words -> In b words ->
  includes text a = true -> includes text b = true ->
  (2 <= countHits text words)%nat.
Proof.
  intros Hab Ha Hb Hta Htb. unfold countHits.
  assert (Hincl : incl [a; b] (List.filter (includes text) words)).
  { intros x [<-|[<-|[]]]; apply filter_In; split; assumption. }
  assert (Hnd : List.NoDup [a; b]).
  { constructor; [intros [H|[]]; congruence|]. constructor; [intros []|constructor]. }
  apply (List.NoDup_incl_length Hnd Hincl).
Qed.
End SubstringFacts.

(** ** Rounding of whole numbers and the confidence window *)

Section WindowFacts.
Local Open Scope Q_scope.

Lemma Qfloor_half (n : Z) : Qfloor (inject_Z n + (1 # 2)) = n.
Proof.
  pose proof (Qfloor_le (inject_Z n + (1 # 2))) as Hlo.
  pose proof (Qlt_floor (inject_Z n + (1 # 2))) as Hhi.
  set (f := Qfloor (inject_Z n + (1 # 2))) in *.
  rewrite inject_Z_plus in Hhi. change (inject_Z 1) with 1 in Hhi.
  assert (H1 : inject_Z f < inject_Z (n + 1)).
  { rewrite inject_Z_plus. change (inject_Z 1) with 1. lra. }
  assert (H2 : inject_Z n < inject_Z (f + 1)).
  { rewrite inject_Z_plus. change (inject_Z 1) with 1. lra. }
  rewrite <- Zlt_Qlt in H1, H2. lia.
Qed.

Lemma toFixed1_comp (x y : Q) : x == y -> toFixed1 x == toFixed1 y.
Proof.
  intros Hxy. unfold toFixed1.
  assert (Hf : Qfloor (x * 10 + (1 # 2)) = Qfloor (y * 10 + (1 # 2)))
    by (apply Qfloor_comp; rewrite Hxy; reflexivity).
  rewrite Hf. reflexivity.
Qed.

(** A whole number is its own rounding to one decimal. *)
Lemma toFixed1_whole (n : Z) : toFixed1 (inject_Z n) == inject_Z n.
Proof.
  unfold toFixed1.
  assert (Hf : Qfloor (inject_Z n * 10 + (1 # 2)) = (n * 10)%Z).
  { rewrite <- (Qfloor_half (n * 10)). apply Qfloor_comp.
    rewrite inject_Z_mult. reflexivity. }
  rewrite Hf, inject_Z_mult. field.
Qed.

Lemma toFixed1_whole_min (a b : Z) :
  toFixed1 (Qmin (inject_Z a) (inject_Z b)) == Qmin (inject_Z a) (inject_Z b).
Proof.
  destruct (Q.min_spec (inject_Z a) (inject_Z b)) as [[_ H]|[_ H]];
    rewrite (toFixed1_comp _ _ H), H; apply toFixed1_whole.
Qed.

(** [Math.min(cap, base + bestScore * step + Math.random() * 10).toFixed(1)]
    for whole [cap], [base] and [step] and a draw in [0, 1). *)
Lemma capped_window (cap base step : Z) (bestScore : nat) (random : Q) :
  0 <= random < 1 ->
  Qmin (inject_Z cap) (inject_Z (base + Z.of_nat bestScore * step))
  <= toFixed1 (Qmin (inject_Z cap)
                    (inject_Z base + inject_Z (Z.of_nat bestScore) * inject_Z step
                     + random * 10))
  <= Qmin (inject_Z cap) (inject_Z (base + 10 + Z.of_nat bestScore * step)).
Proof.
  intros [Hlo Hhi]. split.
  - rewrite <- toFixed1_whole_min. apply toFixed1_le, Q.min_le_compat_l.
    rewrite inject_Z_plus, inject_Z_mult. lra.
  - rewrite <- (toFixed1_whole_min cap (base + 10 + Z.of_nat bestScore * step)).
    apply toFixed1_le, Q.min_le_compat_l.
    rewrite !inject_Z_plus, inject_Z_mult. change (inject_Z 10) with 10. lra.
Qed.

Lemma capped_saturated (cap base step : Z) (bestScore : nat) (random : Q) :
  0 <= random -> (cap <= base + Z.of_nat bestScore * step)%Z ->
  toFixed1 (Qmin (inject_Z cap)
                 (inject_Z base + inject_Z (Z.of_nat bestScore) * inject_Z step
                  + random * 10))
  == inject_Z cap.
Proof.
  intros Hr Hsat.
  assert (Hle : inject_Z cap
                <= inject_Z base + inject_Z (Z.of_nat bestScore) * inject_Z step
                   + random * 10).
  { rewrite Zle_Qle, inject_Z_plus, inject_Z_mult in Hsat. lra. }
  rewrite (toFixed1_comp _ _ (Q.min_l _ _ Hle)). apply toFixed1_whole.
Qed.

Lemma member_In {A : Type} (o : list (string * A)) (k : string) (a : A) :
  member o k = Some a -> In (k, a) o.
Proof.
  induction o as [|[k' a'] o IH]; simpl; [discriminate|].
  destruct (String.eqb_spec k' k) as [->|_].
  - intros H. injection H as ->. left. reflexivity.
  - intros H. right. apply IH. exact H.
Qed.
End WindowFacts.

Section ScoringExtras.
Variable toLowerCase : string -> string.
Local Open Scope Q_scope.

(** X1 -- The loop computes a maximum.  The winning score of [classifyTicket]
    (of [categorizeExpense]) is at least the hit count of every category of
    the taxonomy; it is 0 with the fallback category returned, or positive
    and equal to the hit count of the returned category, which is a declared
    one. *)
Theorem winning_score_is_maximal :
  (forall (random : Q) (subject description : string),
      exists c,
        SupportTickets.classifyTicket toLowerCase random subject description = Ok c
        /\ Forall (fun entry =>
                     (countHits (SupportTickets.ticketText toLowerCase subject description)
                                (SupportTickets.Info.keywords (snd entry))
                      <= snd (SupportTickets.best toLowerCase subject description))%nat)
                  SupportTickets.categories
        /\ ((snd (SupportTickets.best toLowerCase subject description) = 0%nat
             /\ SupportTickets.category c = "General")
            \/ ((0 < snd (SupportTickets.best toLowerCase subject description))%nat
                /\ exists info,
                    In (SupportTickets.category c, info) SupportTickets.categories
                    /\ countHits (SupportTickets.ticketText toLowerCase subject description)
                                 (SupportTickets.Info.keywords info)
                       = snd (SupportTickets.best toLowerCase subject description))))
  /\ (forall (random : Q) (description : string),
         Forall (fun entry : string * list string =>
                   (countHits (toLowerCase description) (snd entry)
                    <= snd (ExpenseCategorizer.best toLowerCase description))%nat)
                ExpenseCategorizer.categoryKeywords
         /\ ((snd (ExpenseCategorizer.best toLowerCase description) = 0%nat
              /\ fst (ExpenseCategorizer.categorizeExpense toLowerCase random description)
                 = "Other")
             \/ ((0 < snd (ExpenseCategorizer.best toLowerCase description))%nat
                 /\ exists keywords,
                     In (fst (ExpenseCategorizer.categorizeExpense
                                toLowerCase random description), keywords)
                        ExpenseCategorizer.categoryKeywords
                     /\ countHits (toLowerCase description) keywords
                        = snd (ExpenseCategorizer.best toLowerCase description)))).
Proof.
  split.
  - intros random subject description.
    destruct (classifyTicket_ok toLowerCase random subject description)
      as (catInfo & c & _ & Hc & Hcat & _).
    exists c. split; [exact Hc|]. rewrite Hcat. unfold SupportTickets.best.
    apply scoreAll_max.
  - intros random description. rewrite categorizeExpense_category.
    unfold ExpenseCategorizer.best.
    apply (scoreAll_max (fun keywords : list string => keywords)).
Qed.

(** X2 -- Routing follows the table.  The category, priority and department
    returned by [classifyTicket] are those of one row of [categories], and
    the estimated response is the one of the priority: 2-4 hours for
    critical, 24-48 hours for high, 3-5 days for medium and low. *)
Theorem ticket_attributes_from_table (random : Q) (subject description : string) :
  exists c info,
    SupportTickets.classifyTicket toLowerCase random subject description = Ok c
    /\ In (SupportTickets.category c, info) SupportTickets.categories
    /\ SupportTickets.priority c = SupportTickets.Info.priority info
    /\ SupportTickets.department c = SupportTickets.Info.dept info
    /\ ((SupportTickets.priority c = "critical"
         /\ SupportTickets.estimated_response c = "2-4 hours")
        \/ (SupportTickets.priority c = "high"
            /\ SupportTickets.estimated_response c = "24-48 hours")
        \/ ((SupportTickets.priority c = "medium" \/ SupportTickets.priority c = "low")
            /\ SupportTickets.estimated_response c = "3-5 days")).
Proof.
  destruct (classifyTicket_ok toLowerCase random subject description)
    as (info & c & Hm & Hc & Hcat & Hpri & Hdep & _ & _ & Hest).
  exists c, info. split; [exact Hc|].
  apply member_In in Hm. rewrite <- Hcat in Hm.
  split; [exact Hm|]. split; [exact Hpri|]. split; [exact Hdep|].
  rewrite Hest, Hpri.
  unfold SupportTickets.categories in Hm. cbn [In] in Hm.
  repeat (destruct Hm as [Hm|Hm];
          [injection Hm as _ <-; cbn; tauto|]).
  destruct Hm.
Qed.

(** X3 -- Confidence window.  With a draw in [0, 1), the confidence of a
    ticket with winning score n lies between min(95, 60 + 12 n) and
    min(95, 70 + 12 n), and the one of an expense between min(95, 50 + 15 n)
    and min(95, 60 + 15 n); from three hits on, both are exactly 95. *)
Theorem confidence_window :
  (forall (random : Q) (subject description : string),
      0 <= random < 1 ->
      exists c,
        SupportTickets.classifyTicket toLowerCase random subject description = Ok c
        /\ Qmin 95 (inject_Z
                      (60 + Z.of_nat (snd (SupportTickets.best toLowerCase subject description))
                            * 12))
           <= SupportTickets.confidence c
           <= Qmin 95 (inject_Z
                         (70 + Z.of_nat (snd (SupportTickets.best toLowerCase subject description))
                               * 12))
        /\ ((3 <= snd (SupportTickets.best toLowerCase subject description))%nat ->
            SupportTickets.confidence c == 95))
  /\ (forall (random : Q) (description : string),
         0 <= random < 1 ->
         Qmin 95 (inject_Z
                    (50 + Z.of_nat (snd (ExpenseCategorizer.best toLowerCase description)) * 15))
         <= snd (ExpenseCategorizer.categorizeExpense toLowerCase random description)
         <= Qmin 95 (inject_Z
                       (60 + Z.of_nat (snd (ExpenseCategorizer.best toLowerCase description))
                             * 15))
         /\ ((3 <= snd (ExpenseCategorizer.best toLowerCase description))%nat ->
             snd (ExpenseCategorizer.categorizeExpense toLowerCase random description)
             == 95)).
Proof.
  split.
  - intros random subject description Hr.
    destruct (classifyTicket_ok toLowerCase random subject description)
      as (info & c & _ & Hc & _ & _ & _ & _ & Hconf & _).
    exists c. split; [exact Hc|]. rewrite Hconf. unfold SupportTickets.confidenceOf.
    split.
    + apply (capped_window 95 60 12 _ random Hr).
    + intros Hsat. apply (capped_saturated 95 60 12 _ random); [tauto|lia].
  - intros random description Hr.
    rewrite categorizeExpense_confidence. unfold ExpenseCategorizer.confidenceOf.
    split.
    + apply (capped_window 95 50 15 _ random Hr).
    + intros Hsat. apply (capped_saturated 95 50 15 _ random); [tauto|lia].
Qed.

(** X4 -- More text never scores less.  When the case-folded text of one
    ticket occurs inside the case-folded text of another, the winning score
    of the second is at least the one of the first, and so is its confidence
    under the same draw; likewise for two expense descriptions. *)
Theorem longer_text_never_scores_less :
  (forall (random : Q) (subject1 description1 subject2 description2 : string),
      includes (SupportTickets.ticketText toLowerCase subject2 description2)
               (SupportTickets.ticketText toLowerCase subject1 description1) = true ->
      (snd (SupportTickets.best toLowerCase subject1 description1)
       <= snd (SupportTickets.best toLowerCase subject2 description2))%nat
      /\ exists c1 c2,
          SupportTickets.classifyTicket toLowerCase random subject1 description1 = Ok c1
          /\ SupportTickets.classifyTicket toLowerCase random subject2 description2 = Ok c2
          /\ SupportTickets.confidence c1 <= SupportTickets.confidence c2)
  /\ (forall (random : Q) (description1 description2 : string),
         includes (toLowerCase description2) (toLowerCase description1) = true ->
         (snd (ExpenseCategorizer.best toLowerCase description1)
          <= snd (ExpenseCategorizer.best toLowerCase description2))%nat
         /\ snd (ExpenseCategorizer.categorizeExpense toLowerCase random description1)
            <= snd (ExpenseCategorizer.categorizeExpense toLowerCase random description2)).
Proof.
  split.
  - intros random subject1 description1 subject2 description2 Hsub.
    assert (Hle : (snd (SupportTickets.best toLowerCase subject1 description1)
                   <= snd (SupportTickets.best toLowerCase subject2 description2))%nat)
      by (apply scoreAll_mono; exact Hsub).
    split; [exact Hle|].
    destruct (classifyTicket_ok toLowerCase random subject1 description1)
      as (info1 & c1 & _ & Hc1 & _ & _ & _ & _ & Hconf1 & _).
    destruct (classifyTicket_ok toLowerCase random subject2 description2)
      as (info2 & c2 & _ & Hc2 & _ & _ & _ & _ & Hconf2 & _).
    exists c1, c2. split; [exact Hc1|]. split; [exact Hc2|].
    rewrite Hconf1, Hconf2. unfold SupportTickets.confidenceOf.
    apply capped_mono; [discriminate|exact Hle].
  - intros random description1 description2 Hsub.
    assert (Hle : (snd (ExpenseCategorizer.best toLowerCase description1)
                   <= snd (ExpenseCategorizer.best toLowerCase description2))%nat)
      by (apply (scoreAll_mono (fun keywords : list string => keywords)); exact Hsub).
    split; [exact Hle|].
    rewrite !categorizeExpense_confidence. unfold ExpenseCategorizer.confidenceOf.
    apply capped_mono; [discriminate|exact Hle].
Qed.
(** X5 -- Overlapping keywords count twice.  A ticket whose case-folded text
    contains "electricity" also contains the keyword "electric" of the same
    category, so its winning score is at least 2; an expense whose
    case-folded description contains "uber eats" hits "uber eats" and "eat"
    of ["Food & Dining"], so its winning score is at least 2, and it also
    hits "uber" of ["Transportation"]. *)
Theorem overlapping_keywords_count_twice :
  (forall subject description : string,
      includes (SupportTickets.ticketText toLowerCase subject description) "electricity"
      = true ->
      (2 <= snd (SupportTickets.best toLowerCase subject description))%nat)
  /\ (forall description : string,
         includes (toLowerCase description) "uber eats" = true ->
         (2 <= snd (ExpenseCategorizer.best toLowerCase description))%nat
         /\ includes (toLowerCase description) "uber" = true).
Proof.
  split.
  - intros subject description Hin.
    set (text := SupportTickets.ticketText toLowerCase subject description) in *.
    destruct (scoreAll_max SupportTickets.Info.keywords text SupportTickets.categories
                "General") as [Hall _].
    rewrite Forall_forall in Hall.
    unfold SupportTickets.best. fold text.
    eapply Nat.le_trans; [|apply (Hall (List.nth 2 SupportTickets.categories
                                                 ("", SupportTickets.Info.Make [] "" "")))].
    + apply (countHits_two text "electricity" "electric").
      * discriminate.
      * cbn. tauto.
      * cbn. tauto.
      * exact Hin.
      * apply (includes_trans _ _ _ Hin). reflexivity.
    + apply list_elem_of_In. cbn. tauto.
  - intros description Hin.
    set (text := toLowerCase description) in *.
    destruct (scoreAll_max (fun keywords : list string => keywords) text
                ExpenseCategorizer.categoryKeywords "Other") as [Hall _].
    rewrite Forall_forall in Hall.
    unfold ExpenseCategorizer.best. fold text. split.
    + eapply Nat.le_trans; [|apply (Hall (List.nth 0 ExpenseCategorizer.categoryKeywords ("", [])))].
      * apply (countHits_two text "uber eats" "eat").
        -- discriminate.
        -- cbn. tauto.
        -- cbn. tauto.
        -- exact Hin.
        -- apply (includes_trans _ _ _ Hin). reflexivity.
      * apply list_elem_of_In. cbn. tauto.
    + apply (includes_trans _ _ _ Hin). reflexivity.
Qed.

End ScoringExtras.

(** X3 at concrete inputs: the draw 1/2 on a ticket with four hits and on an
    expense with one hit. *)
Lemma confidence_window_witness :
  (exists c,
      SupportTickets.classifyTicket asciiLowerCase (1 # 2) "Road Pothole Complaint"
        "large pothole on MG Road damaged vehicles, urgent repair needed" = Ok c
      /\ (SupportTickets.confidence c == 95)%Q)
  /\ (65 <= snd (ExpenseCategorizer.categorizeExpense asciiLowerCase (1 # 2) "Gas") <= 75)%Q.
Proof.
  assert (Hdraw : (0 <= 1 # 2 < 1)%Q) by (split; [discriminate|reflexivity]).
  destruct (confidence_window asciiLowerCase) as [Hticket Hexpense].
  split.
  - destruct (Hticket (1 # 2)%Q "Road Pothole Complaint"
                "large pothole on MG Road damaged vehicles, urgent repair needed" Hdraw)
      as (c & Hc & _ & Hsat).
    exists c. split; [exact Hc|]. apply Hsat. vm_compute. lia.
  - destruct (Hexpense (1 # 2)%Q "Gas" Hdraw) as [Hwin _]. exact Hwin.
Defined.

(** X4 at concrete inputs: a ticket and the same ticket with a longer
    description; an expense and the same expense with a longer description. *)
Lemma longer_text_never_scores_less_witness :
  (snd (SupportTickets.best asciiLowerCase "Street" "pothole")
   <= snd (SupportTickets.best asciiLowerCase "Street" "pothole near the broken bridge"))%nat
  /\ (snd (ExpenseCategorizer.categorizeExpense asciiLowerCase (1 # 2) "Taxi")
      <= snd (ExpenseCategorizer.categorizeExpense asciiLowerCase (1 # 2)
                "Taxi and metro pass"))%Q.
Proof.
  destruct (longer_text_never_scores_less asciiLowerCase) as [Hticket Hexpense].
  split.
  - apply (Hticket 0%Q "Street" "pothole" "Street" "pothole near the broken bridge").
    vm_compute. reflexivity.
  - apply (Hexpense (1 # 2)%Q "Taxi" "Taxi and metro pass"). vm_compute. reflexivity.
Defined.

(** X5 at concrete inputs. *)
Lemma overlapping_keywords_count_twice_witness :
  (2 <= snd (SupportTickets.best asciiLowerCase "No electricity" "since this morning"))%nat
  /\ (2 <= snd (ExpenseCategorizer.best asciiLowerCase "Uber Eats order"))%nat.
Proof.
  destruct (overlapping_keywords_count_twice asciiLowerCase) as [Hticket Hexpense].
  split.
  - apply Hticket. vm_compute. reflexivity.
  - apply Hexpense. vm_compute. reflexivity.
Defined.

(** ** When the flagging throws *)

Section OutlierExtras.
Import ExpenseCategorizer.

(** X6 -- When the flagging throws.  [anomalies] throws exactly when some
    record of the batch has a category that names a property inherited from
    [Object.prototype]; on every other batch, and on no batch but those, it
    returns an array, made of records of the batch in their order. *)
Theorem anomalies_throws_iff_inherited (batch : list Categorized) :
  (anomalies batch = TypeError
   <-> Exists (fun e => category e ∈ objectPrototypeKeys) batch)
  /\ ((exists flaggedRecords,
         anomalies batch = Ok flaggedRecords /\ sublist flaggedRecords batch)
      <-> Forall (fun e => category e ∉ objectPrototypeKeys) batch).
Proof.
  pose proof (anomalies_spec batch) as Hspec.
  destruct (anomalies batch) as [r|] eqn:Hrun.
  - destruct Hspec as [Hown ->]. split; split; try discriminate; try tauto.
    + intros Hex. exfalso. apply Exists_exists in Hex as (e & Hin & Hp).
      rewrite Forall_forall in Hown. exact (Hown e Hin Hp).
    + intros _. eexists. split; [reflexivity|apply filter_sublist].
  - split; split; try discriminate; try tauto.
    + intros (r & Hr & _). discriminate.
    + intros Hown. exfalso. apply Exists_exists in Hspec as (e & Hin & Hp).
      rewrite Forall_forall in Hown. exact (Hown e Hin Hp).
Qed.
End OutlierExtras.

(** ** White space and splitting *)

Section TrimFacts.
Import FakeNewsDetector Words.

Lemma trimEnd_idem (s : string) : trimEnd (trimEnd s) = trimEnd s.
Proof.
  induction s as [|c s IH]; [reflexivity|]. cbn [trimEnd].
  destruct (trimEnd s) as [|x t] eqn:Ht.
  - destruct (isSpace c) eqn:Hc; [reflexivity|]. cbn [trimEnd]. rewrite Hc. reflexivity.
  - cbn [trimEnd]. cbn [trimEnd] in IH. rewrite IH. reflexivity.
Qed.

Lemma trimStart_noLeadingSpace (s : string) : noLeadingSpace (trimStart s).
Proof.
  induction s as [|c s IH]; [exact I|]. cbn [trimStart].
  destruct (isSpace c) eqn:Hc; [exact IH|exact Hc].
Qed.

Lemma trimStart_fixed (s : string) : noLeadingSpace s -> trimStart s = s.
Proof. destruct s as [|c s]; [reflexivity|]. cbn. intros ->. reflexivity. Qed.

Lemma trimEnd_noLeadingSpace (s : string) :
  noLeadingSpace s -> noLeadingSpace (trimEnd s).
Proof.
  destruct s as [|c s]; [intros _; exact I|]. cbn [noLeadingSpace trimEnd].
  intros Hc. destruct (trimEnd s); [rewrite Hc|]; exact Hc.
Qed.

(** Trimming twice is trimming once. *)
Lemma trim_idem (s : string) : trim (trim s) = trim s.
Proof.
  unfold trim.
  rewrite (trimStart_fixed (trimEnd (trimStart s)))
    by (apply trimEnd_noLeadingSpace, trimStart_noLeadingSpace).
  apply trimEnd_idem.
Qed.

Lemma includes_refl (s : string) : includes s s = true.
Proof.
  apply includes_iff. exists "", "". 
  induction s as [|c s IH]; [reflexivity|].
  change (String c s = String c ("" ++ s ++ "")). f_equal. exact IH.
Qed.

Lemma includes_tail (c : ascii) (s k : string) :
  includes s k = true -> includes (String c s) k = true.
Proof. intros H. cbn [includes]. rewrite H. apply orb_true_r. Qed.

Lemma includes_trimStart (s : string) : includes s (trimStart s) = true.
Proof.
  induction s as [|c s IH]; [reflexivity|]. cbn [trimStart].
  destruct (isSpace c); [apply includes_tail; exact IH|apply includes_refl].
Qed.

Lemma prefix_trimEnd (s : string) : String.prefix (trimEnd s) s = true.
Proof.
  induction s as [|c s IH]; [reflexivity|]. cbn [trimEnd].
  destruct (trimEnd s) as [|x t] eqn:Ht.
  - destruct (isSpace c); [reflexivity|]. cbn [String.prefix].
    destruct (ascii_dec c c) as [_|Hne]; [|contradiction]. destruct s; reflexivity.
  - cbn [String.prefix]. destruct (ascii_dec c c) as [_|Hne]; [|contradiction]. exact IH.
Qed.

Lemma includes_trimEnd (s : string) : includes s (trimEnd s) = true.
Proof.
  destruct s as [|c s]; [reflexivity|]. cbn [includes].
  rewrite (prefix_trimEnd (String c s)). reflexivity.
Qed.

(** The trimmed string occurs in the string. *)
Lemma includes_trim (s : string) : includes s (trim s) = true.
Proof.
  unfold trim. apply (includes_trans _ (trimStart s)).
  - apply includes_trimStart.
  - apply includes_trimEnd.
Qed.
End TrimFacts.

(** ** [parseCSV] *)

Section ParseFacts.
Import ExpenseCategorizer ExpenseInput FakeNewsDetector.

Lemma includes_empty (s : string) : includes s "" = true.
Proof. destruct s; reflexivity. Qed.

Lemma includes_prefix (s k : string) : String.prefix k s = true -> includes s k = true.
Proof. intros H. destruct s; cbn [includes]; rewrite H; reflexivity. Qed.

Lemma splitOn_head (sep : ascii) (s : string) :
  exists piece pieces, splitOn sep s = piece :: pieces /\ String.prefix piece s = true.
Proof.
  induction s as [|c s IH]; [exists "", []; split; reflexivity|].
  cbn [splitOn]. destruct (Ascii.eqb c sep).
  - exists "", (splitOn sep s). split; reflexivity.
  - destruct IH as (piece & pieces & -> & Hp).
    exists (String c piece), pieces. split; [reflexivity|].
    cbn [String.prefix]. destruct (ascii_dec c c) as [_|Hne]; [exact Hp|contradiction].
Qed.

(** Every piece of a split occurs in the string that was split. *)
Lemma splitOn_pieces (sep : ascii) (s p : string) :
  In p (splitOn sep s) -> includes s p = true.
Proof.
  revert p. induction s as [|c s IH]; intros p.
  - intros [<-|[]]. reflexivity.
  - cbn [splitOn]. destruct (Ascii.eqb c sep).
    + intros [<-|Hin]; [apply includes_empty|apply includes_tail, IH; exact Hin].
    + destruct (splitOn_head sep s) as (piece & pieces & Hsplit & Hp).
      rewrite Hsplit in IH |- *. intros [<-|Hin].
      * apply includes_prefix. cbn [String.prefix].
        destruct (ascii_dec c c) as [_|Hne]; [exact Hp|contradiction].
      * apply includes_tail, IH. right. exact Hin.
Qed.

(** Without the separator there is one piece, the string itself. *)
Lemma splitOn_no_separator (sep : ascii) (s : string) :
  includes s (String sep "") = false -> splitOn sep s = [s].
Proof.
  induction s as [|c s IH]; [reflexivity|]. cbn [includes String.prefix splitOn].
  intros H. apply orb_false_iff in H as [Hp Hi].
  destruct (Ascii.eqb_spec c sep) as [->|Hne].
  - destruct (ascii_dec sep sep) as [_|Hn]; [|contradiction].
    destruct s; discriminate Hp.
  - rewrite (IH Hi). reflexivity.
Qed.

Lemma findIndex_none (word : string) (arr : list string) :
  Forall (fun h => includes h word = false) arr -> findIndex word arr = None.
Proof.
  induction 1 as [|h arr Hh _ IH]; [reflexivity|]. cbn [findIndex].
  rewrite Hh, IH. reflexivity.
Qed.

End ParseFacts.

Section HeaderFacts.
Import ExpenseCategorizer ExpenseInput FakeNewsDetector Words.

Lemma prefix_nil (s : string) : String.prefix "" s = true.
Proof. destruct s; reflexivity. Qed.

Lemma prefix_of_nil (w : string) : String.prefix w "" = true -> w = "".
Proof. destruct w; [reflexivity|discriminate]. Qed.

Lemma includes_nil (w : string) : includes "" w = true -> w = "".
Proof.
  cbn [includes]. intros H. apply orb_true_iff in H as [H|H]; [|discriminate H].
  apply prefix_of_nil. exact H.
Qed.

Lemma prefix_cons (a c : ascii) (w s : string) :
  String.prefix (String a w) (String c s) = true <-> a = c /\ String.prefix w s = true.
Proof.
  cbn [String.prefix]. destruct (ascii_dec a c) as [->|Hne].
  - tauto.
  - split; [discriminate|]. intros [Heq _]. contradiction.
Qed.

(** A word without separator that starts a string starts its first piece. *)
Lemma prefix_piece (sep : ascii) (w s piece : string) (pieces : list string) :
  solid sep w = true -> String.prefix w s = true ->
  splitOn sep s = piece :: pieces -> String.prefix w piece = true.
Proof.
  revert s piece pieces. induction w as [|a w IH]; intros s piece pieces Hw Hp Hs.
  - apply prefix_nil.
  - destruct s as [|c s]; [discriminate Hp|].
    apply prefix_cons in Hp as [<- Hp].
    cbn [solid] in Hw. apply andb_true_iff in Hw as [Hw Hrest].
    apply andb_true_iff in Hw as [Hsep _]. apply negb_true_iff in Hsep.
    cbn [splitOn] in Hs. rewrite Hsep in Hs.
    destruct (splitOn_head sep s) as (piece' & pieces' & Hsplit & _).
    rewrite Hsplit in Hs. injection Hs as <- <-.
    apply prefix_cons. split; [reflexivity|]. exact (IH s piece' pieces' Hrest Hp Hsplit).
Qed.

(** A word without separator that occurs in a string occurs in one piece. *)
Lemma includes_piece (sep : ascii) (w s : string) :
  solid sep w = true -> w <> "" -> includes s w = true ->
  exists p, In p (splitOn sep s) /\ includes p w = true.
Proof.
  intros Hw Hne. induction s as [|c s IH]; intros Hin.
  - apply includes_nil in Hin. contradiction.
  - cbn [includes] in Hin. apply orb_true_iff in Hin as [Hp|Hin].
    + destruct (splitOn_head sep (String c s)) as (piece & pieces & Hsplit & _).
      exists piece. split; [rewrite Hsplit; left; reflexivity|].
      apply includes_prefix. exact (prefix_piece sep w _ piece pieces Hw Hp Hsplit).
    + destruct (IH Hin) as (p & Hp & Hhit). cbn [splitOn].
      destruct (Ascii.eqb c sep).
      * exists p. split; [right; exact Hp|exact Hhit].
      * destruct (splitOn sep s) as [|piece pieces]; [destruct Hp|].
        destruct Hp as [<-|Hp].
        -- exists (String c piece). split; [left; reflexivity|].
           apply includes_tail. exact Hhit.
        -- exists p. split; [right; exact Hp|exact Hhit].
Qed.

Lemma solid_head (sep a : ascii) (w : string) :
  solid sep (String a w) = true -> isSpace a = false.
Proof.
  cbn [solid]. intros H. apply andb_true_iff in H as [H _].
  apply andb_true_iff in H as [_ H]. apply negb_true_iff in H. exact H.
Qed.

Lemma solid_tail (sep a : ascii) (w : string) :
  solid sep (String a w) = true -> solid sep w = true.
Proof. cbn [solid]. intros H. apply andb_true_iff in H as [_ H]. exact H. Qed.

Lemma includes_into_trimStart (sep : ascii) (w s : string) :
  solid sep w = true -> w <> "" -> includes s w = true ->
  includes (trimStart s) w = true.
Proof.
  intros Hw Hne. induction s as [|c s IH]; intros Hin; [exact Hin|].
  cbn [trimStart]. destruct (isSpace c) eqn:Hc; [|exact Hin].
  cbn [includes] in Hin. apply orb_true_iff in Hin as [Hp|Hin]; [|exact (IH Hin)].
  destruct w as [|a w]; [contradiction|].
  apply prefix_cons in Hp as [-> _].
  rewrite (solid_head sep c w Hw) in Hc. discriminate.
Qed.

Lemma prefix_into_trimEnd (sep : ascii) (w s : string) :
  solid sep w = true -> String.prefix w s = true -> String.prefix w (trimEnd s) = true.
Proof.
  revert s. induction w as [|a w IH]; intros s Hw Hp; [apply prefix_nil|].
  destruct s as [|c s]; [discriminate Hp|].
  apply prefix_cons in Hp as [<- Hp].
  specialize (IH s (solid_tail sep a w Hw) Hp).
  cbn [trimEnd]. destruct (trimEnd s) as [|x t].
  - apply prefix_of_nil in IH. subst w.
    rewrite (solid_head sep a "" Hw). apply prefix_cons. split; reflexivity.
  - apply prefix_cons. split; [reflexivity|exact IH].
Qed.

Lemma includes_into_trimEnd (sep : ascii) (w s : string) :
  solid sep w = true -> w <> "" -> includes s w = true ->
  includes (trimEnd s) w = true.
Proof.
  intros Hw Hne. induction s as [|c s IH]; intros Hin; [exact Hin|].
  cbn [includes] in Hin. apply orb_true_iff in Hin as [Hp|Hin].
  - apply includes_prefix. exact (prefix_into_trimEnd sep w _ Hw Hp).
  - specialize (IH Hin). cbn [trimEnd].
    destruct (trimEnd s) as [|x t]; [apply includes_nil in IH; contradiction|].
    apply includes_tail. exact IH.
Qed.

(** Trimming keeps the occurrences of a word without white space. *)
Lemma includes_into_trim (sep : ascii) (w s : string) :
  solid sep w = true -> w <> "" -> includes s w = true -> includes (trim s) w = true.
Proof.
  intros Hw Hne Hin. unfold trim.
  apply (includes_into_trimEnd sep w _ Hw Hne).
  exact (includes_into_trimStart sep w s Hw Hne Hin).
Qed.

Lemma findIndex_some (word : string) (arr : list string) :
  (exists h, In h arr /\ includes h word = true) -> findIndex word arr <> None.
Proof.
  induction arr as [|h arr IH]; intros (x & Hx & Hhit); [destruct Hx|].
  cbn [findIndex]. destruct (includes h word) eqn:Hh; [discriminate|].
  destruct Hx as [->|Hx]; [rewrite Hhit in Hh; discriminate|].
  destruct (findIndex word arr); [discriminate|].
  exfalso. apply IH; [|reflexivity]. exists x. split; [exact Hx|exact Hhit].
Qed.

Lemma splitOn_length (sep : ascii) (s : string) :
  includes s (String sep "") = true -> (2 <= List.length (splitOn sep s))%nat.
Proof.
  induction s as [|c s IH]; [discriminate|]. cbn [includes splitOn].
  destruct (Ascii.eqb_spec c sep) as [->|Hne].
  - intros _. destruct (splitOn_head sep s) as (piece & pieces & -> & _). cbn. lia.
  - intros H. apply orb_true_iff in H as [Hp|Hin].
    + apply prefix_cons in Hp as [Heq _]. congruence.
    + specialize (IH Hin). destruct (splitOn sep s); cbn in *; lia.
Qed.

(** The white-space trimming of the examples has the three properties of
    [String.prototype.trim] that the statements on [parseCSV] use. *)
Lemma trim_part (s w : string) : includes (trim s) w = true -> includes s w = true.
Proof. intros H. exact (includes_trans s (trim s) w (includes_trim s) H). Qed.

Lemma trim_keeps_word (s w : string) :
  w = "desc" \/ w = "amount" -> includes s w = true -> includes (trim s) w = true.
Proof.
  intros [->| ->]; apply (includes_into_trim comma); solve [reflexivity|discriminate].
Qed.
End HeaderFacts.

Section ParseExtras.
Variables toLowerCase trim : string -> string.
Variable number : Type.
Variable parseFloat : option string -> number.
Variable falsy : number -> bool.
Variable zero : number.
Variable today : nat -> string.
Import ExpenseInput Words.

(** What the statements use of [String.prototype.trim]: its result is a part
    of the string; it takes away white space only, so an occurrence of
    "desc" or "amount" is kept; and there is nothing left to trim in its
    result. *)
Hypothesis trim_within :
  forall s w : string, includes (trim s) w = true -> includes s w = true.
Hypothesis trim_keeps :
  forall s w : string,
    w = "desc" \/ w = "amount" -> includes s w = true -> includes (trim s) w = true.
Hypothesis trim_trimmed : forall s : string, trim (trim s) = trim s.

Local Abbreviation parse := (parseCSV toLowerCase trim parseFloat falsy zero today).
Local Abbreviation header text := (toLowerCase (List.hd "" (splitOn newline (trim text)))).
Local Abbreviation rowLines text :=
  (List.filter (fun l => negb (String.eqb (trim l) ""))
               (List.tl (splitOn newline (trim text)))).

Lemma headers_lack (line word : string) :
  includes line word = false ->
  findIndex word (List.map trim (splitOn comma line)) = None.
Proof.
  intros Hno. apply findIndex_none. apply Forall_forall. intros h Hh.
  apply list_elem_of_In, in_map_iff in Hh as (p & <- & Hp).
  destruct (includes (trim p) word) eqn:Hw; [|reflexivity].
  rewrite <- Hno. symmetry.
  apply (includes_trans _ p); [apply (splitOn_pieces _ _ _ Hp)|].
  apply trim_within. exact Hw.
Qed.

(** A header line that contains the word has a column for it. *)
Lemma headers_have (line word : string) :
  word = "desc" \/ word = "amount" -> includes line word = true ->
  findIndex word (List.map trim (splitOn comma line)) <> None.
Proof.
  intros Hword Hin. apply findIndex_some.
  assert (Hw : solid comma word = true) by (destruct Hword as [->| ->]; reflexivity).
  assert (Hne : word <> "") by (destruct Hword as [->| ->]; discriminate).
  destruct (includes_piece comma word line Hw Hne Hin) as (p & Hp & Hhit).
  exists (trim p). split; [apply in_map; exact Hp|].
  exact (trim_keeps p word Hword Hhit).
Qed.

Lemma orElse_trimmed (cols : list string) (idx : option nat) :
  trim "" = "" ->
  Forall (fun c => trim c = c) cols ->
  trim (orElse (cell cols idx) "") = orElse (cell cols idx) "".
Proof.
  intros Hempty Hall. destruct idx as [i|]; [|exact Hempty]. cbn [cell].
  destruct (nth_error cols i) as [c|] eqn:Hc; [|exact Hempty].
  apply nth_error_In in Hc. rewrite Forall_forall in Hall.
  specialize (Hall c (proj2 (list_elem_of_In _ _) Hc)).
  destruct c; [exact Hempty|exact Hall].
Qed.

(** X9 -- Files without rows.  [parseCSV] returns the empty array when the
    trimmed text has no line break (nothing, or a header alone), and when
    the case-folded first line of the trimmed text contains neither "desc"
    nor, respectively, "amount". *)
Theorem parseCSV_without_rows :
  (forall text : string,
      includes (trim text) (String newline "") = false -> parse text = [])
  /\ (forall text : string, includes (header text) "desc" = false -> parse text = [])
  /\ (forall text : string, includes (header text) "amount" = false -> parse text = []).
Proof.
  split; [|split].
  - intros text Hno. unfold parseCSV.
    rewrite (splitOn_no_separator newline _ Hno). reflexivity.
  - intros text Hno. unfold parseCSV.
    destruct (List.length (splitOn newline (trim text)) <? 2)%nat; [reflexivity|].
    cbv zeta. rewrite (headers_lack _ "desc" Hno). reflexivity.
  - intros text Hno. unfold parseCSV.
    destruct (List.length (splitOn newline (trim text)) <? 2)%nat; [reflexivity|].
    cbv zeta. rewrite (headers_lack _ "amount" Hno).
    destruct (findIndex "desc" _); reflexivity.
Qed.

(** X10 -- Parsed rows.  [parseCSV] returns at most one row per line, after
    the first, of the trimmed text that [trim] does not empty, and exactly
    one per such line when the trimmed text has a line break and its
    case-folded first line contains "desc" and "amount"; there is nothing
    left to trim in the description of a row. *)
Theorem parseCSV_rows (text : string) :
  (List.length (parse text) <= List.length (rowLines text))%nat
  /\ (includes (trim text) (String newline "") = true ->
      includes (header text) "desc" = true ->
      includes (header text) "amount" = true ->
      List.length (parse text) = List.length (rowLines text))
  /\ Forall (fun row => trim (Row.description row) = Row.description row) (parse text).
Proof.
  unfold parseCSV.
  pose proof (splitOn_length newline (trim text)) as Hlines.
  destruct (List.length (splitOn newline (trim text)) <? 2)%nat eqn:Hshort.
  { split; [cbn; lia|]. split; [|constructor].
    intros Hbreak _ _. apply Nat.ltb_lt in Hshort. specialize (Hlines Hbreak). lia. }
  cbv zeta.
  pose proof (headers_have (header text) "desc" (or_introl eq_refl)) as Hdesc.
  pose proof (headers_have (header text) "amount" (or_intror eq_refl)) as Hamount.
  destruct (findIndex "desc" _) as [i|].
  2:{ split; [cbn; lia|]. split; [|constructor].
      intros _ Hd _. exfalso. exact (Hdesc Hd eq_refl). }
  destruct (findIndex "amount" _) as [j|].
  2:{ split; [cbn; lia|]. split; [|constructor].
      intros _ _ Ha. exfalso. exact (Hamount Ha eq_refl). }
  rewrite length_imap. split; [lia|]. split; [reflexivity|].
  assert (Hempty : trim "" = "").
  { pose proof (trim_within "" (trim "")) as H.
    specialize (H (includes_refl _)). apply includes_nil in H. exact H. }
  apply Forall_imap. intros n line. cbn [Row.description].
  apply orElse_trimmed; [exact Hempty|]. apply Forall_forall. intros c Hc.
  apply list_elem_of_In, in_map_iff in Hc as (p & <- & _). apply trim_trimmed.
Qed.
End ParseExtras.

(** X9 on a header alone and on two files whose header lacks a column. *)
Lemma parseCSV_without_rows_witness :
  ExpenseInput.parseCSV asciiLowerCase FakeNewsDetector.trim
    Readings.parseFloat Readings.falsy (Some 0%Q) Readings.today Readings.headerOnly = []
  /\ ExpenseInput.parseCSV asciiLowerCase FakeNewsDetector.trim
       Readings.parseFloat Readings.falsy (Some 0%Q) Readings.today Readings.noDescription = []
  /\ ExpenseInput.parseCSV asciiLowerCase FakeNewsDetector.trim
       Readings.parseFloat Readings.falsy (Some 0%Q) Readings.today Readings.noAmount = [].
Proof.
  destruct (parseCSV_without_rows asciiLowerCase FakeNewsDetector.trim _
              Readings.parseFloat Readings.falsy (Some 0%Q) Readings.today
              trim_part)
    as (Hshort & Hdesc & Hamount).
  split; [|split].
  - apply Hshort. vm_compute. reflexivity.
  - apply Hdesc. vm_compute. reflexivity.
  - apply Hamount. vm_compute. reflexivity.
Defined.

(** X10 on a file of a header, two rows and an empty line. *)
Lemma parseCSV_rows_witness :
  List.length (ExpenseInput.parseCSV asciiLowerCase FakeNewsDetector.trim
                 Readings.parseFloat Readings.falsy (Some 0%Q) Readings.today
                 Readings.statement) = 2%nat.
Proof.
  destruct (parseCSV_rows asciiLowerCase FakeNewsDetector.trim _
              Readings.parseFloat Readings.falsy (Some 0%Q) Readings.today
              trim_part trim_keeps_word trim_idem Readings.statement)
    as (_ & Hrows & _).
  rewrite Hrows; vm_compute; reflexivity.
Defined.

(** The rows read from that file: cells are trimmed, the amount is a number
    and the missing date is the day of the upload. *)
Example parseCSV_statement :
  ExpenseInput.parseCSV asciiLowerCase FakeNewsDetector.trim
    Readings.parseFloat Readings.falsy (Some 0%Q) Readings.today Readings.statement
  = [ {| ExpenseInput.Row.description := "Lunch";
         ExpenseInput.Row.amount := Some (25 # 2)%Q;
         ExpenseInput.Row.date := "01/02/2024" |};
      {| ExpenseInput.Row.description := "Taxi";
         ExpenseInput.Row.amount := Some 40%Q;
         ExpenseInput.Row.date := "11/3/2026" |} ].
Proof. vm_compute. reflexivity. Qed.

(** ** [categoryTotals] *)

Section TotalsFacts.
Import ExpenseCategorizer ExpenseInput Words.
Local Open Scope Q_scope.

Lemma addAmount_keys (totals : list (string * Q)) (c : string) (a : Q) :
  List.map fst (addAmount totals c a)
  = if bool_decide (c ∈ List.map fst totals) then List.map fst totals
    else (List.map fst totals ++ [c])%list.
Proof.
  induction totals as [|[c' v] totals IH]; [reflexivity|].
  cbn [addAmount List.map fst].
  destruct (String.eqb_spec c' c) as [->|Hne].
  - rewrite bool_decide_eq_true_2 by (left). reflexivity.
  - cbn [List.map fst]. rewrite IH.
    destruct (bool_decide (c ∈ List.map fst totals)) eqn:Hin.
    + apply bool_decide_eq_true in Hin.
      rewrite bool_decide_eq_true_2 by (right; exact Hin). reflexivity.
    + apply bool_decide_eq_false in Hin.
      rewrite bool_decide_eq_false_2; [reflexivity|].
      intros H. apply elem_of_cons in H as [H|H]; [congruence|contradiction].
Qed.

Lemma addAmount_NoDup (totals : list (string * Q)) (c : string) (a : Q) :
  NoDup (List.map fst totals) -> NoDup (List.map fst (addAmount totals c a)).
Proof.
  intros Hnd. rewrite addAmount_keys. case_bool_decide as Hin; [exact Hnd|].
  apply NoDup_app. split; [exact Hnd|]. split.
  - intros x Hx Hc. apply list_elem_of_singleton in Hc as ->. contradiction.
  - apply NoDup_singleton.
Qed.

Lemma totalsFrom_spec (batch : list Categorized) :
  forall totals result,
    totalsFrom totals batch = Some result ->
    Forall (fun e => plainKey (category e) = true) batch
    /\ (NoDup (List.map fst totals) -> NoDup (List.map fst result))
    /\ (forall c, c ∈ List.map fst result
                  <-> c ∈ List.map fst totals \/ c ∈ List.map category batch).
Proof.
  induction batch as [|e batch IH]; intros totals result; cbn [totalsFrom].
  - intros H. injection H as <-. split; [constructor|].
    split; [tauto|].
    intros c. cbn. rewrite elem_of_nil. tauto.
  - destruct (plainKey (category e)) eqn:Hplain; [|discriminate].
    intros H. apply IH in H as (Hall & Hnd & Hkeys).
    split; [constructor; assumption|].
    split; [intros H0; apply Hnd, addAmount_NoDup; exact H0|].
    intros c. rewrite Hkeys, addAmount_keys. cbn [List.map].
    rewrite elem_of_cons.
    case_bool_decide as Hin.
    + split; [tauto|]. intros [H|[->|H]]; tauto.
    + rewrite elem_of_app, list_elem_of_singleton. tauto.
Qed.

Lemma firstOccurrences_ext (seen1 seen2 l : list string) :
  (forall c, c ∈ seen1 <-> c ∈ seen2) ->
  firstOccurrences seen1 l = firstOccurrences seen2 l.
Proof.
  revert seen1 seen2. induction l as [|c l IH]; intros seen1 seen2 Hsame; [reflexivity|].
  cbn [firstOccurrences].
  rewrite (bool_decide_ext (c ∈ seen1) (c ∈ seen2) (Hsame c)).
  destruct (bool_decide (c ∈ seen2)); [apply IH; exact Hsame|].
  f_equal. apply IH. intros x. rewrite !elem_of_cons, Hsame. tauto.
Qed.

(** The entries are in the order in which the categories first occur. *)
Lemma totalsFrom_keys (batch : list Categorized) :
  forall totals result,
    totalsFrom totals batch = Some result ->
    List.map fst result
    = (List.map fst totals
       ++ firstOccurrences (List.map fst totals) (List.map category batch))%list.
Proof.
  induction batch as [|e batch IH]; intros totals result; cbn [totalsFrom].
  - intros H. injection H as <-. cbn [List.map firstOccurrences].
    rewrite app_nil_r. reflexivity.
  - destruct (plainKey (category e)); [|discriminate].
    intros H. rewrite (IH _ _ H), addAmount_keys. cbn [List.map firstOccurrences].
    destruct (bool_decide (category e ∈ List.map fst totals)); [reflexivity|].
    rewrite <- app_assoc. cbn [app]. do 2 f_equal.
    apply firstOccurrences_ext. intros c.
    rewrite elem_of_app, list_elem_of_singleton, elem_of_cons. tauto.
Qed.

Lemma best_plain (toLowerCase : string -> string) (description : string) :
  plainKey (fst (best toLowerCase description)) = true.
Proof.
  destruct (scoreAll_fst (fun keywords : list string => keywords)
              (toLowerCase description) categoryKeywords "Other") as [H|H];
    unfold best; [rewrite H; reflexivity|].
  simpl in H.
  repeat (destruct H as [H|H]; [rewrite <- H; reflexivity|]).
  destruct H.
Qed.

Lemma categorized_plain (toLowerCase : string -> string) (random : nat -> Q)
    (expenses : list Expense) :
  Forall (fun e => plainKey (category e) = true)
         (categorized toLowerCase random expenses).
Proof.
  apply Forall_imap. intros i x. rewrite categorizeExpense_eq. cbn [category].
  apply best_plain.
Qed.

Lemma totalsFrom_plain (batch : list Categorized) :
  Forall (fun e => plainKey (category e) = true) batch ->
  forall totals, exists result, totalsFrom totals batch = Some result.
Proof.
  induction 1 as [|e batch He _ IH]; intros totals; cbn [totalsFrom].
  - eexists. reflexivity.
  - rewrite He. apply IH.
Qed.

Lemma categorized_declared (toLowerCase : string -> string) (random : nat -> Q)
    (expenses : list Expense) :
  Forall (fun e => category e ∈ ("Other" :: List.map fst categoryKeywords))
         (categorized toLowerCase random expenses).
Proof.
  apply Forall_imap. intros i x. rewrite categorizeExpense_eq. cbn [category].
  destruct (scoreAll_fst (fun keywords : list string => keywords)
              (toLowerCase (description x)) categoryKeywords "Other") as [H|H];
    unfold best.
  - rewrite H. left.
  - right. apply list_elem_of_In. exact H.
Qed.
End TotalsFacts.

Section TotalsExtras.
Import ExpenseCategorizer ExpenseInput Words.

(** X11 -- Entries of the totals.  When no category of the batch is an
    array index or a property inherited from [Object.prototype],
    [categoryTotals] holds one entry per category present in the batch and
    no other entry, whatever the amounts: no category is listed twice, none
    is left out, and the categories come in the order in which they first
    occur in the batch. *)
Theorem categoryTotals_entries (batch : list Categorized)
    (totals : list (string * Q)) :
  categoryTotals batch = Some totals ->
  NoDup (List.map fst totals)
  /\ (forall c, c ∈ List.map fst totals <-> c ∈ List.map category batch)
  /\ List.map fst totals = firstOccurrences [] (List.map category batch).
Proof.
  intros Hrun. unfold categoryTotals in Hrun.
  pose proof (totalsFrom_keys _ _ _ Hrun) as Horder.
  apply totalsFrom_spec in Hrun as (_ & Hnd & Hkeys).
  split; [apply Hnd; constructor|]. split; [|exact Horder].
  intros c. rewrite Hkeys. cbn. rewrite elem_of_nil. tauto.
Qed.
End TotalsExtras.

(** X11 on the rent payment followed by the fares. *)
Lemma categoryTotals_entries_witness :
  List.map fst
    (default [] (ExpenseInput.categoryTotals Samples.ledger))
  = ["Rent & Housing"; "Transportation"]
  /\ NoDup ["Rent & Housing"; "Transportation"]
  /\ ("Transportation" ∈ ["Rent & Housing"; "Transportation"]
      <-> "Transportation" ∈ List.map ExpenseCategorizer.category Samples.ledger)
  /\ ["Rent & Housing"; "Transportation"]
     = Words.firstOccurrences [] (List.map ExpenseCategorizer.category Samples.ledger).
Proof.
  assert (Hrun : ExpenseInput.categoryTotals Samples.ledger
                 = Some [("Rent & Housing", 500%Q); ("Transportation", 640%Q)])
    by (vm_compute; reflexivity).
  split; [rewrite Hrun; reflexivity|].
  destruct (categoryTotals_entries _ _ Hrun) as (Hnd & Hkeys & Horder).
  split; [exact Hnd|]. split; [exact (Hkeys "Transportation")|exact Horder].
Defined.

Section TileExtras.
Variable toLowerCase : string -> string.
Import ExpenseCategorizer ExpenseInput Words.
Local Open Scope Q_scope.

(** X12 -- The categories tile.  For the batch the component builds from any
    list of expenses, [categoryTotals] stays within the number model and has
    at most 11 entries (the ten categories and ["Other"]), and never more
    entries than there are expenses. *)
Theorem categoryTotals_at_most_eleven (random : nat -> Q) (expenses : list Expense) :
  exists totals,
    categoryTotals (categorized toLowerCase random expenses) = Some totals
    /\ (List.length totals <= 11)%nat
    /\ (List.length totals <= List.length expenses)%nat.
Proof.
  set (batch := categorized toLowerCase random expenses).
  destruct (totalsFrom_plain batch (categorized_plain toLowerCase random expenses) [])
    as [totals Hrun].
  exists totals. split; [exact Hrun|].
  apply totalsFrom_spec in Hrun as (_ & Hnd & Hkeys).
  assert (Hnodup : List.NoDup (List.map fst totals)).
  { apply NoDup_ListNoDup, Hnd. constructor. }
  assert (Hin : forall c, In c (List.map fst totals) -> In c (List.map category batch)).
  { intros c Hc. apply list_elem_of_In. apply list_elem_of_In in Hc.
    apply Hkeys in Hc as [Hc|Hc]; [|exact Hc]. cbn in Hc. apply elem_of_nil in Hc. destruct Hc. }
  split.
  - rewrite <- (length_map fst totals).
    change 11%nat with (List.length ("Other" :: List.map fst categoryKeywords)).
    apply (List.NoDup_incl_length Hnodup). intros c Hc.
    apply Hin, in_map_iff in Hc as (e & <- & He).
    pose proof (categorized_declared toLowerCase random expenses) as Hdecl.
    rewrite Forall_forall in Hdecl. apply list_elem_of_In, Hdecl, list_elem_of_In, He.
  - rewrite <- (length_map fst totals).
    replace (List.length expenses) with (List.length (List.map category batch))
      by (rewrite length_map; apply length_imap).
    apply (List.NoDup_incl_length Hnodup). exact Hin.
Qed.
End TileExtras.

(** ** [analyzeText] *)

Section VerdictFacts.
Variables toLowerCase toUpperCase : string -> string.
Import FakeNewsDetector.
Local Open Scope Q_scope.

Lemma clampScore_bounds (score random : Q) : 5 <= clampScore score random <= 98.
Proof.
  unfold clampScore. split; [apply Q.le_max_l|].
  apply Q.max_lub; [discriminate|apply Q.le_min_l].
Qed.

Lemma clampScore_lt (score random bound : Q) :
  5 < bound -> score + (random * 10 - 5) < bound -> clampScore score random < bound.
Proof.
  intros Hb Hlt. unfold clampScore. apply Q.max_lub_lt; [exact Hb|].
  eapply Qle_lt_trans; [apply Q.le_min_r|exact Hlt].
Qed.

Lemma substring_length (n : nat) (s : string) :
  (String.length (String.substring 0 n s) <= n)%nat.
Proof.
  revert s. induction n as [|n IH]; intros [|c s]; cbn; try lia.
  specialize (IH s). lia.
Qed.

Lemma source_index (r : Q) :
  0 <= r < 1 -> (0 <= Qfloor (r * 5) < 5)%Z.
Proof.
  intros [Hlo Hhi]. split.
  - change 0%Z with (Qfloor 0). apply Qfloor_resp_le. nra.
  - pose proof (Qfloor_le (r * 5)) as Hf.
    assert (H : inject_Z (Qfloor (r * 5)) < inject_Z 5).
    { eapply Qle_lt_trans; [exact Hf|]. change (inject_Z 5) with 5. lra. }
    rewrite <- Zlt_Qlt in H. exact H.
Qed.

Lemma capsRatio_bounds (words : list string) (p : string -> bool) :
  0 <= nat2Q (List.length (List.filter p words)) / len words <= 1.
Proof.
  pose proof (List.filter_length_le p words) as Hle.
  unfold nat2Q, len.
  set (c := List.length (List.filter p words)) in *. set (n := List.length words) in *.
  destruct n as [|n].
  - assert (c = 0%nat) by lia. subst c. rewrite H. split; discriminate.
  - assert (Hn : 0 < inject_Z (Z.of_nat (S n))).
    { change 0 with (inject_Z 0). rewrite <- Zlt_Qlt. lia. }
    assert (Hc : 0 <= inject_Z (Z.of_nat c)).
    { change 0 with (inject_Z 0). rewrite <- Zle_Qle. lia. }
    assert (Hcn : inject_Z (Z.of_nat c) <= inject_Z (Z.of_nat (S n))).
    { rewrite <- Zle_Qle. lia. }
    split.
    + apply Qle_shift_div_l; [exact Hn|]. lra.
    + apply Qle_shift_div_r; [exact Hn|]. lra.
Qed.

(** The score before the jitter is at most 95 less the penalties, and at most
    70 less the penalties when no source is named. *)
Lemma rawScore_le (text : string) :
  let lower := toLowerCase text in
  rawScore toLowerCase toUpperCase text
  <= (if someHit lower sourceIndicators then 95 else 70)
     - nat2Q (countHits lower sensationalWords) * 8
     - nat2Q (countHits lower emotionalWords) * 5
     - nat2Q (countHits lower clickbaitPhrases) * 15.
Proof.
  cbv zeta. unfold rawScore. cbv zeta.
  pose proof (capsRatio_bounds (splitRuns isSpace text)
                (fun w => String.eqb w (toUpperCase w) && (2 <? String.length w)%nat))
    as [Hcaps _].
  set (caps := nat2Q _ / len _) in *.
  set (s := nat2Q (countHits (toLowerCase text) sensationalWords)).
  set (e := nat2Q (countHits (toLowerCase text) emotionalWords)).
  set (c := nat2Q (countHits (toLowerCase text) clickbaitPhrases)).
  destruct (someHit (toLowerCase text) sourceIndicators);
    destruct (3 <? _)%nat; destruct (50 <? _)%nat; lra.
Qed.

Lemma verdict_score (random : nat -> Q) (text : string) :
  score (analyzeText toLowerCase toUpperCase random text)
  = toFixed1 (clampScore (rawScore toLowerCase toUpperCase text) (random 0%nat)).
Proof. reflexivity. Qed.

Lemma verdict_label (random : nat -> Q) (text : string) :
  let s := clampScore (rawScore toLowerCase toUpperCase text) (random 0%nat) in
  let v := analyzeText toLowerCase toUpperCase random text in
  match s ?= 70 with
  | Lt =>
      match s ?= 40 with
      | Lt => label v = "Likely Fake" /\ labelColor v = "text-accent-pink"
              /\ labelBg v = "bg-accent-pink"
      | _ => label v = "Questionable" /\ labelColor v = "text-primary"
             /\ labelBg v = "bg-primary"
      end
  | _ => label v = "Likely Authentic" /\ labelColor v = "text-terminal-green"
         /\ labelBg v = "bg-terminal-green"
  end.
Proof.
  cbv zeta. unfold analyzeText. cbv zeta. cbn [label labelColor labelBg].
  set (s := clampScore _ _).
  destruct (s ?= 70); destruct (s ?= 40); repeat split; reflexivity.
Qed.
End VerdictFacts.

Section TopicFacts.
Import FakeNewsDetector.

Lemma filter_nil_none {A : Type} (p : A -> bool) (l : list A) (a : A) :
  List.filter p l = [] -> In a l -> p a = false.
Proof.
  induction l as [|x l IH]; [intros _ []|]. cbn [List.filter].
  destruct (p x) eqn:Hx; [discriminate|].
  intros Hnil [<-|Hin]; [exact Hx|exact (IH Hnil Hin)].
Qed.

Lemma keyed_filter {A : Type} (p : string * A -> bool) (l : list (string * A))
    (k : string) (a : A) :
  List.NoDup (List.map fst l) -> In (k, a) l ->
  (In k (List.map fst (List.filter p l)) <-> p (k, a) = true).
Proof.
  intros Hnd Hin. split.
  - intros Hk. apply in_map_iff in Hk as ([k' a'] & Hfst & Hf). cbn in Hfst. subst k'.
    apply filter_In in Hf as [Hin' Hp].
    assert (a' = a) as <-; [|exact Hp].
    clear Hp. induction l as [|[k0 a0] l IH]; [destruct Hin|].
    cbn [List.map fst] in Hnd. apply List.NoDup_cons_iff in Hnd as [Hnot Hnd].
    destruct Hin as [Heq|Hin]; destruct Hin' as [Heq'|Hin'].
    + congruence.
    + exfalso. injection Heq as -> ->. apply Hnot.
      apply (in_map fst) in Hin'. exact Hin'.
    + exfalso. injection Heq' as -> ->. apply Hnot.
      apply (in_map fst) in Hin. exact Hin.
    + exact (IH Hnd Hin Hin').
  - intros Hp. apply in_map_iff. exists (k, a). split; [reflexivity|].
    apply filter_In. split; [exact Hin|exact Hp].
Qed.

Lemma topicMap_keys : List.NoDup (List.map fst topicMap).
Proof.
  cbn.
  repeat (apply List.NoDup_cons;
          [cbn; intros H; repeat (destruct H as [H|H]; [discriminate H|]); exact H|]).
  apply List.NoDup_nil.
Qed.

Lemma general_is_no_topic : ~ In "general" (List.map fst topicMap).
Proof. cbn. intros H. repeat (destruct H as [H|H]; [discriminate H|]). exact H. Qed.
End TopicFacts.

Section BandFacts.
Variables toLowerCase toUpperCase : string -> string.
Import FakeNewsDetector.
Local Open Scope Q_scope.

(** The label as decided by the penalties. *)
Lemma label_by_penalties (random : nat -> Q) (text : string) :
  let v := analyzeText toLowerCase toUpperCase random text in
  let lower := toLowerCase text in
  let w := (8 * countHits lower sensationalWords + 5 * countHits lower emotionalWords
            + 15 * countHits lower clickbaitPhrases)%nat in
  random 0%nat < 1 ->
  (((someHit lower sourceIndicators = false /\ (6 <= w)%nat) \/ (31 <= w)%nat) ->
   label v <> "Likely Authentic")
  /\ (((someHit lower sourceIndicators = false /\ (36 <= w)%nat) \/ (61 <= w)%nat) ->
      label v = "Likely Fake").
Proof.
  cbv zeta. intros Hdraw.
  pose proof (verdict_label toLowerCase toUpperCase random text) as Hlabel.
  cbv zeta in Hlabel.
  pose proof (rawScore_le toLowerCase toUpperCase text) as Hraw. cbv zeta in Hraw.
  set (raw := rawScore toLowerCase toUpperCase text) in *.
  set (s := countHits (toLowerCase text) sensationalWords) in *.
  set (e := countHits (toLowerCase text) emotionalWords) in *.
  set (c := countHits (toLowerCase text) clickbaitPhrases) in *.
  assert (Hw : nat2Q s * 8 + nat2Q e * 5 + nat2Q c * 15
               == inject_Z (Z.of_nat (8 * s + 5 * e + 15 * c))).
  { unfold nat2Q. rewrite !Nat2Z.inj_add, !Nat2Z.inj_mul, !inject_Z_plus, !inject_Z_mult.
    cbn [Z.of_nat Pos.of_succ_nat Pos.succ]. change (inject_Z 8) with 8.
    change (inject_Z 5) with 5. change (inject_Z 15) with 15. ring. }
  set (w := (8 * s + 5 * e + 15 * c)%nat) in *.
  assert (Hbound : forall (cap : Q) (least : nat) (bound : Q),
             raw <= cap - nat2Q s * 8 - nat2Q e * 5 - nat2Q c * 15 ->
             (least <= w)%nat -> 5 < bound ->
             cap + 5 - inject_Z (Z.of_nat least) <= bound ->
             clampScore raw (random 0%nat) < bound).
  { intros cap least bound Hcap Hleast Hb Hfit. apply clampScore_lt; [exact Hb|].
    assert (Hl : inject_Z (Z.of_nat least) <= inject_Z (Z.of_nat w))
      by (rewrite <- Zle_Qle; lia).
    lra. }
  split.
  - intros Hcase.
    assert (Hlt : clampScore raw (random 0%nat) < 70).
    { destruct Hcase as [[Hsrc H6]|H31].
      - rewrite Hsrc in Hraw. apply (Hbound 70 6%nat 70 Hraw H6); reflexivity || discriminate.
      - apply (Hbound 95 31%nat 70); [|exact H31|reflexivity|discriminate].
        destruct (someHit _ _); lra. }
    destruct (Qcompare_spec (clampScore raw (random 0%nat)) 70) as [Heq|_|Hgt];
      [exfalso; lra| |exfalso; lra].
    destruct (_ ?= 40); destruct Hlabel as (-> & _); discriminate.
  - intros Hcase.
    assert (Hlt : clampScore raw (random 0%nat) < 40).
    { destruct Hcase as [[Hsrc H36]|H61].
      - rewrite Hsrc in Hraw. apply (Hbound 70 36%nat 40 Hraw H36); reflexivity || discriminate.
      - apply (Hbound 95 61%nat 40); [|exact H61|reflexivity|discriminate].
        destruct (someHit _ _); lra. }
    destruct (Qcompare_spec (clampScore raw (random 0%nat)) 70) as [Heq|_|Hgt];
      [exfalso; lra| |exfalso; lra].
    destruct (Qcompare_spec (clampScore raw (random 0%nat)) 40) as [Heq|_|Hgt];
      [exfalso; lra| |exfalso; lra].
    destruct Hlabel as (-> & _). reflexivity.
Qed.
End BandFacts.

Section VerdictExtras.
Variables toLowerCase toUpperCase : string -> string.
Import FakeNewsDetector.
Local Open Scope Q_scope.

(** X13 -- Label, colours and displayed score agree.  The displayed score
    lies between 5 and 98; the label and the two colours always belong to
    the same band, and the displayed score is at least 70 for "Likely
    Authentic", between 40 and 70 for "Questionable" and at most 40 for
    "Likely Fake". *)
Theorem label_agrees_with_score (random : nat -> Q) (text : string) :
  let v := analyzeText toLowerCase toUpperCase random text in
  5 <= score v <= 98
  /\ ((label v = "Likely Authentic" /\ labelColor v = "text-terminal-green"
       /\ labelBg v = "bg-terminal-green" /\ 70 <= score v)
      \/ (label v = "Questionable" /\ labelColor v = "text-primary"
          /\ labelBg v = "bg-primary" /\ 40 <= score v <= 70)
      \/ (label v = "Likely Fake" /\ labelColor v = "text-accent-pink"
          /\ labelBg v = "bg-accent-pink" /\ score v <= 40)).
Proof.
  cbv zeta. pose proof (verdict_label toLowerCase toUpperCase random text) as Hlabel.
  cbv zeta in Hlabel. rewrite verdict_score.
  pose proof (clampScore_bounds (rawScore toLowerCase toUpperCase text) (random 0%nat))
    as [Hlo Hhi].
  set (s := clampScore _ _) in *.
  assert (H5 : toFixed1 5 == 5) by apply (toFixed1_whole 5).
  assert (H98 : toFixed1 98 == 98) by apply (toFixed1_whole 98).
  assert (H70 : toFixed1 70 == 70) by apply (toFixed1_whole 70).
  assert (H40 : toFixed1 40 == 40) by apply (toFixed1_whole 40).
  split.
  - split; [rewrite <- H5|rewrite <- H98]; apply toFixed1_le; assumption.
  - destruct (Qcompare_spec s 70) as [Heq|Hlt|Hgt].
    + left. destruct Hlabel as (-> & -> & ->). repeat split.
      rewrite <- H70. apply toFixed1_le. rewrite Heq. apply Qle_refl.
    + destruct (Qcompare_spec s 40) as [Heq'|Hlt'|Hgt'].
      * right; left. destruct Hlabel as (-> & -> & ->). repeat split.
        -- rewrite <- H40. apply toFixed1_le. rewrite Heq'. apply Qle_refl.
        -- rewrite <- H70. apply toFixed1_le. apply Qlt_le_weak. exact Hlt.
      * right; right. destruct Hlabel as (-> & -> & ->). repeat split.
        rewrite <- H40. apply toFixed1_le. apply Qlt_le_weak. exact Hlt'.
      * right; left. destruct Hlabel as (-> & -> & ->). repeat split.
        -- rewrite <- H40. apply toFixed1_le. apply Qlt_le_weak. exact Hgt'.
        -- rewrite <- H70. apply toFixed1_le. apply Qlt_le_weak. exact Hlt.
    + left. destruct Hlabel as (-> & -> & ->). repeat split.
      rewrite <- H70. apply toFixed1_le. apply Qlt_le_weak. exact Hgt.
Qed.

(** X14 -- Penalties decide the label.  With a jitter draw below 1, let
    [w = 8 s + 5 e + 15 c] for [s] sensational words, [e] emotional words
    and [c] clickbait phrases found.  A text that names no source and has
    [w >= 6], or any text with [w >= 31], is never "Likely Authentic"; a
    text that names no source and has [w >= 36], or any text with
    [w >= 61], is always "Likely Fake". *)
Theorem penalties_decide_label (random : nat -> Q) (text : string) :
  let v := analyzeText toLowerCase toUpperCase random text in
  let lower := toLowerCase text in
  let w := (8 * countHits lower sensationalWords + 5 * countHits lower emotionalWords
            + 15 * countHits lower clickbaitPhrases)%nat in
  random 0%nat < 1 ->
  (((someHit lower sourceIndicators = false /\ (6 <= w)%nat) \/ (31 <= w)%nat) ->
   label v <> "Likely Authentic")
  /\ (((someHit lower sourceIndicators = false /\ (36 <= w)%nat) \/ (61 <= w)%nat) ->
      label v = "Likely Fake").
Proof. exact (label_by_penalties toLowerCase toUpperCase random text). Qed.

(** X15 -- Claims of a verdict.  There is one claim for each of the first
    three sentences and none beyond; the text of a claim has at most 100
    characters; with draws in [0, 1) every claim names one of the five
    sources. *)
Theorem claims_are_bounded (random : nat -> Q) (text : string) :
  let v := analyzeText toLowerCase toUpperCase random text in
  List.length (claims v) = Nat.min 3 (sentenceCount (analysis v))
  /\ Forall (fun c => (String.length (claim c) <= 100)%nat) (claims v)
  /\ ((forall n, 0 <= random n < 1) ->
      Forall (fun c => exists name, source c = Some name /\ In name sources) (claims v)).
Proof.
  cbv zeta. unfold analyzeText. cbv zeta. cbn [claims analysis sentenceCount].
  set (sentences := nonEmpty (splitRuns isStop text)).
  split; [rewrite length_imap, length_firstn; reflexivity|]. split.
  - apply Forall_imap. intros i s. cbn [claim]. apply substring_length.
  - intros Hdraws. apply Forall_imap. intros i s. cbn [source].
    pose proof (source_index (random (2 + 2 * i)%nat) (Hdraws _)) as Hidx.
    set (idx := Qfloor _) in *.
    assert (Hcases : idx = 0%Z \/ idx = 1%Z \/ idx = 2%Z \/ idx = 3%Z \/ idx = 4%Z) by lia.
    destruct Hcases as [H | [H | [H | [H | H]]]]; rewrite H; cbn; eexists; (split; [reflexivity|]);
      cbn; tauto.
Qed.

(** X16 -- Topics.  The list of topics is never empty; a topic of the table
    is listed exactly when one of its keywords occurs in the case-folded
    text; "general" is listed exactly when no keyword of any topic
    occurs, and then it is the only topic. *)
Theorem topics_follow_keywords (random : nat -> Q) (text : string) :
  let v := analyzeText toLowerCase toUpperCase random text in
  let lower := toLowerCase text in
  topics v <> []
  /\ (forall t keywords, In (t, keywords) topicMap ->
                         (In t (topics v) <-> someHit lower keywords = true))
  /\ (In "general" (topics v)
      <-> forall t keywords, In (t, keywords) topicMap -> someHit lower keywords = false)
  /\ (In "general" (topics v) -> topics v = ["general"]).
Proof.
  cbv zeta. unfold analyzeText. cbv zeta. cbn [topics].
  set (hit := fun entry : string * list string => someHit (toLowerCase text) (snd entry)).
  pose proof (fun t keywords => keyed_filter hit topicMap t keywords topicMap_keys) as Hkey.
  pose proof general_is_no_topic as Hgeneral.
  assert (Hsub : forall t, In t (List.map fst (List.filter hit topicMap)) ->
                           In t (List.map fst topicMap)).
  { intros t Ht. apply in_map_iff in Ht as (entry & <- & Hf).
    apply filter_In in Hf as [Hf _]. apply in_map. exact Hf. }
  destruct (List.filter hit topicMap) as [|entry found] eqn:Hfound.
  - cbn [List.map]. split; [discriminate|]. split; [|split].
    + intros t keywords Hin. split.
      * intros [<-|[]]. exfalso. apply Hgeneral. apply (in_map fst) in Hin. exact Hin.
      * intros Hhit. exfalso.
        pose proof (filter_nil_none hit topicMap (t, keywords) Hfound Hin) as Hno.
        unfold hit in Hno. cbn [snd] in Hno. congruence.
    + split; [|intros _; left; reflexivity].
      intros _ t keywords Hin.
      exact (filter_nil_none hit topicMap (t, keywords) Hfound Hin).
    + reflexivity.
  - assert (Hnot : ~ In "general" (List.map fst (entry :: found)))
      by (intros H; apply Hgeneral, Hsub, H).
    cbn [List.map] in *.
    split; [discriminate|]. split; [|split].
    + intros t keywords Hin. apply (Hkey t keywords Hin).
    + split; [intros H; contradiction|].
      intros Hnone. exfalso.
      assert (Hin : In entry (List.filter hit topicMap)) by (rewrite Hfound; left; reflexivity).
      apply filter_In in Hin as [Hin Hhit]. destruct entry as [t keywords].
      specialize (Hnone t keywords Hin). unfold hit in Hhit. cbn [snd] in Hhit. congruence.
    + intros H. contradiction.
Qed.

(** X17 -- Figures of the report.  The word count is at least 1, also for
    the empty text, so the ratio of upper-case words is never a division by
    zero; the ratio is shown as a percentage between 0 and 100. *)
Theorem report_figures (random : nat -> Q) (text : string) :
  let v := analyzeText toLowerCase toUpperCase random text in
  (1 <= wordCount (analysis v))%nat
  /\ 0 <= capsRatio (analysis v) <= 100.
Proof.
  cbv zeta. unfold analyzeText. cbv zeta. cbn [analysis wordCount capsRatio].
  split.
  - pose proof (splitRuns_nonempty isSpace text) as Hne.
    destruct (splitRuns isSpace text); [contradiction|cbn; lia].
  - pose proof (capsRatio_bounds (splitRuns isSpace text)
                  (fun w => String.eqb w (toUpperCase w) && (2 <? String.length w)%nat))
      as [Hlo Hhi].
    set (ratio := nat2Q _ / len _) in *.
    assert (H0 : toFixed1 0 == 0) by apply (toFixed1_whole 0).
    assert (H100 : toFixed1 100 == 100) by apply (toFixed1_whole 100).
    assert (Ha : toFixed1 0 <= toFixed1 (ratio * 100)) by (apply toFixed1_le; lra).
    assert (Hb : toFixed1 (ratio * 100) <= toFixed1 100) by (apply toFixed1_le; lra).
    set (shown := toFixed1 (ratio * 100)) in *. lra.
Qed.
End VerdictExtras.

(** X14 at concrete inputs: three sensational words without a source, then
    five. *)
Lemma penalties_decide_label_witness :
  FakeNewsDetector.label
    (FakeNewsDetector.analyzeText asciiLowerCase asciiUpperCase Samples.zeros
       "Shocking secret exposed") <> "Likely Authentic"
  /\ FakeNewsDetector.label
       (FakeNewsDetector.analyzeText asciiLowerCase asciiUpperCase Samples.zeros
          "Shocking secret exposed in bombshell scandal") = "Likely Fake".
Proof.
  assert (Hdraw : (Samples.zeros 0%nat < 1)%Q) by reflexivity.
  split.
  - destruct (penalties_decide_label asciiLowerCase asciiUpperCase Samples.zeros
                "Shocking secret exposed" Hdraw) as [Hnot _].
    apply Hnot. left. split; [vm_compute; reflexivity|vm_compute; lia].
  - destruct (penalties_decide_label asciiLowerCase asciiUpperCase Samples.zeros
                "Shocking secret exposed in bombshell scandal" Hdraw) as [_ Hfake].
    apply Hfake. left. split; [vm_compute; reflexivity|vm_compute; lia].
Defined.

(** X15 on a text of four sentences. *)
Lemma claims_are_bounded_witness :
  Forall (fun c => exists name,
              FakeNewsDetector.source c = Some name /\ In name FakeNewsDetector.sources)
         (FakeNewsDetector.claims
            (FakeNewsDetector.analyzeText asciiLowerCase asciiUpperCase Samples.zeros
               "Prices rose. Experts say more is to come. Stay tuned. Bye.")).
Proof.
  destruct (claims_are_bounded asciiLowerCase asciiUpperCase Samples.zeros
              "Prices rose. Experts say more is to come. Stay tuned. Bye.")
    as (_ & _ & Hsources).
  apply Hsources. intros n. split; [discriminate|reflexivity].
Defined.

(** X16 at a concrete input: "doctor" makes the text one about health. *)
Lemma topics_follow_keywords_witness :
  In "health"
     (FakeNewsDetector.topics
        (FakeNewsDetector.analyzeText asciiLowerCase asciiUpperCase Samples.zeros
           "The doctor was late")).
Proof.
  destruct (topics_follow_keywords asciiLowerCase asciiUpperCase Samples.zeros
              "The doctor was late") as (_ & Htopic & _).
  apply (Htopic "health"
           ["vaccine"; "covid"; "health"; "medicine"; "doctor"; "hospital"; "disease"]).
  - right. left. reflexivity.
  - vm_compute. reflexivity.
Defined.

(** The label is decided before the score is rounded: a score of 69.99 is
    shown as 70.0 and labelled "Questionable". *)
Example label_decided_before_rounding :
  let v := FakeNewsDetector.analyzeText asciiLowerCase asciiUpperCase
             (fun _ => 499 # 1000)
             "According to officials the view was amazing" in
  (FakeNewsDetector.score v == 70)%Q /\ FakeNewsDetector.label v = "Questionable".
Proof. vm_compute. split; reflexivity. Qed.

(** ** The forms *)

Section FormFacts.
Import FakeNewsDetector.
Local Open Scope Q_scope.

(** [Math.floor(100000 + r * 900000)] has six digits. *)
Lemma identifier_range (r : Q) :
  0 <= r < 1 -> (100000 <= Qfloor (100000 + r * 900000) <= 999999)%Z.
Proof.
  intros [Hlo Hhi]. split.
  - change 100000%Z with (Qfloor (inject_Z 100000)) at 1.
    apply Qfloor_resp_le. change (inject_Z 100000) with 100000. lra.
  - pose proof (Qfloor_le (100000 + r * 900000)) as Hf.
    assert (H : inject_Z (Qfloor (100000 + r * 900000)) < inject_Z 1000000).
    { eapply Qle_lt_trans; [exact Hf|]. change (inject_Z 1000000) with 1000000. lra. }
    rewrite <- Zlt_Qlt in H. lia.
Qed.

Lemma second_article (r : Q) :
  1 # 2 <= r < 1 -> NewsForm.article r = List.nth 1 NewsForm.articles "undefined".
Proof.
  intros [Hlo Hhi]. unfold NewsForm.article.
  assert (Hidx : Qfloor (r * 2) = 1%Z).
  { assert (H1 : (1 <= Qfloor (r * 2))%Z).
    { change 1%Z with (Qfloor (inject_Z 1)) at 1. apply Qfloor_resp_le.
      change (inject_Z 1) with 1. lra. }
    pose proof (Qfloor_le (r * 2)) as Hf.
    assert (H2 : inject_Z (Qfloor (r * 2)) < inject_Z 2).
    { eapply Qle_lt_trans; [exact Hf|]. change (inject_Z 2) with 2. lra. }
    rewrite <- Zlt_Qlt in H2. lia. }
  rewrite Hidx. reflexivity.
Qed.

Lemma first_article (r : Q) :
  0 <= r < 1 # 2 -> NewsForm.article r = List.nth 0 NewsForm.articles "undefined".
Proof.
  intros [Hlo Hhi]. unfold NewsForm.article.
  assert (Hidx : Qfloor (r * 2) = 0%Z).
  { assert (H1 : (0 <= Qfloor (r * 2))%Z).
    { change 0%Z with (Qfloor (inject_Z 0)) at 1. apply Qfloor_resp_le.
      change (inject_Z 0) with 0. lra. }
    pose proof (Qfloor_le (r * 2)) as Hf.
    assert (H2 : inject_Z (Qfloor (r * 2)) < inject_Z 1).
    { eapply Qle_lt_trans; [exact Hf|]. change (inject_Z 1) with 1. lra. }
    rewrite <- Zlt_Qlt in H2. lia. }
  rewrite Hidx. reflexivity.
Qed.

(** With a draw in [0, 1) the article is one of the two. *)
Lemma article_listed (r : Q) : 0 <= r < 1 -> In (NewsForm.article r) NewsForm.articles.
Proof.
  intros [Hlo Hhi]. destruct (Qlt_le_dec r (1 # 2)) as [Hlt|Hge].
  - rewrite first_article by (split; assumption). left. reflexivity.
  - rewrite second_article by (split; assumption). right. left. reflexivity.
Qed.

Lemma mapChars_app (f : ascii -> ascii) (a b : string) :
  mapChars f (a ++ b) = mapChars f a ++ mapChars f b.
Proof.
  induction a as [|x a IH]; [reflexivity|].
  rewrite string_app_cons. cbn [mapChars]. rewrite string_app_cons, IH. reflexivity.
Qed.

Lemma includes_app_r (a b k : string) :
  includes b k = true -> includes (a ++ b) k = true.
Proof.
  rewrite !includes_iff. intros (pre & post & ->).
  exists (a ++ pre), post. rewrite string_app_assoc. reflexivity.
Qed.

Lemma prefix_substring (n : nat) (s : string) :
  String.prefix (String.substring 0 n s) s = true.
Proof.
  revert s. induction n as [|n IH]; intros [|c s]; try reflexivity.
  cbn [String.substring]. apply prefix_cons. split; [reflexivity|apply IH].
Qed.

Lemma countHits_one (text a : string) (words : list string) :
  In a words -> includes text a = true -> (1 <= countHits text words)%nat.
Proof.
  intros Ha Hta. unfold countHits.
  assert (Hin : In a (List.filter (includes text) words)) by (apply filter_In; split; assumption).
  destruct (List.filter (includes text) words); [destruct Hin|cbn; lia].
Qed.
End FormFacts.

Section FormExtras.
Import FakeNewsDetector.
Variables toLowerCase toUpperCase trim : string -> string.
Local Open Scope Q_scope.

(** X18 -- Submitting a ticket.  When [trim] leaves nothing of the subject
    or of the description, the handler changes nothing.  Otherwise it ends
    without an exception: one ticket is put in front of the earlier ones,
    which stay as they were; the ticket carries the subject and the
    description as typed, the classification of [classifyTicket] and the
    status "Open"; the form is cleared; with a draw in [0, 1) the number of
    the identifier has six digits. *)
Theorem ticket_submission (random : nat -> Q) (now : string) (st : TicketForm.State) :
  ((trim (TicketForm.subject st) = "" \/ trim (TicketForm.description st) = "") ->
   TicketForm.handleSubmit toLowerCase trim random now st = Ok st)
  /\ (trim (TicketForm.subject st) <> "" ->
      trim (TicketForm.description st) <> "" ->
      exists t,
        TicketForm.handleSubmit toLowerCase trim random now st
        = Ok {| TicketForm.subject := "";
                TicketForm.description := "";
                TicketForm.loading := false;
                TicketForm.tickets := t :: TicketForm.tickets st;
                TicketForm.selectedTicket := TicketForm.selectedTicket st;
                TicketForm.processingStep := "" |}
        /\ TicketForm.Ticket.subject t = TicketForm.subject st
        /\ TicketForm.Ticket.description t = TicketForm.description st
        /\ TicketForm.Ticket.status t = "Open"
        /\ TicketForm.Ticket.created_at t = now
        /\ SupportTickets.classifyTicket toLowerCase (random 5%nat)
             (TicketForm.subject st) (TicketForm.description st)
           = Ok (TicketForm.Ticket.classification t)
        /\ (0 <= random 6%nat < 1 ->
            (100000 <= TicketForm.Ticket.id t <= 999999)%Z)).
Proof.
  unfold TicketForm.handleSubmit. split.
  - intros [H|H]; rewrite H; [reflexivity|]. rewrite orb_true_r. reflexivity.
  - intros Hs Hd. apply String.eqb_neq in Hs, Hd. rewrite Hs, Hd. cbn [orb].
    destruct (classifyTicket_ok toLowerCase (random 5%nat) (TicketForm.subject st)
                (TicketForm.description st)) as (info & c & _ & Hc & _).
    rewrite Hc. eexists. split; [reflexivity|]. cbn.
    repeat (split; [reflexivity|]). apply identifier_range.
Qed.

(** X19 -- Running an analysis.  When [trim] leaves nothing of the content
    the handler changes nothing.  Otherwise the verdict becomes the result,
    and a check with the score and the label of that verdict and the first
    50 characters of the content at most is put in front of the recent
    checks, of which the five most recent are kept; the inputs stay as
    typed.  In the mode "text" the verdict is the one of the typed text. *)
Theorem analysis_keeps_five_checks (random : nat -> Q) (now : string) (st : NewsForm.State) :
  let content := if String.eqb (NewsForm.inputMode st) "text"
                 then NewsForm.inputText st else NewsForm.inputUrl st in
  let st' := NewsForm.handleAnalyze toLowerCase toUpperCase trim random now st in
  (trim content = "" -> st' = st)
  /\ (trim content <> "" ->
      exists v c,
        NewsForm.result st' = Some v
        /\ NewsForm.recentChecks st' = firstn 5 (c :: NewsForm.recentChecks st)
        /\ NewsForm.Entry.score c = score v
        /\ NewsForm.Entry.label c = label v
        /\ String.prefix (NewsForm.Entry.text c) content = true
        /\ (String.length (NewsForm.Entry.text c) <= 50)%nat
        /\ (List.length (NewsForm.recentChecks st') <= 5)%nat
        /\ NewsForm.inputText st' = NewsForm.inputText st
        /\ NewsForm.inputUrl st' = NewsForm.inputUrl st
        /\ NewsForm.inputMode st' = NewsForm.inputMode st
        /\ (NewsForm.inputMode st = "text" ->
            v = analyzeText toLowerCase toUpperCase (fun n => random (6 + n)%nat)
                  (NewsForm.inputText st))).
Proof.
  cbv zeta. unfold NewsForm.handleAnalyze. cbv zeta.
  set (content := if String.eqb (NewsForm.inputMode st) "text"
                  then NewsForm.inputText st else NewsForm.inputUrl st).
  split.
  - intros ->. reflexivity.
  - intros Hc. apply String.eqb_neq in Hc. rewrite Hc.
    destruct (NewsForm.textToAnalyze random st) as [text drawn] eqn:Htext.
    do 2 eexists. cbn [NewsForm.result NewsForm.recentChecks NewsForm.inputText
                       NewsForm.inputUrl NewsForm.inputMode].
    split; [reflexivity|]. split; [reflexivity|].
    cbn [NewsForm.Entry.score NewsForm.Entry.label NewsForm.Entry.text].
    split; [reflexivity|]. split; [reflexivity|].
    split; [apply prefix_substring|]. split; [apply substring_length|].
    split; [rewrite length_firstn; apply Nat.le_min_l|].
    repeat (split; [reflexivity|]).
    intros Hmode. unfold NewsForm.textToAnalyze in Htext. rewrite Hmode in Htext.
    cbn in Htext. injection Htext as <- <-. reflexivity.
Qed.
End FormExtras.

(** X18 on an empty form and on a form filled in. *)
Lemma ticket_submission_witness :
  TicketForm.handleSubmit asciiLowerCase FakeNewsDetector.trim Samples.zeros
    "2026-11-03T09:00:00.000Z" Forms.untouched = Ok Forms.untouched
  /\ exists t,
      TicketForm.handleSubmit asciiLowerCase FakeNewsDetector.trim Samples.zeros
        "2026-11-03T09:00:00.000Z" Forms.filled
      = Ok {| TicketForm.subject := "";
              TicketForm.description := "";
              TicketForm.loading := false;
              TicketForm.tickets := [t];
              TicketForm.selectedTicket := None;
              TicketForm.processingStep := "" |}
      /\ TicketForm.Ticket.status t = "Open"
      /\ (100000 <= TicketForm.Ticket.id t <= 999999)%Z.
Proof.
  split.
  - destruct (ticket_submission asciiLowerCase FakeNewsDetector.trim Samples.zeros
                "2026-11-03T09:00:00.000Z" Forms.untouched) as [Hblank _].
    apply Hblank. left. reflexivity.
  - destruct (ticket_submission asciiLowerCase FakeNewsDetector.trim Samples.zeros
                "2026-11-03T09:00:00.000Z" Forms.filled) as [_ Hfilled].
    destruct Hfilled as (t & Hrun & _ & _ & Hstatus & _ & _ & Hid);
      [vm_compute; discriminate|vm_compute; discriminate|].
    exists t. split; [exact Hrun|]. split; [exact Hstatus|].
    apply Hid. split; [discriminate|reflexivity].
Defined.

(** X19 on an idle form and on a form with a text typed. *)
Lemma analysis_keeps_five_checks_witness :
  NewsForm.handleAnalyze asciiLowerCase asciiUpperCase FakeNewsDetector.trim
    Samples.zeros "09:00:00" Forms.idle
  = Forms.idle
  /\ exists v c,
      NewsForm.result
        (NewsForm.handleAnalyze asciiLowerCase asciiUpperCase FakeNewsDetector.trim
           Samples.zeros "09:00:00" Forms.typed) = Some v
      /\ NewsForm.recentChecks
           (NewsForm.handleAnalyze asciiLowerCase asciiUpperCase FakeNewsDetector.trim
              Samples.zeros "09:00:00" Forms.typed) = [c]
      /\ NewsForm.Entry.label c = FakeNewsDetector.label v.
Proof.
  split.
  - destruct (analysis_keeps_five_checks asciiLowerCase asciiUpperCase
                FakeNewsDetector.trim Samples.zeros "09:00:00" Forms.idle) as [Hblank _].
    apply Hblank. reflexivity.
  - destruct (analysis_keeps_five_checks asciiLowerCase asciiUpperCase
                FakeNewsDetector.trim Samples.zeros "09:00:00" Forms.typed) as [_ Htyped].
    destruct Htyped as (v & c & Hresult & Hchecks & _ & Hlabel & _);
      [vm_compute; discriminate|].
    exists v, c. split; [exact Hresult|]. split; [exact Hchecks|exact Hlabel].
Defined.

Section UrlExtras.
Import FakeNewsDetector.
Variables toLowerCase toUpperCase trim : string -> string.
Local Open Scope Q_scope.

(** What the statement uses of [String.prototype.toLowerCase]: the
    characters of the second article, which are among the first 128, are
    folded one by one, whatever stands before them. *)
Hypothesis toLowerCase_article :
  forall before : string,
    exists folded : string,
      toLowerCase (before ++ List.nth 1 NewsForm.articles "undefined")
      = folded ++ asciiLowerCase (List.nth 1 NewsForm.articles "undefined").

(** X20 -- The second article is never authentic.  In the mode "url", with
    a URL of which [trim] leaves something, the verdict is the one of the
    text made of "Article from ", the URL, ". " and one of the two stock
    articles: the page behind the URL is not read.  When the draw picks the
    second article (a draw in [1/2, 1)) and the jitter draw is below 1, the
    label is never "Likely Authentic", whatever the URL. *)
Theorem second_article_never_authentic (random : nat -> Q) (now : string)
    (st : NewsForm.State) :
  NewsForm.inputMode st = "url" ->
  trim (NewsForm.inputUrl st) <> "" ->
  0 <= random 6%nat < 1 ->
  exists article v,
    In article NewsForm.articles
    /\ v = analyzeText toLowerCase toUpperCase (fun n => random (7 + n)%nat)
             ("Article from " ++ NewsForm.inputUrl st ++ ". " ++ article)
    /\ NewsForm.result
         (NewsForm.handleAnalyze toLowerCase toUpperCase trim random now st) = Some v
    /\ (1 # 2 <= random 6%nat ->
        random 7%nat < 1 ->
        article = List.nth 1 NewsForm.articles "undefined"
        /\ label v <> "Likely Authentic").
Proof.
  intros Hmode Hurl Hdraw.
  exists (NewsForm.article (random 6%nat)). eexists.
  split; [exact (article_listed _ Hdraw)|]. split; [reflexivity|]. split.
  { unfold NewsForm.handleAnalyze, NewsForm.textToAnalyze. rewrite Hmode.
    cbn [String.eqb Ascii.eqb Bool.eqb]. cbv zeta.
    apply String.eqb_neq in Hurl. rewrite Hurl. reflexivity. }
  intros Hpick Hjitter.
  rewrite (second_article (random 6%nat)) by (split; [exact Hpick|apply Hdraw]).
  split; [reflexivity|].
  set (text := "Article from " ++ NewsForm.inputUrl st ++ ". "
               ++ List.nth 1 NewsForm.articles "undefined").
  destruct (label_by_penalties toLowerCase toUpperCase (fun n => random (7 + n)%nat) text
              Hjitter) as [Hnot _].
  apply Hnot. right.
  assert (Hart : includes (toLowerCase text)
                          (asciiLowerCase (List.nth 1 NewsForm.articles "undefined")) = true).
  { destruct (toLowerCase_article ("Article from " ++ NewsForm.inputUrl st ++ ". "))
      as [folded Hfolded].
    replace text
      with (("Article from " ++ NewsForm.inputUrl st ++ ". ")
            ++ List.nth 1 NewsForm.articles "undefined")
      by (unfold text; rewrite <- !string_app_assoc; reflexivity).
    rewrite Hfolded. apply includes_app_r, includes_refl. }
  assert (Hhit : forall k,
             includes (asciiLowerCase (List.nth 1 NewsForm.articles "undefined")) k = true ->
             includes (toLowerCase text) k = true).
  { intros k Hk. exact (includes_trans _ _ _ Hart Hk). }
  assert (Hs : (2 <= countHits (toLowerCase text) sensationalWords)%nat).
  { apply (countHits_two _ "shocking" "breaking"); [discriminate|cbn; tauto|cbn; tauto| |];
      apply Hhit; vm_compute; reflexivity. }
  assert (He : (1 <= countHits (toLowerCase text) emotionalWords)%nat).
  { apply (countHits_one _ "shocking"); [cbn; tauto|]. apply Hhit. vm_compute. reflexivity. }
  assert (Hc : (1 <= countHits (toLowerCase text) clickbaitPhrases)%nat).
  { apply (countHits_one _ "you won't believe"); [cbn; tauto|].
    apply Hhit. vm_compute. reflexivity. }
  lia.
Qed.
End UrlExtras.

(** Folding the first 128 characters one by one folds the end of a text as
    it folds that end alone. *)
Lemma asciiLowerCase_article (before : string) :
  exists folded : string,
    asciiLowerCase (before ++ List.nth 1 NewsForm.articles "undefined")
    = folded ++ asciiLowerCase (List.nth 1 NewsForm.articles "undefined").
Proof. exists (asciiLowerCase before). unfold asciiLowerCase. apply mapChars_app. Qed.

(** X20 on a form with a URL typed, every draw being 0.9. *)
Lemma second_article_never_authentic_witness :
  exists v,
    NewsForm.result
      (NewsForm.handleAnalyze asciiLowerCase asciiUpperCase FakeNewsDetector.trim
         Samples.nines "09:00:00" Forms.linked) = Some v
    /\ FakeNewsDetector.label v <> "Likely Authentic".
Proof.
  destruct (second_article_never_authentic asciiLowerCase asciiUpperCase
              FakeNewsDetector.trim asciiLowerCase_article Samples.nines "09:00:00"
              Forms.linked)
    as (article & v & _ & _ & Hresult & Hlabel).
  - reflexivity.
  - vm_compute. discriminate.
  - split; [discriminate|reflexivity].
  - exists v. split; [exact Hresult|].
    apply Hlabel; [discriminate|reflexivity].
Defined.

(** ** [extractSkills] *)

Section SkillExtras.
Variable toLowerCase : string -> string.
Import ResumeScreening.

(** X21 -- Skills are found as substrings.  The skills found are listed in
    the order of the skill table, each once; whenever the name of a skill
    of the table occurs inside the name of a skill that was found, it is
    found as well: "javascript" brings "java", "postgresql" brings "sql",
    "django" and "mongodb" bring "go". *)
Theorem skills_by_substring (text : string) :
  let found := extractSkills toLowerCase text in
  sublist found skillKeywords
  /\ (forall longer shorter,
         In shorter skillKeywords -> includes longer shorter = true ->
         In longer found -> In shorter found)
  /\ (In "javascript" found -> In "java" found)
  /\ (In "postgresql" found -> In "sql" found)
  /\ (In "django" found -> In "go" found)
  /\ (In "mongodb" found -> In "go" found).
Proof.
  cbv zeta. unfold extractSkills.
  assert (Hgeneral : forall longer shorter,
             In shorter skillKeywords -> includes longer shorter = true ->
             In longer (List.filter (fun skill => includes (toLowerCase text) skill)
                                    skillKeywords) ->
             In shorter (List.filter (fun skill => includes (toLowerCase text) skill)
                                     skillKeywords)).
  { intros longer shorter Hin Hsub Hfound. apply filter_In in Hfound as [_ Hhit].
    apply filter_In. split; [exact Hin|]. exact (includes_trans _ _ _ Hhit Hsub). }
  split; [apply filter_sublist|]. split; [exact Hgeneral|].
  repeat split; apply Hgeneral; try reflexivity; cbn; tauto.
Qed.
End SkillExtras.

(** X21 at a concrete input. *)
Lemma skills_by_substring_witness :
  In "java" (ResumeScreening.extractSkills asciiLowerCase "JavaScript and PostgreSQL")
  /\ In "sql" (ResumeScreening.extractSkills asciiLowerCase "JavaScript and PostgreSQL").
Proof.
  destruct (skills_by_substring asciiLowerCase "JavaScript and PostgreSQL")
    as (_ & _ & Hjava & Hsql & _).
  split; [apply Hjava|apply Hsql]; vm_compute; tauto.
Defined.

(** ** Sessions *)

Section SessionFacts.
Import Auth Login ApiClient.

Lemma orString_truthy (a : option string) (b : string) :
  b <> "" -> truthy (Some (orString a b)) = true.
Proof.
  intros Hb. destruct a as [[|c s]|]; cbn; try reflexivity; destruct b; congruence.
Qed.

Lemma orString_self (s : string) : s <> "" -> orString (Some s) "User" = s.
Proof. destruct s; [congruence|reflexivity]. Qed.

Lemma open_storage (stamp1 stamp2 : string) (st : Session) (name role : string) :
  let store := storage (open stamp1 stamp2 st name role) in
  store !! "user_id" = Some ("user_" ++ stamp1)
  /\ store !! "user_role" = Some role
  /\ store !! "session_id" = Some ("session_" ++ stamp2)
  /\ store !! "username" = Some name
  /\ (forall k, k <> "user_id" -> k <> "user_role" -> k <> "session_id" -> k <> "username" ->
                store !! k = storage st !! k).
Proof.
  cbv zeta. unfold open. cbn [storage].
  repeat split.
  - rewrite !lookup_insert_ne by discriminate. apply lookup_insert_eq.
  - rewrite !lookup_insert_ne by discriminate. apply lookup_insert_eq.
  - rewrite lookup_insert_ne by discriminate. apply lookup_insert_eq.
  - apply lookup_insert_eq.
  - intros k H1 H2 H3 H4. rewrite !lookup_insert_ne by congruence. reflexivity.
Qed.

Lemma open_restore (stamp1 stamp2 : string) (st : Session) (name role : string) :
  restore (storage (open stamp1 stamp2 st name role))
  = if truthy (Some role)
    then Some {| id := "user_" ++ stamp1; role := role;
                 username := orString (Some name) "User" |}
    else None.
Proof.
  destruct (open_storage stamp1 stamp2 st name role) as (Hid & Hrole & _ & Hname & _).
  unfold restore. rewrite Hid, Hrole, Hname. reflexivity.
Qed.

Lemma open_inject (stamp1 stamp2 : string) (st : Session) (name role : string) :
  role <> "" ->
  inject (storage (open stamp1 stamp2 st name role)) ∅
  = <["x-session-id" := "session_" ++ stamp2]>
      (<["x-user-role" := role]> (<["x-user-id" := "user_" ++ stamp1]> ∅)).
Proof.
  intros Hrole.
  destruct (open_storage stamp1 stamp2 st name role) as (Hid & Hr & Hsession & _ & _).
  unfold inject. rewrite Hid, Hr, Hsession.
  destruct role as [|c s]; [congruence|]. reflexivity.
Qed.
End SessionFacts.

Section SessionExtras.
Import Auth Login ApiClient.

(** X22 -- A session survives a reload.  [login] accepts any user name and
    any password.  The role of the session is the one passed, else the one
    stored under "login_role", else "citizen", and is never empty; the
    session read back from the storage when the provider mounts has the
    same identifier and role as the live one, and the same user name unless
    that is empty, which reads back as "User"; requests carry the
    identifier, the role and the session identifier.  [signup] does the
    same with the role as passed, but an empty role leaves a live session
    that is not read back. *)
Theorem session_survives_reload (stamp1 stamp2 : string) (st : Session)
    (username password role : string) :
  (exists r,
      r = orString (Some role) (orString (storage st !! "login_role") "citizen")
      /\ r <> ""
      /\ user (login stamp1 stamp2 st username password role)
         = Some {| id := "user_" ++ stamp1; role := r; username := username |}
      /\ restore (storage (login stamp1 stamp2 st username password role))
         = Some {| id := "user_" ++ stamp1; role := r;
                   username := orString (Some username) "User" |}
      /\ inject (storage (login stamp1 stamp2 st username password role)) ∅
         = <["x-session-id" := "session_" ++ stamp2]>
             (<["x-user-role" := r]> (<["x-user-id" := "user_" ++ stamp1]> ∅)))
  /\ user (signup stamp1 stamp2 st username password role)
     = Some {| id := "user_" ++ stamp1; role := role; username := username |}
  /\ (role <> "" ->
      restore (storage (signup stamp1 stamp2 st username password role))
      = Some {| id := "user_" ++ stamp1; role := role;
                username := orString (Some username) "User" |})
  /\ (role = "" ->
      restore (storage (signup stamp1 stamp2 st username password role)) = None).
Proof.
  split; [|split; [reflexivity|split]].
  - eexists. split; [reflexivity|].
    set (r := orString (Some role) (orString (storage st !! "login_role") "citizen")).
    assert (Htruthy : truthy (Some r) = true).
    { apply orString_truthy. intros H.
      pose proof (orString_truthy (storage st !! "login_role") "citizen") as Hc.
      rewrite H in Hc. discriminate Hc. discriminate. }
    assert (Hne : r <> "") by (intros H; rewrite H in Htruthy; discriminate).
    split; [exact Hne|]. split; [reflexivity|]. unfold login. fold r. split.
    + rewrite open_restore, Htruthy. reflexivity.
    + apply open_inject. exact Hne.
  - intros Hrole. unfold signup. rewrite open_restore.
    destruct role; [congruence|reflexivity].
  - intros ->. unfold signup. rewrite open_restore. reflexivity.
Qed.

(** X23 -- Logging out.  After [logout] there is no user, nothing is read
    back when the provider mounts, requests carry no identity header, and
    the five keys of the session are gone from the storage while every
    other key keeps its value. *)
Theorem logout_clears_session (st : Session) (headers : gmap string string) :
  user (logout st) = None
  /\ isAuthenticated (logout st) = false
  /\ restore (storage (logout st)) = None
  /\ inject (storage (logout st)) headers = headers
  /\ Forall (fun k => storage (logout st) !! k = None)
            ["user_id"; "user_role"; "session_id"; "username"; "login_role"]
  /\ (forall k, ~ In k ["user_id"; "user_role"; "session_id"; "username"; "login_role"] ->
                storage (logout st) !! k = storage st !! k).
Proof.
  assert (Hid : storage (logout st) !! "user_id" = None).
  { cbn [logout storage]. rewrite !lookup_delete_ne by discriminate. apply lookup_delete_eq. }
  assert (Hrole : storage (logout st) !! "user_role" = None).
  { cbn [logout storage]. rewrite !lookup_delete_ne by discriminate. apply lookup_delete_eq. }
  assert (Hsession : storage (logout st) !! "session_id" = None).
  { cbn [logout storage]. rewrite !lookup_delete_ne by discriminate. apply lookup_delete_eq. }
  assert (Hname : storage (logout st) !! "username" = None).
  { cbn [logout storage]. rewrite !lookup_delete_ne by discriminate. apply lookup_delete_eq. }
  assert (Hlogin : storage (logout st) !! "login_role" = None).
  { cbn [logout storage]. apply lookup_delete_eq. }
  split; [reflexivity|]. split; [reflexivity|]. split.
  { unfold restore. rewrite Hid. reflexivity. }
  split.
  { unfold inject. rewrite Hid, Hrole, Hsession. reflexivity. }
  split.
  { repeat (apply List.Forall_cons; [assumption|]). apply List.Forall_nil. }
  intros k Hk. cbn [logout storage].
  rewrite !lookup_delete_ne; [reflexivity| | | | |]; intros <-; apply Hk; cbn; tauto.
Qed.

(** X24 -- Where the login page leads.  After its [handleSubmit] the user is
    authenticated with the role of the query string, "government" when
    the query names none.  The page navigates to the government dashboard
    exactly for the role "government" and to the citizen dashboard
    exactly for "citizen"; with any other role it navigates nowhere
    although the user is authenticated. *)
Theorem login_page_destination (isLogin : bool) (stamp1 stamp2 : string) (st : Session)
    (query : option string) (username password : string) :
  let st' := handleSubmit isLogin stamp1 stamp2 st query username password in
  isAuthenticated st' = true
  /\ user st' = Some {| id := "user_" ++ stamp1; role := roleParam query;
                        username := username |}
  /\ storage st' !! "login_role" = Some (roleParam query)
  /\ ((query = None \/ query = Some "") -> destination st' = Some "/government/dashboard")
  /\ (destination st' = Some "/government/dashboard" <-> roleParam query = "government")
  /\ (destination st' = Some "/citizen/dashboard" <-> roleParam query = "citizen")
  /\ (destination st' = None
      <-> roleParam query <> "government" /\ roleParam query <> "citizen").
Proof.
  cbv zeta.
  assert (Hrole : orString (Some (roleParam query))
                    (orString (<["login_role" := roleParam query]> (storage st)
                               !! "login_role") "citizen") = roleParam query).
  { unfold roleParam. destruct query as [[|c s]|]; reflexivity. }
  assert (Huser : user (handleSubmit isLogin stamp1 stamp2 st query username password)
                  = Some {| id := "user_" ++ stamp1; role := roleParam query;
                            username := username |}).
  { unfold handleSubmit. destruct isLogin; [|reflexivity].
    unfold login. cbn [storage]. rewrite Hrole. reflexivity. }
  assert (Hdest : destination (handleSubmit isLogin stamp1 stamp2 st query username password)
                  = if String.eqb (roleParam query) "government"
                    then Some "/government/dashboard"
                    else if String.eqb (roleParam query) "citizen"
                         then Some "/citizen/dashboard" else None).
  { unfold destination, isAuthenticated, isGovernment, isCitizen. rewrite Huser.
    reflexivity. }
  split; [unfold isAuthenticated; rewrite Huser; reflexivity|].
  split; [exact Huser|]. split.
  { unfold handleSubmit.
    destruct isLogin; unfold login, signup;
      match goal with
      | |- storage (open ?a ?b ?s ?n ?r) !! _ = _ =>
          destruct (open_storage a b s n r) as (_ & _ & _ & _ & Hother)
      end;
      rewrite Hother by discriminate; cbn [storage]; apply lookup_insert_eq. }
  rewrite Hdest. split.
  { intros [-> | ->]; reflexivity. }
  destruct (String.eqb_spec (roleParam query) "government") as [Hg|Hg].
  - rewrite Hg.
    repeat split; try discriminate; try tauto; try congruence;
      try (intros [H1 H2]; congruence).
  - destruct (String.eqb_spec (roleParam query) "citizen") as [Hc|Hc];
      repeat split; try discriminate; try tauto; try congruence;
        try (intros [H1 H2]; congruence).
Qed.
End SessionExtras.

(** X22 in a fresh browser: a login without a role, a signup as a citizen
    and a signup with an empty role. *)
Lemma session_survives_reload_witness :
  Auth.restore (Auth.storage (Auth.login "1793696400000" "1793696400001" Forms.fresh
                                "asha" "secret" ""))
  = Some {| Auth.id := "user_1793696400000"; Auth.role := "citizen";
            Auth.username := "asha" |}
  /\ Auth.restore (Auth.storage (Auth.signup "1793696400000" "1793696400001" Forms.fresh
                                   "asha" "secret" "citizen"))
     = Some {| Auth.id := "user_1793696400000"; Auth.role := "citizen";
               Auth.username := "asha" |}
  /\ Auth.restore (Auth.storage (Auth.signup "1793696400000" "1793696400001" Forms.fresh
                                   "asha" "secret" "")) = None.
Proof.
  split; [|split].
  - destruct (session_survives_reload "1793696400000" "1793696400001" Forms.fresh
                "asha" "secret" "") as [(r & Hr & _ & _ & Hrestore & _) _].
    rewrite Hrestore, Hr. reflexivity.
  - destruct (session_survives_reload "1793696400000" "1793696400001" Forms.fresh
                "asha" "secret" "citizen") as (_ & _ & Hrestore & _).
    apply Hrestore. discriminate.
  - destruct (session_survives_reload "1793696400000" "1793696400001" Forms.fresh
                "asha" "secret" "") as (_ & _ & _ & Hlost).
    apply Hlost. reflexivity.
Defined.

(** X23 in a fresh browser: the stored theme survives the logout. *)
Lemma logout_clears_session_witness :
  Auth.storage (Auth.logout Forms.fresh) !! "theme" = Some "dark".
Proof.
  destruct (logout_clears_session Forms.fresh ∅) as (_ & _ & _ & _ & _ & Hkept).
  rewrite Hkept; [reflexivity|].
  cbn. intros H. repeat (destruct H as [H|H]; [discriminate H|]). exact H.
Defined.

(** X24 on a login page opened without a role in the query string. *)
Lemma login_page_destination_witness :
  Login.destination (Login.handleSubmit true "1793696400000" "1793696400001" Forms.fresh
                      None "asha" "secret")
  = Some "/government/dashboard".
Proof.
  destruct (login_page_destination true "1793696400000" "1793696400001" Forms.fresh
              None "asha" "secret") as (_ & _ & _ & Hdefault & _).
  apply Hdefault. left. reflexivity.
Defined.

(** ** Routes *)

Section RouteFacts.
Import Auth Login Routing.

Lemma guarded_roles (path requireRole page : string) :
  In (path, (requireRole, page)) guarded ->
  member guarded path = Some (requireRole, page)
  /\ path <> "/" /\ path <> "/login"
  /\ (requireRole = "government" \/ requireRole = "citizen").
Proof.
  intros Hin. cbn in Hin.
  repeat (destruct Hin as [Hin|Hin];
          [injection Hin as <- <- <-;
           repeat split; try reflexivity; try discriminate; tauto|]).
  destruct Hin.
Qed.

Lemma AppRoutes_guarded (loading : bool) (st : Session) (path requireRole page : string) :
  In (path, (requireRole, page)) guarded ->
  AppRoutes loading st path = ProtectedRoute loading st page (Some requireRole).
Proof.
  intros Hin. destruct (guarded_roles _ _ _ Hin) as (Hm & Hroot & Hlogin & _).
  unfold AppRoutes.
  destruct (String.eqb_spec path "/") as [H|_]; [contradiction|].
  destruct (String.eqb_spec path "/login") as [H|_]; [contradiction|].
  rewrite Hm. reflexivity.
Qed.
Lemma guard_routes_aux (st : Session) (path requireRole page : string) :
  In (path, (requireRole, page)) guarded ->
  (user st = None -> AppRoutes false st path = Navigate "/login")
  /\ (forall u, user st = Some u -> role u = requireRole ->
                AppRoutes false st path = Page page)
  /\ (forall u, user st = Some u -> role u <> requireRole ->
                AppRoutes false st path
                = Navigate (if String.eqb (role u) "government"
                            then "/government/dashboard" else "/citizen/dashboard")).
Proof.
  intros Hin. rewrite (AppRoutes_guarded false st _ _ _ Hin).
  destruct (guarded_roles _ _ _ Hin) as (_ & _ & _ & Hrole).
  assert (Htruthy : truthy (Some requireRole) = true) by (destruct Hrole as [-> | ->]; reflexivity).
  unfold ProtectedRoute. rewrite Htruthy. cbn [andb].
  split; [|split].
  - intros ->. reflexivity.
  - intros u -> Heq. rewrite (proj2 (String.eqb_eq _ _) Heq). reflexivity.
  - intros u -> Hne. rewrite (proj2 (String.eqb_neq _ _) Hne). reflexivity.
Qed.
End RouteFacts.

Section RouteExtras.
Import Auth Login Routing.

(** X25 -- The guard.  A guarded route shows a page only when the provider
    has finished loading and the user is authenticated with the role the
    route requires, and then it shows the page of the route; without a
    user it navigates to the login page, and with another role to the
    dashboard of the role "government" or else to the citizen
    dashboard. *)
Theorem guard_shows_page_to_role_only (loading : bool) (st : Session)
    (path requireRole page : string) :
  In (path, (requireRole, page)) guarded ->
  (forall shown, AppRoutes loading st path = Page shown ->
                 shown = page /\ loading = false
                 /\ exists u, user st = Some u /\ role u = requireRole)
  /\ (loading = false -> user st = None -> AppRoutes loading st path = Navigate "/login")
  /\ (forall u, loading = false -> user st = Some u -> role u = requireRole ->
                AppRoutes loading st path = Page page)
  /\ (forall u, loading = false -> user st = Some u -> role u <> requireRole ->
                AppRoutes loading st path
                = Navigate (if String.eqb (role u) "government"
                            then "/government/dashboard" else "/citizen/dashboard")).
Proof.
  intros Hin. rewrite (AppRoutes_guarded loading st _ _ _ Hin).
  destruct (guarded_roles _ _ _ Hin) as (_ & _ & _ & Hrole).
  assert (Htruthy : truthy (Some requireRole) = true) by (destruct Hrole as [-> | ->]; reflexivity).
  unfold ProtectedRoute. rewrite Htruthy. cbn [andb].
  split; [|split; [|split]].
  - intros shown. destruct loading; [discriminate|].
    destruct (user st) as [u|]; [|discriminate].
    destruct (String.eqb_spec (role u) requireRole) as [Heq|Hne]; cbn [negb]; [|discriminate].
    intros H. injection H as <-. split; [reflexivity|]. split; [reflexivity|].
    exists u. split; [reflexivity|exact Heq].
  - intros -> ->. reflexivity.
  - intros u -> -> Heq. rewrite (proj2 (String.eqb_eq _ _) Heq). reflexivity.
  - intros u -> -> Hne. rewrite (proj2 (String.eqb_neq _ _) Hne). reflexivity.
Qed.

(** X26 -- Where a visit ends.  From any guarded route, a visitor without a
    session ends on the login page, a government user on the page asked for
    if it is a government page and on the government dashboard otherwise,
    and likewise a citizen.  An authenticated user with any other role is
    shown no guarded page at all: every guarded route navigates to the
    citizen dashboard, whose guard navigates to the citizen dashboard
    again. *)
Theorem visits_end_on_own_pages (st : Session) (path requireRole page : string) :
  In (path, (requireRole, page)) guarded ->
  (user st = None -> forall fuel, visit (2 + fuel) st path = Some "Login")
  /\ (forall u, user st = Some u -> role u = "government" ->
                forall fuel,
                  visit (2 + fuel) st path
                  = Some (if String.eqb requireRole "government"
                          then page else "GovernmentDashboard"))
  /\ (forall u, user st = Some u -> role u = "citizen" ->
                forall fuel,
                  visit (2 + fuel) st path
                  = Some (if String.eqb requireRole "citizen"
                          then page else "CitizenDashboard"))
  /\ (forall u, user st = Some u -> role u <> "government" -> role u <> "citizen" ->
                forall fuel, visit fuel st path = None).
Proof.
  intros Hin.
  destruct (guard_routes_aux st path requireRole page Hin) as (Hnone & Hsame & Hother).
  destruct (guarded_roles _ _ _ Hin) as (_ & _ & _ & Hrole).
  split; [|split; [|split]].
  - intros Huser fuel. cbn [Nat.add visit]. rewrite (Hnone Huser).
    unfold AppRoutes, destination, isAuthenticated. cbn [String.eqb Ascii.eqb Bool.eqb].
    rewrite Huser. reflexivity.
  - intros u Huser Hgov fuel. cbn [Nat.add visit].
    destruct Hrole as [-> | ->].
    + rewrite (Hsame u Huser Hgov). reflexivity.
    + rewrite (Hother u Huser) by (rewrite Hgov; discriminate). rewrite Hgov.
      cbn [String.eqb Ascii.eqb Bool.eqb].
      rewrite (AppRoutes_guarded false st "/government/dashboard" "government"
                 "GovernmentDashboard") by (cbn; tauto).
      unfold ProtectedRoute. rewrite Huser, Hgov. reflexivity.
  - intros u Huser Hcit fuel. cbn [Nat.add visit].
    destruct Hrole as [-> | ->].
    + rewrite (Hother u Huser) by (rewrite Hcit; discriminate). rewrite Hcit.
      cbn [String.eqb Ascii.eqb Bool.eqb].
      rewrite (AppRoutes_guarded false st "/citizen/dashboard" "citizen"
                 "CitizenDashboard") by (cbn; tauto).
      unfold ProtectedRoute. rewrite Huser, Hcit. reflexivity.
    + rewrite (Hsame u Huser Hcit). reflexivity.
  - intros u Huser Hgov Hcit fuel.
    assert (Hloop : forall n, visit n st "/citizen/dashboard" = None).
    { induction n as [|n IH]; [reflexivity|]. cbn [visit].
      rewrite (AppRoutes_guarded false st "/citizen/dashboard" "citizen"
                 "CitizenDashboard") by (cbn; tauto).
      unfold ProtectedRoute. rewrite Huser. cbn [truthy andb].
      rewrite (proj2 (String.eqb_neq _ _) Hcit), (proj2 (String.eqb_neq _ _) Hgov).
      exact IH. }
    destruct fuel as [|fuel]; [reflexivity|]. cbn [visit].
    rewrite (Hother u Huser) by (destruct Hrole as [-> | ->]; assumption).
    rewrite (proj2 (String.eqb_neq _ _) Hgov). apply Hloop.
Qed.
End RouteExtras.

(** X25 for an official who asks for a page of the citizen portal. *)
Lemma guard_shows_page_to_role_only_witness :
  Routing.AppRoutes false Forms.official "/citizen/fake-news"
  = Routing.Navigate "/government/dashboard"
  /\ Routing.AppRoutes false Forms.official "/government/resume-screening"
     = Routing.Page "ResumeScreening".
Proof.
  split.
  - destruct (guard_shows_page_to_role_only false Forms.official "/citizen/fake-news"
                "citizen" "FakeNewsDetector") as (_ & _ & _ & Hother).
    + cbn. tauto.
    + apply (Hother {| Auth.id := "user_1793696400000"; Auth.role := "government";
                       Auth.username := "asha" |});
        [reflexivity|reflexivity|discriminate].
  - destruct (guard_shows_page_to_role_only false Forms.official
                "/government/resume-screening" "government" "ResumeScreening")
      as (_ & _ & Hsame & _).
    + cbn. tauto.
    + apply (Hsame {| Auth.id := "user_1793696400000"; Auth.role := "government";
                      Auth.username := "asha" |}); reflexivity.
Defined.

(** X26 for an official who asks for the chatbot, and for a user whose role
    is "admin" who asks for a dashboard. *)
Lemma visits_end_on_own_pages_witness :
  Routing.visit 2 Forms.official "/citizen/chatbot" = Some "GovernmentDashboard"
  /\ Routing.visit 1000 Forms.stranger "/government/dashboard" = None.
Proof.
  split.
  - destruct (visits_end_on_own_pages Forms.official "/citizen/chatbot" "citizen"
                "RAGChatbot") as (_ & Hgov & _).
    + cbn. tauto.
    + apply (Hgov {| Auth.id := "user_1793696400000"; Auth.role := "government";
                     Auth.username := "asha" |} eq_refl eq_refl 0%nat).
  - destruct (visits_end_on_own_pages Forms.stranger "/government/dashboard" "government"
                "GovernmentDashboard") as (_ & _ & _ & Hloop).
    + cbn. tauto.
    + apply (Hloop {| Auth.id := "user_1793696400000"; Auth.role := "admin";
                      Auth.username := "asha" |}); [reflexivity|discriminate|discriminate].
Defined.

(** ** [toggleType] *)

Section ToggleFacts.
Import TrafficViolations.

Lemma existsb_In (key : string) (l : list string) :
  List.existsb (String.eqb key) l = true <-> In key l.
Proof.
  rewrite List.existsb_exists. split.
  - intros (x & Hx & Heq). apply String.eqb_eq in Heq. subst x. exact Hx.
  - intros Hin. exists key. split; [exact Hin|apply String.eqb_refl].
Qed.

(** One click: the key clicked changes sides, every other key stays. *)
Lemma toggleType_In (key k : string) (prev : list string) :
  In k (toggleType key prev) <-> (if String.eqb k key then ~ In k prev else In k prev).
Proof.
  unfold toggleType. destruct (List.existsb (String.eqb key) prev) eqn:Hex.
  - apply existsb_In in Hex. rewrite filter_In.
    destruct (String.eqb_spec k key) as [->|Hne]; cbn [negb].
    + split; [intros [_ H]; discriminate|intros H; contradiction].
    + split; [intros [H _]; exact H|intros H; split; [exact H|reflexivity]].
  - assert (Hout : ~ In key prev).
    { intros H. apply existsb_In in H. congruence. }
    rewrite in_app_iff. cbn [In].
    destruct (String.eqb_spec k key) as [->|Hne].
    + split; [intros _; exact Hout|intros _; right; left; reflexivity].
    + split; [intros [H|[H|[]]]; [exact H|congruence]|intros H; left; exact H].
Qed.

Lemma toggleType_NoDup (key : string) (prev : list string) :
  List.NoDup prev -> List.NoDup (toggleType key prev).
Proof.
  intros Hnd. unfold toggleType. destruct (List.existsb (String.eqb key) prev) eqn:Hex.
  - apply List.NoDup_filter. exact Hnd.
  - assert (Hout : ~ In key prev).
    { intros H. apply existsb_In in H. congruence. }
    apply NoDup_ListNoDup. apply NoDup_app. split; [apply NoDup_ListNoDup; exact Hnd|].
    split; [|apply NoDup_singleton].
    intros x Hx Hk. apply list_elem_of_singleton in Hk. subst x.
    apply Hout, list_elem_of_In. exact Hx.
Qed.

Lemma toggles_from (clicks : list string) :
  forall prev k,
    List.NoDup prev ->
    List.NoDup (fold_left (fun prev key => toggleType key prev) clicks prev)
    /\ (In k (fold_left (fun prev key => toggleType key prev) clicks prev)
        <-> (if Nat.odd (count_occ string_dec clicks k) then ~ In k prev else In k prev)).
Proof.
  induction clicks as [|key clicks IH]; intros prev k Hnd; cbn [fold_left count_occ].
  - split; [exact Hnd|reflexivity].
  - destruct (IH (toggleType key prev) k (toggleType_NoDup key prev Hnd)) as [Hnd' Hin].
    split; [exact Hnd'|]. rewrite Hin. clear Hin.
    pose proof (toggleType_In key k prev) as Hstep.
    destruct (string_dec key k) as [->|Hne].
    + rewrite String.eqb_refl in Hstep. rewrite Nat.odd_succ, <- Nat.negb_odd.
      destruct (Nat.odd (count_occ string_dec clicks k)); cbn [negb].
      * rewrite Hstep. destruct (in_dec string_dec k prev); tauto.
      * exact Hstep.
    + destruct (String.eqb_spec k key) as [Heq|_]; [congruence|].
      destruct (Nat.odd (count_occ string_dec clicks k)); rewrite Hstep; reflexivity.
Qed.
End ToggleFacts.

Section ToggleExtras.
Import TrafficViolations.

(** X27 -- Selecting violation types.  After any series of clicks, starting
    with nothing selected, a type is selected exactly when it was clicked
    an odd number of times, and no type is listed twice; a click on a type
    that is not selected followed by another click on it gives the former
    list back. *)
Theorem selection_follows_clicks (clicks : list string) :
  List.NoDup (selectedTypes clicks)
  /\ (forall k, In k (selectedTypes clicks) <-> Nat.odd (count_occ string_dec clicks k) = true)
  /\ (forall key prev, ~ In key prev -> toggleType key (toggleType key prev) = prev).
Proof.
  split; [|split].
  - exact (proj1 (toggles_from clicks [] "" (List.NoDup_nil _))).
  - intros k. rewrite (proj2 (toggles_from clicks [] k (List.NoDup_nil _))).
    destruct (Nat.odd (count_occ string_dec clicks k)); cbn [In].
    + split; [reflexivity|]. intros _ H. exact H.
    + split; [intros []|discriminate].
  - intros key prev Hout. unfold toggleType at 2.
    assert (Hno : List.existsb (String.eqb key) prev = false).
    { destruct (List.existsb (String.eqb key) prev) eqn:H; [|reflexivity].
      apply existsb_In in H. contradiction. }
    rewrite Hno. unfold toggleType.
    assert (Hyes : List.existsb (String.eqb key) (prev ++ [key]) = true).
    { apply existsb_In, in_app_iff. right. left. reflexivity. }
    rewrite Hyes. rewrite List.filter_app. cbn [List.filter].
    rewrite String.eqb_refl. cbn [negb]. rewrite app_nil_r.
    induction prev as [|x prev IH]; [reflexivity|]. cbn [List.filter].
    destruct (String.eqb_spec x key) as [->|Hne].
    + exfalso. apply Hout. left. reflexivity.
    + cbn [negb]. f_equal. apply IH.
      * intros H. apply Hout. right. exact H.
      * destruct (List.existsb (String.eqb key) prev) eqn:H; [|reflexivity].
        apply existsb_In in H. exfalso. apply Hout. right. exact H.
      * apply existsb_In, in_app_iff. right. left. reflexivity.
Qed.
End ToggleExtras.

(** X27 at concrete inputs: two clicks on "speeding". *)
Lemma selection_follows_clicks_witness :
  TrafficViolations.toggleType "speeding"
    (TrafficViolations.toggleType "speeding" ["no_helmet"]) = ["no_helmet"].
Proof.
  destruct (selection_follows_clicks []) as (_ & _ & Hback).
  apply Hback. cbn. intros [H|H]; [discriminate H|exact H].
Defined.
